(** * Observable: subscription lifecycle of src/09-observable/index.js

    The library code (the Subscriber built by [subscribe], the Subscription it
    returns, [map], [filter], [take], [skip], [from], [of]) is embedded as Rocq
    functions in a state-and-exception monad over an explicit store.  The store
    holds the variables the JavaScript closures capture and mutate
    ([isStopped], [unsubscribeFn], [taken], [skipped], [subscription]).
    Functions that end up inside the store (the cleanup actions) are
    represented by a first-order description, [thunk].  Code supplied by the
    user of the library (Observer callbacks, subscribe-procedures, transforms)
    is described by small datatypes that say what it does to the library.
    Next to the consumer-visible [log], the store keeps a record [calls] of the
    [subscriber.next] calls and cleanup invocations made, which no code reads;
    statements about how often something was called are made over it. *)

From Stdlib Require Import ZArith Lia Bool.
From stdpp Require Import base list strings.

Open Scope Z_scope.
Open Scope string_scope.
Open Scope list_scope.

(** ** JavaScript values and completions *)

Inductive value : Type :=
| VUndefined
| VBool (b : bool)
| VNum (n : Z)
| VStr (s : string)
| VFunction
| VError (name message : string).

Definition TypeError (message : string) : value := VError "TypeError" message.
Definition ReferenceError (message : string) : value := VError "ReferenceError" message.

(** ToBoolean, as used by [if (subscriber.isStopped)]. *)
Definition truthy (v : value) : bool :=
  match v with
  | VUndefined => false
  | VBool b => b
  | VNum n => negb (Z.eqb n 0)
  | VStr s => negb (String.eqb s "")
  | VFunction => true
  | VError _ _ => true
  end.

(** What a call of a user-supplied pure callback ([fn], [predicate]) does. *)
Inductive completion (A : Type) : Type :=
| Normal (a : A)
| Throw (e : value).
Arguments Normal {A} a.
Arguments Throw {A} e.

(** ** The store *)

(** A function of no arguments that can be held in [unsubscribeFn]. *)
Inductive thunk : Type :=
| EmptyFn                                   (* () => {}                          line 276 *)
| UnsubscribeOf (subscription : nat)        (* () => subscription.unsubscribe()  lines 96, 148, 180, 221, 253 *)
| UserFn (tag : string) (c : completion unit). (* a cleanup written by the user: records [Teardown tag], then returns or throws *)

(** The two variables of one [subscribe] call (lines 39-40), shared by the
    Subscriber and the Subscription of that call. *)
Record cell : Type := Cell {
  isStopped : bool;
  unsubscribeFn : option thunk
}.

(** Variables of one run of an operator's or a caller's body: the counter
    ([taken], [skipped]) and the [const subscription] binding, which is
    uninitialised ([None]) until the [subscribe] call that defines it returns. *)
Record frame : Type := Frame {
  taken : Z;
  subscription : option nat
}.

(** What the consumer can see: its own callbacks and its own cleanups running. *)
Inductive event : Type :=
| OnNext (v : value)
| OnError (e : value)
| OnComplete
| Teardown (tag : string).

(** Ghost record of two kinds of internal calls, kept apart from [log]. *)
Inductive call_event : Type :=
| CallNext (id : nat) (v : value)    (* subscriber.next(v) was entered on the Subscriber of cell [id] *)
| CallCleanup (id : nat).            (* the function held in [unsubscribeFn] of cell [id] was invoked *)

Record world : Type := World {
  cells : list cell;
  frames : list frame;
  log : list event;
  calls : list call_event
}.

Definition empty_world : world := World [] [] [] [].

(** A cell that does not exist reads as stopped with no cleanup. *)
Definition the_cell (w : world) (id : nat) : cell :=
  default (Cell true None) (cells w !! id).

Definition the_frame (w : world) (f : nat) : frame :=
  default (Frame 0 None) (frames w !! f).

Definition with_cells (w : world) (cs : list cell) : world :=
  World cs (frames w) (log w) (calls w).
Definition with_frames (w : world) (fs : list frame) : world :=
  World (cells w) fs (log w) (calls w).
Definition with_log (w : world) (l : list event) : world :=
  World (cells w) (frames w) l (calls w).
Definition with_calls (w : world) (c : list call_event) : world :=
  World (cells w) (frames w) (log w) c.

(** ** The monad: state, exceptions, and running out of fuel *)

Inductive result (A : Type) : Type :=
| Returned (a : A)
| Raised (e : value)
| OutOfFuel.
Arguments Returned {A} a.
Arguments Raised {A} e.
Arguments OutOfFuel {A}.

Definition M (A : Type) : Type := world -> result A * world.

Definition ret {A} (a : A) : M A := fun w => (Returned a, w).
Definition raise {A} (e : value) : M A := fun w => (Raised e, w).
Definition out_of_fuel {A} : M A := fun w => (OutOfFuel, w).

Definition bind {A B} (m : M A) (k : A -> M B) : M B :=
  fun w =>
    match m w with
    | (Returned a, w') => k a w'
    | (Raised e, w') => (Raised e, w')
    | (OutOfFuel, w') => (OutOfFuel, w')
    end.

(** try { m } catch (error) { handler error } *)
Definition try_catch {A} (m : M A) (handler : value -> M A) : M A :=
  fun w =>
    match m w with
    | (Raised e, w') => handler e w'
    | r => r
    end.

Declare Scope js_scope.
Delimit Scope js_scope with js.
Notation "x <- m ;; k" := (bind m (fun x => k))
  (at level 100, m at next level, right associativity) : js_scope.
Notation "m ;; k" := (bind m (fun _ => k))
  (at level 100, right associativity) : js_scope.
Open Scope js_scope.

(** *** Reading and writing the captured variables *)

Definition get_isStopped (id : nat) : M bool :=
  fun w => (Returned (isStopped (the_cell w id)), w).

Definition set_isStopped (id : nat) (b : bool) : M unit :=
  fun w => (Returned tt,
            with_cells w (alter (fun c => Cell b (unsubscribeFn c)) id (cells w))).

Definition get_unsubscribeFn (id : nat) : M (option thunk) :=
  fun w => (Returned (unsubscribeFn (the_cell w id)), w).

Definition set_unsubscribeFn (id : nat) (f : option thunk) : M unit :=
  fun w => (Returned tt,
            with_cells w (alter (fun c => Cell (isStopped c) f) id (cells w))).

(** let isStopped = false; let unsubscribeFn = null;   (lines 39-40) *)
Definition alloc_cell : M nat :=
  fun w => (Returned (length (cells w)),
            with_cells w (cells w ++ [Cell false None])).

(** let taken = 0; with [subscription] still to be initialised. *)
Definition alloc_frame : M nat :=
  fun w => (Returned (length (frames w)),
            with_frames w (frames w ++ [Frame 0 None])).

Definition get_taken (f : nat) : M Z :=
  fun w => (Returned (taken (the_frame w f)), w).

Definition set_taken (f : nat) (n : Z) : M unit :=
  fun w => (Returned tt,
            with_frames w (alter (fun fr => Frame n (subscription fr)) f (frames w))).

(** Reading a [const] before its initialiser has finished is a ReferenceError. *)
Definition get_subscription (f : nat) : M nat :=
  fun w =>
    match subscription (the_frame w f) with
    | Some s => (Returned s, w)
    | None => (Raised (ReferenceError "Cannot access 'subscription' before initialization"), w)
    end.

Definition init_subscription (f : nat) (s : nat) : M unit :=
  fun w => (Returned tt,
            with_frames w (alter (fun fr => Frame (taken fr) (Some s)) f (frames w))).

Definition emit (e : event) : M unit :=
  fun w => (Returned tt, with_log w (log w ++ [e])).

Definition note (c : call_event) : M unit :=
  fun w => (Returned tt, with_calls w (calls w ++ [c])).

(** ** Observer, Subscriber *)

(** The normalized Observer as the Subscriber sees it: up to three callables. *)
Record observer : Type := Observer {
  next : option (value -> M unit);
  error : option (value -> M unit);
  complete : option (M unit)
}.

(** The argument of [subscribe]: an Observer object or a bare function. *)
Inductive observer_arg : Type :=
| AsFunction (fn : value -> M unit)
| AsObject (o : observer).

Record subscriber : Type := Subscriber {
  s_next : value -> M unit;
  s_error : value -> M unit;
  s_complete : M unit
}.

(** The object literal of lines 42-86 has the keys next, error and complete and
    no others; [isStopped] is a variable of the enclosing call, not a property. *)
Definition subscriber_keys : list string := ["next"; "error"; "complete"].

Definition get_property (s : subscriber) (key : string) : value :=
  if existsb (String.eqb key) subscriber_keys then VFunction else VUndefined.

(** [this.error(error)], line 49.  The arrow function takes [this] from the
    enclosing method [subscribe], so [this] is the Observable; an Observable has
    the field _subscribeFn and the methods subscribe, map, filter, take and
    skip, hence [this.error] is undefined and the call is a TypeError. *)
Definition this_error (e : value) : M unit :=
  raise (TypeError "this.error is not a function").

(** if (unsubscribeFn) { unsubscribeFn(); unsubscribeFn = null; } *)
Definition run_unsubscribeFn (call : thunk -> M unit) (id : nat) : M unit :=
  fn <- get_unsubscribeFn id ;;
  match fn with
  | Some f => note (CallCleanup id) ;; call f ;; set_unsubscribeFn id None
  | None => ret tt
  end.

(** Lines 43-52. *)
Definition subscriber_next (id : nat) (normalizedObserver : observer) (v : value) : M unit :=
  note (CallNext id v) ;;
  stopped <- get_isStopped id ;;
  match negb stopped, next normalizedObserver with
  | true, Some on_next => try_catch (on_next v) (fun error => this_error error)
  | _, _ => ret tt
  end.

(** Lines 53-68. *)
Definition subscriber_error (call : thunk -> M unit) (id : nat)
    (normalizedObserver : observer) (e : value) : M unit :=
  stopped <- get_isStopped id ;;
  if negb stopped then
    set_isStopped id true ;;
    match error normalizedObserver with
    | Some on_error => try_catch (on_error e) (fun _ => ret tt)
    | None => ret tt
    end ;;
    run_unsubscribeFn call id
  else ret tt.

(** Lines 69-85. *)
Definition subscriber_complete (call : thunk -> M unit) (id : nat)
    (normalizedObserver : observer) : M unit :=
  stopped <- get_isStopped id ;;
  if negb stopped then
    set_isStopped id true ;;
    match complete normalizedObserver with
    | Some on_complete => try_catch on_complete (fun _ => ret tt)
    | None => ret tt
    end ;;
    run_unsubscribeFn call id
  else ret tt.

(** Lines 108-117, the [unsubscribe] method of the returned Subscription. *)
Definition unsubscribe_with (call : thunk -> M unit) (id : nat) : M unit :=
  stopped <- get_isStopped id ;;
  if negb stopped then
    set_isStopped id true ;;
    run_unsubscribeFn call id
  else ret tt.

(** Calling a stored function.  A stored [UnsubscribeOf] leads back into the
    store, so the recursion is bounded by fuel. *)
Fixpoint call (fuel : nat) (f : thunk) : M unit :=
  match fuel with
  | O => out_of_fuel
  | S n =>
      match f with
      | EmptyFn => ret tt
      | UnsubscribeOf s => unsubscribe_with (call n) s
      | UserFn tag c =>
          emit (Teardown tag) ;;
          match c with
          | Normal _ => ret tt
          | Throw e => raise e
          end
      end
  end.

Definition unsubscribe (fuel : nat) (id : nat) : M unit :=
  unsubscribe_with (call fuel) id.

Definition mk_subscriber (fuel : nat) (id : nat) (normalizedObserver : observer) : subscriber :=
  {| s_next := subscriber_next id normalizedObserver;
     s_error := subscriber_error (call fuel) id normalizedObserver;
     s_complete := subscriber_complete (call fuel) id normalizedObserver |}.

(** ** Subscribe-procedures *)

(** What a subscribe-procedure returns (lines 90-97). *)
Inductive retval : Type :=
| RUndefined
| RFunction (f : thunk)
| RObject (unsubscribe_method : option thunk)
| RValue (v : value).

(** A subscribe-procedure written by the user, as the calls it makes on the
    Subscriber it is given.  The continuation of a call receives [None] when
    the call returned and [Some x] when it threw [x]; a procedure without a
    try/catch around the call continues with [PThrow x]. *)
Inductive signal : Type :=
| SigNext (v : value)
| SigError (e : value)
| SigComplete.

Inductive producer : Type :=
| PReturn (r : retval)
| PThrow (e : value)
| PCall (s : signal) (k : option value -> producer)
| PForever (gen : nat -> value) (cleanup : retval).
    (* for (let i = 0; ; i++) subscriber.next(gen(i)); return cleanup;
       the loop has no exit of its own, so the return is never reached *)

Definition send (s : subscriber) (sig : signal) : M unit :=
  match sig with
  | SigNext v => s_next s v
  | SigError e => s_error s e
  | SigComplete => s_complete s
  end.

Fixpoint forever (fuel : nat) (s : subscriber) (gen : nat -> value) (i : nat) : M retval :=
  match fuel with
  | O => out_of_fuel
  | S n => s_next s (gen i) ;; forever n s gen (S i)
  end.

Fixpoint run_producer (fuel : nat) (p : producer) (s : subscriber) : M retval :=
  match p with
  | PReturn r => ret r
  | PThrow e => raise e
  | PCall sig k =>
      fun w =>
        match send s sig w with
        | (Returned _, w') => run_producer fuel (k None) s w'
        | (Raised x, w') => run_producer fuel (k (Some x)) s w'
        | (OutOfFuel, w') => (OutOfFuel, w')
        end
  | PForever gen _ => forever fuel s gen O
  end.

(** Lines 269-277, the procedure built by [Observable.from]. *)
Fixpoint from_loop (array : list value) (subscriber : subscriber) : M unit :=
  match array with
  | [] => ret tt
  | value :: rest =>
      if truthy (get_property subscriber "isStopped") then ret tt
      else (s_next subscriber value ;; from_loop rest subscriber)
  end.

Definition from_subscribeFn (array : list value) (subscriber : subscriber) : M retval :=
  from_loop array subscriber ;;
  s_complete subscriber ;;
  ret (RFunction EmptyFn).

(** ** Observable *)

Inductive observable : Type :=
| Create (subscribeFn : producer)                                   (* new Observable(subscribeFn) *)
| From (array : list value)                                         (* Observable.from(array) *)
| Map (fn : value -> completion value) (source : observable)        (* source.map(fn) *)
| Filter (predicate : value -> completion bool) (source : observable) (* source.filter(predicate) *)
| Take (count : Z) (source : observable)                            (* source.take(count) *)
| Skip (count : Z) (source : observable).                           (* source.skip(count) *)

(** Observable.of(...values), line 290. *)
Definition Of (values : list value) : observable := From values.

(** Lines 135-143, the [next] of the Observer [map] subscribes with. *)
Definition map_next (fn : value -> completion value) (subscriber : subscriber)
    (value : value) : M unit :=
  try_catch
    (match fn value with
     | Normal transformedValue => s_next subscriber transformedValue
     | Throw e => raise e
     end)
    (fun error => s_error subscriber error).

(** Lines 134-146. *)
Definition map_observer (fn : value -> completion value) (subscriber : subscriber) : observer :=
  {| next := Some (map_next fn subscriber);
     error := Some (fun error => s_error subscriber error);
     complete := Some (s_complete subscriber) |}.

(** Lines 166-177. *)
Definition filter_observer (predicate : value -> completion bool) (subscriber : subscriber) : observer :=
  {| next := Some (fun value =>
       try_catch
         (match predicate value with
          | Normal true => s_next subscriber value
          | Normal false => ret tt
          | Throw e => raise e
          end)
         (fun error => s_error subscriber error));
     error := Some (fun error => s_error subscriber error);
     complete := Some (s_complete subscriber) |}.

(** Lines 206-216, the [next] of the Observer [take] subscribes with; [f] is
    the frame holding [taken] and [subscription]. *)
Definition take_next (fuel : nat) (count : Z) (f : nat) (subscriber : subscriber)
    (value : value) : M unit :=
  taken <- get_taken f ;;
  if Z.ltb taken count then
    s_next subscriber value ;;
    set_taken f (taken + 1) ;;
    taken' <- get_taken f ;;
    if Z.geb taken' count then
      s_complete subscriber ;;
      subscription <- get_subscription f ;;
      unsubscribe fuel subscription
    else ret tt
  else ret tt.

(** Lines 205-219. *)
Definition take_observer (fuel : nat) (count : Z) (f : nat) (subscriber : subscriber) : observer :=
  {| next := Some (take_next fuel count f subscriber);
     error := Some (fun error => s_error subscriber error);
     complete := Some (s_complete subscriber) |}.

(** Lines 241-250. *)
Definition skip_observer (count : Z) (f : nat) (subscriber : subscriber) : observer :=
  {| next := Some (fun value =>
       skipped <- get_taken f ;;
       if Z.geb skipped count then s_next subscriber value
       else set_taken f (skipped + 1));
     error := Some (fun error => s_error subscriber error);
     complete := Some (s_complete subscriber) |}.

(** Lines 27-33. *)
Definition normalize (arg : observer_arg) : observer :=
  match arg with
  | AsFunction fn => {| next := Some fn; error := None; complete := None |}
  | AsObject o => o
  end.

(** Lines 92-97. *)
Definition register_cleanup (id : nat) (cleanup : retval) : M unit :=
  match cleanup with
  | RFunction f => set_unsubscribeFn id (Some f)
  | RObject (Some f) => set_unsubscribeFn id (Some f)
  | _ => ret tt
  end.

(** [subscribe], lines 22-119; the result is the cell of the new
    Subscription.  The match on [this] is the call [this._subscribeFn(subscriber)]
    with the procedure each constructor or operator installed. *)
Fixpoint subscribe (fuel : nat) (this : observable) (arg : observer_arg) : M nat :=
  let normalizedObserver := normalize arg in
  id <- alloc_cell ;;
  let subscriber := mk_subscriber fuel id normalizedObserver in
  try_catch
    (cleanup <-
       match this with
       | Create subscribeFn => run_producer fuel subscribeFn subscriber
       | From array => from_subscribeFn array subscriber
       | Map fn source =>
           subscription <- subscribe fuel source (AsObject (map_observer fn subscriber)) ;;
           ret (RFunction (UnsubscribeOf subscription))
       | Filter predicate source =>
           subscription <- subscribe fuel source (AsObject (filter_observer predicate subscriber)) ;;
           ret (RFunction (UnsubscribeOf subscription))
       | Take count source =>
           if Z.leb count 0 then
             s_complete subscriber ;;
             ret RUndefined
           else
             f <- alloc_frame ;;
             subscription <- subscribe fuel source (AsObject (take_observer fuel count f subscriber)) ;;
             init_subscription f subscription ;;
             ret (RFunction (UnsubscribeOf subscription))
       | Skip count source =>
           f <- alloc_frame ;;
           subscription <- subscribe fuel source (AsObject (skip_observer count f subscriber)) ;;
           init_subscription f subscription ;;
           ret (RFunction (UnsubscribeOf subscription))
       end ;;
     register_cleanup id cleanup)
    (fun error => s_error subscriber error) ;;
  ret id.

(** ** The consumer *)

(** What a callback written by the consumer does once it has been called. *)
Inductive reaction : Type :=
| Returns
| Throws (e : value)
| Unsubscribes.   (* subscription.unsubscribe(), on the consumer's own [const subscription] *)

Record handlers : Type := Handlers {
  h_next : option (value -> reaction);
  h_error : option (value -> reaction);
  h_complete : option reaction
}.

Definition react (fuel : nat) (f : nat) (r : reaction) : M unit :=
  match r with
  | Returns => ret tt
  | Throws e => raise e
  | Unsubscribes => s <- get_subscription f ;; unsubscribe fuel s
  end.

(** The consumer's Observer; [f] is the frame holding its [subscription]. *)
Definition consumer (fuel : nat) (f : nat) (h : handlers) : observer :=
  {| next := option_map (fun hn => fun v => emit (OnNext v) ;; react fuel f (hn v)) (h_next h);
     error := option_map (fun he => fun e => emit (OnError e) ;; react fuel f (he e)) (h_error h);
     complete := option_map (fun hc => emit OnComplete ;; react fuel f hc) (h_complete h) |}.

(** const subscription = source.subscribe({ ... }); *)
Definition run_subscribe (fuel : nat) (source : observable) (h : handlers) : M nat :=
  f <- alloc_frame ;;
  s <- subscribe fuel source (AsObject (consumer fuel f h)) ;;
  init_subscription f s ;;
  ret s.

(** An Observer with all three callbacks, none of which throws. *)
Definition recorder : handlers :=
  Handlers (Some (fun _ => Returns)) (Some (fun _ => Returns)) (Some Returns).

(** ** Vocabulary of the statements *)

(** The ways a subscription becomes terminal. *)
Inductive terminal : Type :=
| ByError (e : value)
| ByComplete
| ByUnsubscribe.

(** Making the subscription of cell [id], with Observer [o], terminal. *)
Definition terminate (fuel : nat) (id : nat) (o : observer) (t : terminal) : M unit :=
  match t with
  | ByError e => subscriber_error (call fuel) id o e
  | ByComplete => subscriber_complete (call fuel) id o
  | ByUnsubscribe => unsubscribe fuel id
  end.

(** The producer makes the calls [sigs] one after the other, going on whatever
    each call does. *)
Definition send_all (s : subscriber) (sigs : list signal) (w : world) : world :=
  fold_left (fun w sig => snd (send s sig w)) sigs w.

(** [m] done [k] times in a row. *)
Fixpoint again (k : nat) (m : M unit) : M unit :=
  match k with
  | O => ret tt
  | S k' => m ;; again k' m
  end.

(** The ghost event records an invocation of the cleanup of cell [id]. *)
Definition is_cleanup_of (id : nat) (c : call_event) : bool :=
  match c with
  | CallCleanup j => Nat.eqb j id
  | CallNext _ _ => false
  end.

(** How often the cleanup of cell [id] has been invoked. *)
Definition cleanup_count (id : nat) (cs : list call_event) : nat :=
  length (List.filter (is_cleanup_of id) cs).

(** Whatever its outcome, [m] leaves a store in which [P] holds again. *)
Definition preserves (P : world -> Prop) {A} (m : M A) : Prop :=
  forall w, P w -> P (snd (m w)).

(** Observers whose callbacks keep [P]. *)
Definition observer_preserves (P : world -> Prop) (o : observer) : Prop :=
  (forall g v, next o = Some g -> preserves P (g v)) /\
  (forall g e, error o = Some g -> preserves P (g e)) /\
  (forall g, complete o = Some g -> preserves P g).

(** Cell [id] is terminal and its cleanup has been invoked [n] times. *)
Definition stopped_at (id n : nat) (w : world) : Prop :=
  isStopped (the_cell w id) = true /\ cleanup_count id (calls w) = n.

(** Cell [id] has no cleanup registered and its cleanup has been invoked [n] times. *)
Definition unregistered_at (id n : nat) (w : world) : Prop :=
  unsubscribeFn (the_cell w id) = None /\ cleanup_count id (calls w) = n.

(** Cell [id] is terminal. *)
Definition is_terminal (id : nat) (w : world) : Prop :=
  isStopped (the_cell w id) = true.

(** new Error("boom") *)
Definition boom : value := VError "Error" "boom".

(** The store has [n] cells and the frames [fs]. *)
Definition same_shape (n : nat) (fs : list frame) (w : world) : Prop :=
  length (cells w) = n /\ frames w = fs.

(** The store when the subscribe-procedure of a consumer's [subscribe] call is
    entered: one more frame (the consumer's) and one more cell. *)
Definition started (w : world) : world :=
  World (cells w ++ [Cell false None]) (frames w ++ [Frame 0 None]) (log w) (calls w).

(** What varies while the upstream procedure runs under [take]: the terminal
    flags of the downstream and of the upstream cell, [taken], the callbacks
    the consumer has seen since [subscribe] was called, and the ghost record. *)
Record take_state : Type := TakeState {
  t_down : bool;
  t_up : bool;
  t_taken : Z;
  t_events : list event;
  t_calls : list call_event
}.

(** The store in that phase: the consumer's frame and [take]'s frame, both with
    [subscription] uninitialised, and the two cells, both without cleanup. *)
Definition take_world (cs : list cell) (fs : list frame) (l : list event)
    (st : take_state) : world :=
  World (cs ++ [Cell (t_down st) None; Cell (t_up st) None])
        (fs ++ [Frame 0 None; Frame (t_taken st) None])
        (l ++ t_events st)
        (t_calls st).

(** A callback reaches the consumer unless its subscription is terminal. *)
Definition deliver (stopped : bool) (evs : list event) (ev : event) : list event :=
  if stopped then evs else evs ++ [ev].

(** One call of the upstream procedure on its Subscriber, on [take_state]. *)
Definition take_step (count : Z) (d u : nat) (sig : signal) (st : take_state)
    : result unit * take_state :=
  let (sd, su, taken, evs, cl) := st in
  match sig with
  | SigNext v =>
      let cl1 := cl ++ [CallNext u v] in
      if su then (Returned tt, TakeState sd su taken evs cl1)
      else if Z.ltb taken count then
        let evs1 := deliver sd evs (OnNext v) in
        let cl2 := cl1 ++ [CallNext d v] in
        if Z.geb (taken + 1) count then
          (Raised (TypeError "this.error is not a function"),
           TakeState true su (taken + 1) (deliver sd evs1 OnComplete) cl2)
        else (Returned tt, TakeState sd su (taken + 1) evs1 cl2)
      else (Returned tt, TakeState sd su taken evs cl1)
  | SigError e =>
      if su then (Returned tt, st)
      else (Returned tt, TakeState true true taken (deliver sd evs (OnError e)) cl)
  | SigComplete =>
      if su then (Returned tt, st)
      else (Returned tt, TakeState true true taken (deliver sd evs OnComplete) cl)
  end.

(** The endless loop of [PForever], on [take_state]. *)
Fixpoint take_forever (fuel : nat) (count : Z) (d u : nat) (gen : nat -> value) (i : nat)
    (st : take_state) : result retval * take_state :=
  match fuel with
  | O => (OutOfFuel, st)
  | S n =>
      match take_step count d u (SigNext (gen i)) st with
      | (Returned _, st') => take_forever n count d u gen (S i) st'
      | (Raised x, st') => (Raised x, st')
      | (OutOfFuel, st') => (OutOfFuel, st')
      end
  end.

(** The upstream procedure [p], run on [take_state]. *)
Fixpoint take_run (fuel : nat) (count : Z) (d u : nat) (p : producer) (st : take_state)
    : result retval * take_state :=
  match p with
  | PReturn r => (Returned r, st)
  | PThrow e => (Raised e, st)
  | PCall sig k =>
      match take_step count d u sig st with
      | (Returned _, st') => take_run fuel count d u (k None) st'
      | (Raised x, st') => take_run fuel count d u (k (Some x)) st'
      | (OutOfFuel, st') => (OutOfFuel, st')
      end
  | PForever gen _ => take_forever fuel count d u gen O st
  end.

(** The cleanup a returned value registers (lines 92-97). *)
Definition registered (cleanup : retval) : option thunk :=
  match cleanup with
  | RFunction f => Some f
  | RObject (Some f) => Some f
  | _ => None
  end.

(** The store once [subscribe] on [take] has returned. *)
Definition take_done (cs : list cell) (fs : list frame) (l : list event)
    (cleanup : retval) (st : take_state) : world :=
  World (cs ++ [Cell (t_down st) (Some (UnsubscribeOf (S (length cs))));
                Cell (t_up st) (registered cleanup)])
        (fs ++ [Frame 0 (Some (length cs)); Frame (t_taken st) (Some (S (length cs)))])
        (l ++ t_events st)
        (t_calls st).

(** The whole of [subscribe] on [take(count)] over [p], on [take_state]. *)
Definition take_subscribe (fuel : nat) (count : Z) (cs : list cell) (fs : list frame)
    (l : list event) (c : list call_event) (p : producer) : result nat * world :=
  let d := length cs in
  let u := S (length cs) in
  match take_run fuel count d u p (TakeState false false 0 [] c) with
  | (Returned cleanup, st) => (Returned d, take_done cs fs l cleanup st)
  | (Raised x, st) =>
      (Returned d, take_done cs fs l RUndefined (snd (take_step count d u (SigError x) st)))
  | (OutOfFuel, st) => (OutOfFuel, take_world cs fs l st)
  end.




(** A cleanup written by the user has run. *)
Definition is_teardown (ev : event) : Prop := exists tag, ev = Teardown tag.

(** [w] comes from [w0] by running cleanups: the frames are the same, terminal
    cells are still terminal, and the log has grown by cleanups only. *)
Definition extends (w0 w : world) : Prop :=
  frames w = frames w0 /\
  (forall j, isStopped (the_cell w0 j) = true -> isStopped (the_cell w j) = true) /\
  exists tds, log w = log w0 ++ tds /\ Forall is_teardown tds.







(** ** Pipelines of operators over an array, subscribed to synchronously *)

(** How a stream of values ends. *)
Inductive ending : Type :=
| Completes
| Fails (e : value).

Inductive operator : Type :=
| OpMap (fn : value -> completion value)
| OpFilter (predicate : value -> completion bool)
| OpTake (count : Z)
| OpSkip (count : Z).

(** One operator whose Observable has been subscribed to: [c] is the cell of
    that [subscribe] call, whose Subscriber the operator's Observer forwards
    to, and [f] the frame of the counter of [take] and [skip]. *)
Inductive node : Type :=
| NMap (fn : value -> completion value) (c : nat)
| NFilter (predicate : value -> completion bool) (c : nat)
| NTake (count : Z) (f c : nat)
| NSkip (count : Z) (f c : nat).

Definition node_op (nd : node) : operator :=
  match nd with
  | NMap fn _ => OpMap fn
  | NFilter predicate _ => OpFilter predicate
  | NTake count _ _ => OpTake count
  | NSkip count _ _ => OpSkip count
  end.

Definition node_cell (nd : node) : nat :=
  match nd with
  | NMap _ c | NFilter _ c | NTake _ _ c | NSkip _ _ c => c
  end.

Definition node_frame (nd : node) : option nat :=
  match nd with
  | NMap _ _ | NFilter _ _ => None
  | NTake _ f _ | NSkip _ f _ => Some f
  end.

(** The Observer at the upstream end of the nodes [k], the first of which is
    the nearest to the source; below the last one is the consumer. *)
Fixpoint observer_of (fuel f0 : nat) (h : handlers) (k : list node) : observer :=
  match k with
  | [] => consumer fuel f0 h
  | NMap fn c :: k' => map_observer fn (mk_subscriber fuel c (observer_of fuel f0 h k'))
  | NFilter predicate c :: k' =>
      filter_observer predicate (mk_subscriber fuel c (observer_of fuel f0 h k'))
  | NTake count f c :: k' =>
      take_observer fuel count f (mk_subscriber fuel c (observer_of fuel f0 h k'))
  | NSkip count f c :: k' =>
      skip_observer count f (mk_subscriber fuel c (observer_of fuel f0 h k'))
  end.

(** Calling a callback of an Observer if it is there. *)
Definition o_next (o : observer) (v : value) : M unit :=
  match next o with
  | Some g => g v
  | None => ret tt
  end.

Definition o_end (o : observer) (t : ending) : M unit :=
  match t with
  | Fails e => match error o with Some g => g e | None => ret tt end
  | Completes => match complete o with Some g => g | None => ret tt end
  end.

(** The variables of one node: the terminal flag of its cell and its counter. *)
Record nstate : Type := NState {
  n_stopped : bool;
  n_counter : Z
}.

Definition uninitialised : value :=
  ReferenceError "Cannot access 'subscription' before initialization".

Definition not_a_function : value := TypeError "this.error is not a function".

(** [None]: the call returned; [Some x]: it threw [x]. *)
Definition result_of (r : option value) : result unit :=
  match r with
  | None => Returned tt
  | Some x => Raised x
  end.

Definition ending_event (t : ending) : event :=
  match t with
  | Completes => OnComplete
  | Fails e => OnError e
  end.

Definition has_handler (h : handlers) (t : ending) : bool :=
  match t with
  | Completes => match h_complete h with Some _ => true | None => false end
  | Fails _ => match h_error h with Some _ => true | None => false end
  end.

(** [error] and [complete] through the nodes, on their variables alone: each
    live cell becomes terminal and hands the call down. *)
Fixpoint m_end (h : handlers) (ops : list operator) (st : list nstate) (t : ending)
    : list nstate * list event :=
  match ops, st with
  | [], _ => (st, if has_handler h t then [ending_event t] else [])
  | _ :: ops', n :: st' =>
      if n_stopped n then (st, [])
      else let (st1, out) := m_end h ops' st' t in
           (NState true (n_counter n) :: st1, out)
  | _ :: _, [] => (st, [])
  end.

(** [subscriber.next] of a cell, given what the [next] of its Observer does. *)
Definition m_sub_next (stopped : bool) (st : list nstate)
    (obs_next : option value * list nstate * list event)
    : option value * list nstate * list event :=
  if stopped then (None, st, [])
  else match obs_next with
       | (None, st1, out) => (None, st1, out)
       | (Some _, st1, out) => (Some not_a_function, st1, out)
       end.

(** [map] and [filter] passing a value on (lines 137-142 and 169-174): the
    Subscriber's [next], and its [error] if that throws. *)
Definition m_forward (h : handlers) (ops : list operator) (stopped : bool) (counter : Z)
    (st : list nstate) (obs_next : option value * list nstate * list event)
    : option value * list nstate * list event :=
  match m_sub_next stopped st obs_next with
  | (None, st1, out) => (None, NState stopped counter :: st1, out)
  | (Some x, st1, out) =>
      let (st2, out2) := m_end h ops st1 (Fails x) in
      (None, NState true counter :: st2, out ++ out2)
  end.

(** [map] and [filter] when the user's function throws [e]. *)
Definition m_fail (h : handlers) (ops : list operator) (stopped : bool) (counter : Z)
    (st : list nstate) (e : value) : option value * list nstate * list event :=
  if stopped then (None, NState stopped counter :: st, [])
  else let (st2, out2) := m_end h ops st (Fails e) in
       (None, NState true counter :: st2, out2).

(** The [next] of [take] (lines 206-216). *)
Definition m_take (h : handlers) (ops : list operator) (count : Z) (stopped : bool)
    (counter : Z) (st : list nstate) (obs_next : option value * list nstate * list event)
    : option value * list nstate * list event :=
  if Z.ltb counter count then
    match m_sub_next stopped st obs_next with
    | (Some x, st1, out) => (Some x, NState stopped counter :: st1, out)
    | (None, st1, out) =>
        if Z.geb (counter + 1) count then
          if stopped then (Some uninitialised, NState stopped (counter + 1) :: st1, out)
          else let (st2, out2) := m_end h ops st1 Completes in
               (Some uninitialised, NState true (counter + 1) :: st2, out ++ out2)
        else (None, NState stopped (counter + 1) :: st1, out)
    end
  else (None, NState stopped counter :: st, []).

(** The [next] of [skip] (lines 241-248). *)
Definition m_skip (count : Z) (stopped : bool) (counter : Z) (st : list nstate)
    (obs_next : option value * list nstate * list event)
    : option value * list nstate * list event :=
  if Z.geb counter count then
    match m_sub_next stopped st obs_next with
    | (r, st1, out) => (r, NState stopped counter :: st1, out)
    end
  else (None, NState stopped (counter + 1) :: st, []).

(** [next] through the nodes, on their variables alone. *)
Fixpoint m_next (h : handlers) (ops : list operator) (st : list nstate) (v : value)
    : option value * list nstate * list event :=
  match ops, st with
  | [], _ =>
      match h_next h with
      | None => (None, st, [])
      | Some hn =>
          (match hn v with
           | Returns => None
           | Throws e => Some e
           | Unsubscribes => Some uninitialised
           end, st, [OnNext v])
      end
  | op :: ops', NState stopped counter :: st' =>
      match op with
      | OpMap fn =>
          match fn v with
          | Normal u => m_forward h ops' stopped counter st' (m_next h ops' st' u)
          | Throw e => m_fail h ops' stopped counter st' e
          end
      | OpFilter predicate =>
          match predicate v with
          | Normal true => m_forward h ops' stopped counter st' (m_next h ops' st' v)
          | Normal false => (None, st, [])
          | Throw e => m_fail h ops' stopped counter st' e
          end
      | OpTake count => m_take h ops' count stopped counter st' (m_next h ops' st' v)
      | OpSkip count => m_skip count stopped counter st' (m_next h ops' st' v)
      end
  | _ :: _, [] => (None, st, [])
  end.

(** The loop of [from] on the Subscriber of a live cell above the nodes. *)
Fixpoint m_from_loop (h : handlers) (ops : list operator) (st : list nstate)
    (array : list value) : option value * list nstate * list event :=
  match array with
  | [] => (None, st, [])
  | x :: rest =>
      match m_sub_next false st (m_next h ops st x) with
      | (None, st1, out) =>
          let '(r, st2, out2) := m_from_loop h ops st1 rest in (r, st2, out ++ out2)
      | (Some e, st1, out) => (Some e, st1, out)
      end
  end.

(** [subscribe] on a pipeline, on the variables of the nodes below it. *)
Fixpoint m_subscribe (h : handlers) (source : observable) (ops : list operator)
    (st : list nstate) : list nstate * list event :=
  match source with
  | Create _ => (st, [])
  | From array =>
      match m_from_loop h ops st array with
      | (None, st1, out) =>
          let (st2, out2) := m_end h ops st1 Completes in (st2, out ++ out2)
      | (Some e, st1, out) =>
          let (st2, out2) := m_end h ops st1 (Fails e) in (st2, out ++ out2)
      end
  | Map fn source' =>
      let (st1, out) := m_subscribe h source' (OpMap fn :: ops) (NState false 0 :: st) in
      (tail st1, out)
  | Filter predicate source' =>
      let (st1, out) :=
        m_subscribe h source' (OpFilter predicate :: ops) (NState false 0 :: st) in
      (tail st1, out)
  | Take count source' =>
      if Z.leb count 0 then m_end h ops st Completes
      else
        let (st1, out) := m_subscribe h source' (OpTake count :: ops) (NState false 0 :: st) in
        (tail st1, out)
  | Skip count source' =>
      let (st1, out) := m_subscribe h source' (OpSkip count :: ops) (NState false 0 :: st) in
      (tail st1, out)
  end.

(** The frames the nodes after [nd] lie below. *)
Definition sub_bound (nd : node) (nf : nat) : nat :=
  match node_frame nd with
  | Some f => f
  | None => nf
  end.

(** The store holds the variables [st] of the nodes [k]: every cell is below
    [nc] and above the cells of the nodes after it, every frame below [nf],
    no cell has a cleanup and no [subscription] is initialised yet. *)
Fixpoint rep (f0 nc nf : nat) (k : list node) (st : list nstate) (w : world) : Prop :=
  match k, st with
  | [], [] => (f0 < nf)%nat /\ subscription (the_frame w f0) = None
  | nd :: k', n :: st' =>
      (node_cell nd < nc)%nat /\
      the_cell w (node_cell nd) = Cell (n_stopped n) None /\
      match node_frame nd with
      | Some f => (f < nf)%nat /\ the_frame w f = Frame (n_counter n) None
      | None => True
      end /\
      rep f0 (node_cell nd) (sub_bound nd nf) k' st' w
  | _, _ => False
  end.

(** [w'] has the cells from [nc] on and the frames from [nf] on as [w] has. *)
Definition agree_above (nc nf : nat) (w w' : world) : Prop :=
  length (cells w') = length (cells w) /\
  length (frames w') = length (frames w) /\
  (forall j, (nc <= j)%nat -> the_cell w' j = the_cell w j) /\
  (forall g, (nf <= g)%nat -> the_frame w' g = the_frame w g).

Definition agree_below (nc nf : nat) (w w' : world) : Prop :=
  (forall j, (j < nc)%nat -> the_cell w' j = the_cell w j) /\
  (forall g, (g < nf)%nat -> the_frame w' g = the_frame w g).

(** Feeding the values [vs] and then the ending [t], if there is one, to the
    nodes, going on whatever each call does: what reaches the consumer. *)
Fixpoint m_run (h : handlers) (ops : list operator) (st : list nstate)
    (vs : list value) (t : option ending) : list event :=
  match vs with
  | [] =>
      match t with
      | Some t' => snd (m_end h ops st t')
      | None => []
      end
  | v :: rest =>
      let '(_, st1, out) := m_next h ops st v in out ++ m_run h ops st1 rest t
  end.

(** Some cell of the nodes is terminal. *)
Definition dead (st : list nstate) : bool := existsb n_stopped st.

(** *** What a pipeline delivers, as a function on lists *)

(** A stream is the values delivered and the ending after them; [None] stands
    for a source that has not ended. *)

Fixpoint map_stream (fn : value -> completion value) (vs : list value) (t : option ending)
    : list value * option ending :=
  match vs with
  | [] => ([], t)
  | v :: rest =>
      match fn v with
      | Normal u => let (us, t') := map_stream fn rest t in (u :: us, t')
      | Throw e => ([], Some (Fails e))
      end
  end.

Fixpoint filter_stream (predicate : value -> completion bool) (vs : list value)
    (t : option ending) : list value * option ending :=
  match vs with
  | [] => ([], t)
  | v :: rest =>
      match predicate v with
      | Normal true => let (us, t') := filter_stream predicate rest t in (v :: us, t')
      | Normal false => filter_stream predicate rest t
      | Throw e => ([], Some (Fails e))
      end
  end.

Definition take_stream (count : Z) (vs : list value) (t : option ending)
    : list value * option ending :=
  if Z.leb count 0 then ([], Some Completes)
  else if Nat.leb (Z.to_nat count) (length vs) then (firstn (Z.to_nat count) vs, Some Completes)
  else (vs, t).

Definition skip_stream (count : Z) (vs : list value) (t : option ending)
    : list value * option ending :=
  (skipn (Z.to_nat count) vs, t).

(** The values a pipeline over an array passes on, and how it ends. *)
Fixpoint delivered (source : observable) : list value * option ending :=
  match source with
  | Create _ => ([], None)
  | From array => (array, Some Completes)
  | Map fn source' => let (vs, t) := delivered source' in map_stream fn vs t
  | Filter predicate source' => let (vs, t) := delivered source' in filter_stream predicate vs t
  | Take count source' => let (vs, t) := delivered source' in take_stream count vs t
  | Skip count source' => let (vs, t) := delivered source' in skip_stream count vs t
  end.

(** Operators applied to [Observable.from] or [Observable.of]. *)
Fixpoint over_array (source : observable) : bool :=
  match source with
  | Create _ => false
  | From _ => true
  | Map _ source' | Filter _ source' | Take _ source' | Skip _ source' => over_array source'
  end.

(** The callbacks an Observer with the handlers [h] sees of such a stream. *)
Definition seen (h : handlers) (s : list value * option ending) : list event :=
  match h_next h with
  | Some _ => map OnNext (fst s)
  | None => []
  end ++
  match snd s with
  | Some t => if has_handler h t then [ending_event t] else []
  | None => []
  end.

(** The [next] callback of the consumer, if there is one, returns without
    throwing and without calling [unsubscribe]. *)
Definition next_returns (h : handlers) : Prop :=
  forall hn v, h_next h = Some hn -> hn v = Returns.

(** [error] or [complete] of a Subscriber. *)
Definition s_end (s : subscriber) (t : ending) : M unit :=
  match t with
  | Fails e => s_error s e
  | Completes => s_complete s
  end.

(** The callbacks of the Observer above the nodes [k] do to the store what
    [m_end] and [m_next] do to the variables of the nodes. *)
Definition follows_end (fuel f0 : nat) (h : handlers) (k : list node) : Prop :=
  forall nc nf st w t,
    (nc <= length (cells w))%nat -> (nf <= length (frames w))%nat ->
    rep f0 nc nf k st w ->
    exists r w',
      o_end (observer_of fuel f0 h k) t w = (r, w') /\
      r <> OutOfFuel /\
      rep f0 nc nf k (fst (m_end h (map node_op k) st t)) w' /\
      log w' = log w ++ snd (m_end h (map node_op k) st t) /\
      agree_above nc nf w w'.

Definition follows_next (fuel f0 : nat) (h : handlers) (k : list node) : Prop :=
  forall nc nf st w v,
    (nc <= length (cells w))%nat -> (nf <= length (frames w))%nat ->
    rep f0 nc nf k st w ->
    exists w',
      o_next (observer_of fuel f0 h k) v w
      = (result_of (fst (fst (m_next h (map node_op k) st v))), w') /\
      rep f0 nc nf k (snd (fst (m_next h (map node_op k) st v))) w' /\
      log w' = log w ++ snd (m_next h (map node_op k) st v) /\
      agree_above nc nf w w'.

(** Whether the cell of [subscribe] on a pipeline is terminal when
    [subscribe] returns. *)
Definition m_stopped (h : handlers) (source : observable) (ops : list operator)
    (st : list nstate) : bool :=
  let inner op source' :=
    match fst (m_subscribe h source' (op :: ops) (NState false 0 :: st)) with
    | n :: _ => n_stopped n
    | [] => true
    end in
  match source with
  | Create _ => false
  | From _ => true
  | Map fn source' => inner (OpMap fn) source'
  | Filter predicate source' => inner (OpFilter predicate) source'
  | Take count source' => if Z.leb count 0 then true else inner (OpTake count) source'
  | Skip count source' => inner (OpSkip count) source'
  end.

(** What every step of the nodes keeps: their number; silence once a cell is
    terminal; and a terminal cell whenever the step throws. *)
Definition step_ok (st : list nstate) (m : option value * list nstate * list event) : Prop :=
  length (snd (fst m)) = length st /\
  (dead st = true -> snd m = [] /\ dead (snd (fst m)) = true) /\
  (fst (fst m) <> None -> dead (snd (fst m)) = true).

(** Below a terminal cell every cell is terminal. *)
Fixpoint closed (st : list nstate) : Prop :=
  match st with
  | [] => True
  | n :: st' => (n_stopped n = true -> forallb n_stopped st' = true) /\ closed st'
  end.

(** ** Vocabulary for single subscriptions and chains *)

(** The [subscription] variable of the consumer's frame [f], once
    initialised, holds the Subscription of cell [id]. *)
Definition own_subscription (w : world) (f id : nat) : Prop :=
  forall s, subscription (the_frame w f) = Some s -> s = id.

(** The callback of the Observer a terminal transition invokes, if any. *)
Definition terminal_events (h : handlers) (t : terminal) : list event :=
  match t with
  | ByError e => match h_error h with Some _ => [OnError e] | None => [] end
  | ByComplete => match h_complete h with Some _ => [OnComplete] | None => [] end
  | ByUnsubscribe => []
  end.

(** [source.map(fn)], [source.filter(predicate)], [source.take(count)] and
    [source.skip(count)]. *)
Definition apply_op (op : operator) (source : observable) : observable :=
  match op with
  | OpMap fn => Map fn source
  | OpFilter predicate => Filter predicate source
  | OpTake count => Take count source
  | OpSkip count => Skip count source
  end.

(** The operators [ops] applied to [source], the first one last. *)
Definition pipe (ops : list operator) (source : observable) : observable :=
  fold_right apply_op source ops.

(** Every operator but [take(count)] with [count <= 0] subscribes to its source. *)
Definition subscribes_upstream (op : operator) : bool :=
  match op with
  | OpTake count => Z.ltb 0 count
  | _ => true
  end.

(** The cells [c], ..., [c + n] are live; each but the last has the
    [unsubscribe] of the next one as its cleanup, the last one has [g]. *)
Fixpoint chained (g : thunk) (c n : nat) (w : world) : Prop :=
  match n with
  | O => the_cell w c = Cell false (Some g)
  | S n' => the_cell w c = Cell false (Some (UnsubscribeOf (S c))) /\ chained g (S c) n' w
  end.

(** [map] of the composition of [f] and [g]. *)
Definition and_then (f g : value -> completion value) (v : value) : completion value :=
  match f v with
  | Normal u => g u
  | Throw e => Throw e
  end.

(** Two functions a user might pass to [map] and [filter]. *)
Definition twice (v : value) : completion value :=
  match v with
  | VNum n => Normal (VNum (2 * n))
  | _ => Throw boom
  end.

Definition is_odd (v : value) : completion bool :=
  match v with
  | VNum n => Normal (Z.odd n)
  | _ => Throw boom
  end.

(** ** Operators over a source that emits after [subscribe] has returned *)








(** The frames hold the counters [st] of the nodes [k], all live, and every
    [subscription] is initialised: the consumer's with its Subscription, of
    cell [base], and that of [take] and [skip] with the Subscription of the
    cell after their own. *)
Fixpoint frames_hold (f0 base nf : nat) (k : list node) (st : list nstate) (w : world)
    : Prop :=
  match k, st with
  | [], [] => (f0 < nf)%nat /\ subscription (the_frame w f0) = Some base
  | nd :: k', n :: st' =>
      n_stopped n = false /\
      match node_frame nd with
      | Some f =>
          (f < nf)%nat /\ the_frame w f = Frame (n_counter n) (Some (S (node_cell nd)))
      | None => True
      end /\
      frames_hold f0 base (sub_bound nd nf) k' st' w
  | _, _ => False
  end.





(** The frames the operators [ops], the outermost first, have allocated and
    initialised once [subscribe] has returned; [c] is the cell of the first. *)
Fixpoint op_frames (ops : list operator) (c : nat) : list frame :=
  match ops with
  | [] => []
  | OpMap _ :: ops' | OpFilter _ :: ops' => op_frames ops' (S c)
  | OpTake _ :: ops' | OpSkip _ :: ops' => Frame 0 (Some (S c)) :: op_frames ops' (S c)
  end.


(** * Reasoning about computations *)

Section Preserves.
Context (P : world -> Prop).

Lemma preserves_ret {A} (a : A) : preserves P (ret a).
Proof. intros w H; exact H. Qed.

Lemma preserves_raise {A} e : preserves P (@raise A e).
Proof. intros w H; exact H. Qed.

Lemma preserves_out_of_fuel {A} : preserves P (@out_of_fuel A).
Proof. intros w H; exact H. Qed.

Lemma preserves_bind {A B} (m : M A) (k : A -> M B) :
  preserves P m -> (forall a, preserves P (k a)) -> preserves P (bind m k).
Proof.
  intros Hm Hk w H. unfold bind. specialize (Hm w H).
  destruct (m w) as [[a|e|] w']; simpl in *; auto. by apply Hk.
Qed.

Lemma preserves_try_catch {A} (m : M A) (h : value -> M A) :
  preserves P m -> (forall e, preserves P (h e)) -> preserves P (try_catch m h).
Proof.
  intros Hm Hh w H. unfold try_catch. specialize (Hm w H).
  destruct (m w) as [[a|e|] w']; simpl in *; auto. by apply Hh.
Qed.
End Preserves.

(** An invariant of the store that every operation of a Subscriber, of a
    Subscription and of a consumer keeps.  [ok j] says that the cleanup of
    cell [j] may be invoked. *)
Section Invariant.
Context (P : world -> Prop) (ok : nat -> Prop).
Hypothesis P_teardown : forall w tag, P w -> P (with_log w (log w ++ [Teardown tag])).
Hypothesis P_next : forall w j v, P w -> P (with_calls w (calls w ++ [CallNext j v])).
Hypothesis P_enter : forall w j,
  P w -> isStopped (the_cell w j) = false -> P (snd (set_isStopped j true w)) /\ ok j.
Hypothesis P_clear : forall w j, P w -> P (snd (set_unsubscribeFn j None w)).
Hypothesis P_fire : forall w j f,
  P w -> ok j -> unsubscribeFn (the_cell w j) = Some f ->
  P (with_calls w (calls w ++ [CallCleanup j])).

Lemma run_unsubscribeFn_preserves (c : thunk -> M unit) j :
  (forall f, preserves P (c f)) -> ok j -> preserves P (run_unsubscribeFn c j).
Proof.
  intros Hc Hok w H. unfold run_unsubscribeFn, bind at 1, get_unsubscribeFn.
  destruct (unsubscribeFn (the_cell w j)) as [f|] eqn:E; [|exact H].
  unfold bind at 1, note.
  apply preserves_bind; [apply Hc | intros _ w' H'; by apply P_clear |].
  by apply P_fire with f.
Qed.

Lemma unsubscribe_with_entered (c : thunk -> M unit) j w :
  (forall f, preserves P (c f)) ->
  isStopped (the_cell w j) = false -> P (snd (set_isStopped j true w)) -> ok j ->
  P (snd (unsubscribe_with c j w)).
Proof.
  intros Hc E H1 Hok. unfold unsubscribe_with, bind at 1, get_isStopped.
  rewrite E. simpl. unfold bind at 1. simpl. by apply run_unsubscribeFn_preserves.
Qed.

Lemma unsubscribe_with_preserves (c : thunk -> M unit) j :
  (forall f, preserves P (c f)) -> preserves P (unsubscribe_with c j).
Proof.
  intros Hc w H. destruct (isStopped (the_cell w j)) eqn:E.
  - unfold unsubscribe_with, bind at 1, get_isStopped. by rewrite E.
  - destruct (P_enter w j H E) as [H1 Hok]. by apply unsubscribe_with_entered.
Qed.

Lemma call_preserves fuel f : preserves P (call fuel f).
Proof.
  revert f; induction fuel as [|n IH]; intros f; simpl.
  - apply preserves_out_of_fuel.
  - destruct f as [|s|tag c].
    + apply preserves_ret.
    + by apply unsubscribe_with_preserves.
    + apply preserves_bind; [intros w H; by apply P_teardown|].
      intros _. destruct c; [apply preserves_ret | apply preserves_raise].
Qed.

Lemma unsubscribe_preserves fuel j : preserves P (unsubscribe fuel j).
Proof. apply unsubscribe_with_preserves, call_preserves. Qed.

Lemma subscriber_next_preserves j o v :
  observer_preserves P o -> preserves P (subscriber_next j o v).
Proof.
  intros (Hn & _ & _) w H. unfold subscriber_next, bind at 1, note.
  unfold bind at 1, get_isStopped.
  change (the_cell (with_calls w _) j) with (the_cell w j).
  pose proof (P_next w j v H) as H1.
  destruct (isStopped (the_cell w j)); simpl; [exact H1|].
  destruct (next o) as [g|] eqn:E; [|exact H1].
  apply preserves_try_catch; [by apply Hn | intros e; apply preserves_raise | exact H1].
Qed.

Lemma subscriber_error_entered fuel j o e w :
  observer_preserves P o ->
  isStopped (the_cell w j) = false -> P (snd (set_isStopped j true w)) -> ok j ->
  P (snd (subscriber_error (call fuel) j o e w)).
Proof.
  intros (_ & He & _) E H1 Hok. unfold subscriber_error, bind at 1, get_isStopped.
  rewrite E. simpl. unfold bind at 1. simpl.
  apply preserves_bind;
    [| intros _; apply run_unsubscribeFn_preserves; auto using call_preserves | exact H1].
  destruct (error o) as [g|] eqn:Eg; [|apply preserves_ret].
  apply preserves_try_catch; [by apply He | intros; apply preserves_ret].
Qed.

Lemma subscriber_error_preserves fuel j o e :
  observer_preserves P o -> preserves P (subscriber_error (call fuel) j o e).
Proof.
  intros Ho w H. destruct (isStopped (the_cell w j)) eqn:E.
  - unfold subscriber_error, bind at 1, get_isStopped. by rewrite E.
  - destruct (P_enter w j H E) as [H1 Hok]. by apply subscriber_error_entered.
Qed.

Lemma subscriber_complete_entered fuel j o w :
  observer_preserves P o ->
  isStopped (the_cell w j) = false -> P (snd (set_isStopped j true w)) -> ok j ->
  P (snd (subscriber_complete (call fuel) j o w)).
Proof.
  intros (_ & _ & Hc) E H1 Hok. unfold subscriber_complete, bind at 1, get_isStopped.
  rewrite E. simpl. unfold bind at 1. simpl.
  apply preserves_bind;
    [| intros _; apply run_unsubscribeFn_preserves; auto using call_preserves | exact H1].
  destruct (complete o) as [g|] eqn:Eg; [|apply preserves_ret].
  apply preserves_try_catch; [by apply Hc | intros; apply preserves_ret].
Qed.

Lemma subscriber_complete_preserves fuel j o :
  observer_preserves P o -> preserves P (subscriber_complete (call fuel) j o).
Proof.
  intros Ho w H. destruct (isStopped (the_cell w j)) eqn:E.
  - unfold subscriber_complete, bind at 1, get_isStopped. by rewrite E.
  - destruct (P_enter w j H E) as [H1 Hok]. by apply subscriber_complete_entered.
Qed.

Lemma send_preserves fuel j o sig :
  observer_preserves P o -> preserves P (send (mk_subscriber fuel j o) sig).
Proof.
  intros Ho. destruct sig; simpl.
  - by apply subscriber_next_preserves.
  - by apply subscriber_error_preserves.
  - by apply subscriber_complete_preserves.
Qed.

Lemma react_preserves fuel f r : preserves P (react fuel f r).
Proof.
  destruct r; simpl; [apply preserves_ret | apply preserves_raise |].
  apply preserves_bind; [|intros; apply unsubscribe_preserves].
  intros w H. unfold get_subscription. by destruct (subscription (the_frame w f)).
Qed.

Lemma consumer_preserves fuel f h :
  (forall w ev, P w -> P (with_log w (log w ++ [ev]))) ->
  observer_preserves P (consumer fuel f h).
Proof.
  intros P_event. unfold consumer; repeat split; simpl.
  - intros g v Hg. destruct (h_next h); simplify_eq/=.
    apply preserves_bind; [intros w H; by apply P_event | intros; apply react_preserves].
  - intros g v Hg. destruct (h_error h); simplify_eq/=.
    apply preserves_bind; [intros w H; by apply P_event | intros; apply react_preserves].
  - intros g Hg. destruct (h_complete h); simplify_eq/=.
    apply preserves_bind; [intros w H; by apply P_event | intros; apply react_preserves].
Qed.

Lemma forever_preserves fuel s gen i :
  (forall v, preserves P (s_next s v)) -> preserves P (forever fuel s gen i).
Proof.
  intros Hs. revert i; induction fuel as [|n IH]; intros i; simpl.
  - apply preserves_out_of_fuel.
  - apply preserves_bind; auto.
Qed.

Lemma run_producer_preserves fuel p s :
  (forall sig, preserves P (send s sig)) -> preserves P (run_producer fuel p s).
Proof.
  intros Hs. induction p as [r|e|sig k IH|gen r]; simpl.
  - apply preserves_ret.
  - apply preserves_raise.
  - intros w H. specialize (Hs sig w H).
    destruct (send s sig w) as [[a|x|] w']; simpl in *; auto.
    + by apply IH.
    + by apply IH.
  - apply forever_preserves. intros v. apply (Hs (SigNext v)).
Qed.
End Invariant.

(** * Reading the store after a write *)

Lemma isStopped_set_isStopped j i w :
  isStopped (the_cell (snd (set_isStopped j true w)) i)
  = if decide (i = j) then true else isStopped (the_cell w i).
Proof.
  unfold the_cell, set_isStopped; simpl. case_decide as E.
  - subst. rewrite list_lookup_alter_eq. by destruct (cells w !! j).
  - by rewrite list_lookup_alter_ne by congruence.
Qed.

Lemma unsubscribeFn_set_isStopped j b i w :
  unsubscribeFn (the_cell (snd (set_isStopped j b w)) i) = unsubscribeFn (the_cell w i).
Proof.
  unfold the_cell, set_isStopped; simpl. destruct (decide (i = j)) as [->|E].
  - rewrite list_lookup_alter_eq. by destruct (cells w !! j).
  - by rewrite list_lookup_alter_ne by congruence.
Qed.

Lemma isStopped_set_unsubscribeFn j f i w :
  isStopped (the_cell (snd (set_unsubscribeFn j f w)) i) = isStopped (the_cell w i).
Proof.
  unfold the_cell, set_unsubscribeFn; simpl. destruct (decide (i = j)) as [->|E].
  - rewrite list_lookup_alter_eq. by destruct (cells w !! j).
  - by rewrite list_lookup_alter_ne by congruence.
Qed.

Lemma unsubscribeFn_clear j i w :
  unsubscribeFn (the_cell w i) = None ->
  unsubscribeFn (the_cell (snd (set_unsubscribeFn j None w)) i) = None.
Proof.
  unfold the_cell, set_unsubscribeFn; simpl. destruct (decide (i = j)) as [->|E].
  - rewrite list_lookup_alter_eq. by destruct (cells w !! j).
  - by rewrite list_lookup_alter_ne by congruence.
Qed.

Lemma cleanup_count_app id cs c :
  cleanup_count id (cs ++ [c])
  = (cleanup_count id cs + if is_cleanup_of id c then 1 else 0)%nat.
Proof.
  unfold cleanup_count. rewrite List.filter_app, length_app. simpl.
  by destruct (is_cleanup_of id c).
Qed.

Lemma cleanup_count_other id j cs :
  j <> id -> cleanup_count id (cs ++ [CallCleanup j]) = cleanup_count id cs.
Proof.
  intros E. rewrite cleanup_count_app. simpl.
  destruct (Nat.eqb_spec j id); [done | lia].
Qed.

Lemma cleanup_count_next id j v cs :
  cleanup_count id (cs ++ [CallNext j v]) = cleanup_count id cs.
Proof. rewrite cleanup_count_app. simpl. lia. Qed.

(** * The two invariants *)

Section StoppedAt.
Context (id n : nat).

Lemma stopped_at_log w l : stopped_at id n w -> stopped_at id n (with_log w l).
Proof. done. Qed.

Lemma stopped_at_next w j v :
  stopped_at id n w -> stopped_at id n (with_calls w (calls w ++ [CallNext j v])).
Proof. intros [H1 H2]. split; [done|]. simpl. by rewrite cleanup_count_next. Qed.

Lemma stopped_at_enter w j :
  stopped_at id n w -> isStopped (the_cell w j) = false ->
  stopped_at id n (snd (set_isStopped j true w)) /\ j <> id.
Proof.
  intros [H1 H2] E. split; [split|].
  - rewrite isStopped_set_isStopped. by case_decide.
  - done.
  - intros ->. congruence.
Qed.

Lemma stopped_at_clear w j :
  stopped_at id n w -> stopped_at id n (snd (set_unsubscribeFn j None w)).
Proof. intros [H1 H2]. split; [by rewrite isStopped_set_unsubscribeFn | done]. Qed.

Lemma stopped_at_fire w j (f : thunk) :
  stopped_at id n w -> j <> id -> unsubscribeFn (the_cell w j) = Some f ->
  stopped_at id n (with_calls w (calls w ++ [CallCleanup j])).
Proof. intros [H1 H2] E _. split; [done|]. simpl. by rewrite cleanup_count_other. Qed.
End StoppedAt.

Section UnregisteredAt.
Context (id n : nat).

Lemma unregistered_at_log w l : unregistered_at id n w -> unregistered_at id n (with_log w l).
Proof. done. Qed.

Lemma unregistered_at_next w j v :
  unregistered_at id n w -> unregistered_at id n (with_calls w (calls w ++ [CallNext j v])).
Proof. intros [H1 H2]. split; [done|]. simpl. by rewrite cleanup_count_next. Qed.

Lemma unregistered_at_enter w j :
  unregistered_at id n w -> isStopped (the_cell w j) = false ->
  unregistered_at id n (snd (set_isStopped j true w)) /\ True.
Proof.
  intros [H1 H2] _. split; [split|]; [|done..].
  by rewrite unsubscribeFn_set_isStopped.
Qed.

Lemma unregistered_at_clear w j :
  unregistered_at id n w -> unregistered_at id n (snd (set_unsubscribeFn j None w)).
Proof. intros [H1 H2]. split; [by apply unsubscribeFn_clear | done]. Qed.

Lemma unregistered_at_fire w j (f : thunk) :
  unregistered_at id n w -> True -> unsubscribeFn (the_cell w j) = Some f ->
  unregistered_at id n (with_calls w (calls w ++ [CallCleanup j])).
Proof.
  intros [H1 H2] _ E. split; [done|]. simpl.
  rewrite cleanup_count_other; [done|]. intros ->. congruence.
Qed.
End UnregisteredAt.

(** Whatever is called on a terminal cell, or on any other cell, the terminal
    cell stays terminal and its cleanup is not invoked. *)
Lemma stopped_at_call id n fuel f : preserves (stopped_at id n) (call fuel f).
Proof.
  apply (call_preserves _ (fun j => j <> id));
    eauto using stopped_at_log, stopped_at_enter, stopped_at_clear, stopped_at_fire.
Qed.

Lemma stopped_at_unsubscribe id n fuel j :
  preserves (stopped_at id n) (unsubscribe fuel j).
Proof.
  apply (unsubscribe_preserves _ (fun j => j <> id));
    eauto using stopped_at_log, stopped_at_enter, stopped_at_clear, stopped_at_fire.
Qed.

Lemma stopped_at_consumer id n fuel f h :
  observer_preserves (stopped_at id n) (consumer fuel f h).
Proof.
  apply (consumer_preserves _ (fun j => j <> id));
    eauto using stopped_at_log, stopped_at_enter, stopped_at_clear, stopped_at_fire.
Qed.

Lemma stopped_at_send id n fuel j o sig :
  observer_preserves (stopped_at id n) o ->
  preserves (stopped_at id n) (send (mk_subscriber fuel j o) sig).
Proof.
  apply (send_preserves _ (fun j => j <> id));
    eauto using stopped_at_log, stopped_at_next, stopped_at_enter, stopped_at_clear,
      stopped_at_fire.
Qed.

Lemma unregistered_at_call id n fuel f : preserves (unregistered_at id n) (call fuel f).
Proof.
  apply (call_preserves _ (fun _ => True));
    eauto using unregistered_at_log, unregistered_at_enter, unregistered_at_clear,
      unregistered_at_fire.
Qed.

Lemma unregistered_at_consumer id n fuel f h :
  observer_preserves (unregistered_at id n) (consumer fuel f h).
Proof.
  apply (consumer_preserves _ (fun _ => True));
    eauto using unregistered_at_log, unregistered_at_enter, unregistered_at_clear,
      unregistered_at_fire.
Qed.

Lemma unregistered_at_send id n fuel j o sig :
  observer_preserves (unregistered_at id n) o ->
  preserves (unregistered_at id n) (send (mk_subscriber fuel j o) sig).
Proof.
  apply (send_preserves _ (fun _ => True));
    eauto using unregistered_at_log, unregistered_at_next, unregistered_at_enter,
      unregistered_at_clear, unregistered_at_fire.
Qed.

Lemma unregistered_at_run_producer id n fuel p j o :
  observer_preserves (unregistered_at id n) o ->
  preserves (unregistered_at id n) (run_producer fuel p (mk_subscriber fuel j o)).
Proof.
  intros Ho. apply run_producer_preserves. intros sig. by apply unregistered_at_send.
Qed.

Section TerminalCell.
Context (id : nat).
Local Abbreviation P := (is_terminal id).

Lemma terminal_enter w j :
  P w -> isStopped (the_cell w j) = false -> P (snd (set_isStopped j true w)) /\ True.
Proof.
  unfold is_terminal. intros H _. split; [|done].
  rewrite isStopped_set_isStopped. by case_decide.
Qed.

Lemma terminal_clear w j : P w -> P (snd (set_unsubscribeFn j None w)).
Proof. unfold is_terminal. by rewrite isStopped_set_unsubscribeFn. Qed.

Lemma terminal_call fuel f : preserves P (call fuel f).
Proof.
  apply (call_preserves _ (fun _ => True)); auto using terminal_enter, terminal_clear.
Qed.

Lemma terminal_consumer fuel f h : observer_preserves P (consumer fuel f h).
Proof.
  apply (consumer_preserves _ (fun _ => True)); auto using terminal_enter, terminal_clear.
Qed.

Lemma terminal_run_unsubscribeFn fuel j : preserves P (run_unsubscribeFn (call fuel) j).
Proof.
  apply (run_unsubscribeFn_preserves _ (fun _ => True));
    auto using terminal_clear, terminal_call.
Qed.
End TerminalCell.

(** * Operations on a terminal cell *)

Lemma subscriber_next_stopped id o v w :
  isStopped (the_cell w id) = true ->
  subscriber_next id o v w = (Returned tt, with_calls w (calls w ++ [CallNext id v])).
Proof.
  intros H. unfold subscriber_next, bind, note, get_isStopped; simpl.
  change (the_cell (with_calls w _) id) with (the_cell w id). by rewrite H.
Qed.

Lemma subscriber_error_stopped c id o e w :
  isStopped (the_cell w id) = true -> subscriber_error c id o e w = (Returned tt, w).
Proof. intros H. unfold subscriber_error, bind, get_isStopped. by rewrite H. Qed.

Lemma subscriber_complete_stopped c id o w :
  isStopped (the_cell w id) = true -> subscriber_complete c id o w = (Returned tt, w).
Proof. intros H. unfold subscriber_complete, bind, get_isStopped. by rewrite H. Qed.

Lemma unsubscribe_stopped fuel id w :
  isStopped (the_cell w id) = true -> unsubscribe fuel id w = (Returned tt, w).
Proof. intros H. unfold unsubscribe, unsubscribe_with, bind, get_isStopped. by rewrite H. Qed.

Lemma send_stopped fuel id o sig w :
  isStopped (the_cell w id) = true ->
  let w' := snd (send (mk_subscriber fuel id o) sig w) in
  log w' = log w /\ isStopped (the_cell w' id) = true.
Proof.
  intros H. destruct sig; simpl.
  - by rewrite subscriber_next_stopped.
  - by rewrite subscriber_error_stopped.
  - by rewrite subscriber_complete_stopped.
Qed.

Lemma send_all_stopped fuel id o sigs w :
  isStopped (the_cell w id) = true ->
  log (send_all (mk_subscriber fuel id o) sigs w) = log w.
Proof.
  revert w; induction sigs as [|sig sigs IH]; intros w H; [done|].
  destruct (send_stopped fuel id o sig w H) as [Hl Hs].
  unfold send_all in *. cbn [fold_left]. by rewrite IH.
Qed.

Lemma again_unsubscribe_stopped fuel id k w :
  isStopped (the_cell w id) = true -> again k (unsubscribe fuel id) w = (Returned tt, w).
Proof.
  intros H. induction k as [|k IH]; [done|].
  simpl. unfold bind. by rewrite unsubscribe_stopped.
Qed.

(** Each of the three terminal paths leaves the cell terminal. *)
Lemma terminate_stops fuel id f h t w :
  isStopped (the_cell (snd (terminate fuel id (consumer fuel f h) t w)) id) = true.
Proof.
  destruct (isStopped (the_cell w id)) eqn:E.
  - destruct t; simpl.
    + by rewrite subscriber_error_stopped.
    + by rewrite subscriber_complete_stopped.
    + by rewrite unsubscribe_stopped.
  - assert (H1 : isStopped (the_cell (snd (set_isStopped id true w)) id) = true).
    { rewrite isStopped_set_isStopped. by case_decide. }
    pose proof (terminal_consumer id fuel f h) as Ho.
    change (is_terminal id (snd (terminate fuel id (consumer fuel f h) t w))).
    destruct t; simpl.
    + apply (subscriber_error_entered _ (fun _ => True));
        auto using terminal_enter, terminal_clear.
    + apply (subscriber_complete_entered _ (fun _ => True));
        auto using terminal_enter, terminal_clear.
    + apply (unsubscribe_with_entered _ (fun _ => True));
        auto using terminal_enter, terminal_clear, terminal_call.
Qed.

(** * Operations on a live cell *)

Lemma unsubscribe_with_live c id w :
  isStopped (the_cell w id) = false ->
  unsubscribe_with c id w = run_unsubscribeFn c id (snd (set_isStopped id true w)).
Proof. intros H. unfold unsubscribe_with, bind, get_isStopped. by rewrite H. Qed.

Lemma subscriber_error_live c id o e w :
  isStopped (the_cell w id) = false ->
  subscriber_error c id o e w
  = (match error o with
     | Some on_error => try_catch (on_error e) (fun _ => ret tt)
     | None => ret tt
     end ;; run_unsubscribeFn c id) (snd (set_isStopped id true w)).
Proof. intros H. unfold subscriber_error, bind at 1, get_isStopped. by rewrite H. Qed.

Lemma subscriber_complete_live c id o w :
  isStopped (the_cell w id) = false ->
  subscriber_complete c id o w
  = (match complete o with
     | Some on_complete => try_catch on_complete (fun _ => ret tt)
     | None => ret tt
     end ;; run_unsubscribeFn c id) (snd (set_isStopped id true w)).
Proof. intros H. unfold subscriber_complete, bind at 1, get_isStopped. by rewrite H. Qed.

Lemma subscriber_next_live id o v w :
  isStopped (the_cell w id) = false ->
  subscriber_next id o v w
  = match next o with
    | Some on_next => try_catch (on_next v) (fun error => this_error error)
    | None => ret tt
    end (with_calls w (calls w ++ [CallNext id v])).
Proof.
  intros H. unfold subscriber_next, bind, note, get_isStopped; simpl.
  change (the_cell (with_calls w _) id) with (the_cell w id). rewrite H. simpl.
  by destruct (next o).
Qed.

Lemma run_unsubscribeFn_none c id w :
  unsubscribeFn (the_cell w id) = None -> run_unsubscribeFn c id w = (Returned tt, w).
Proof. intros H. unfold run_unsubscribeFn, bind, get_unsubscribeFn. by rewrite H. Qed.

Lemma run_unsubscribeFn_some c id f w :
  unsubscribeFn (the_cell w id) = Some f ->
  run_unsubscribeFn c id w
  = (c f ;; set_unsubscribeFn id None) (with_calls w (calls w ++ [CallCleanup id])).
Proof. intros H. unfold run_unsubscribeFn, bind at 1, get_unsubscribeFn. by rewrite H. Qed.

(** The first [unsubscribe] on a live cell invokes the registered cleanup once. *)
Lemma unsubscribe_count fuel id w :
  cleanup_count id (calls (snd (unsubscribe fuel id w)))
  = (cleanup_count id (calls w)
     + match isStopped (the_cell w id), unsubscribeFn (the_cell w id) with
       | false, Some _ => 1
       | _, _ => 0
       end)%nat.
Proof.
  destruct (isStopped (the_cell w id)) eqn:E.
  - rewrite unsubscribe_stopped by done. simpl. lia.
  - unfold unsubscribe. rewrite unsubscribe_with_live by done.
    pose proof (unsubscribeFn_set_isStopped id true id w) as Hf.
    assert (Hs : isStopped (the_cell (snd (set_isStopped id true w)) id) = true).
    { rewrite isStopped_set_isStopped. by case_decide. }
    change (calls w) with (calls (snd (set_isStopped id true w))).
    destruct (unsubscribeFn (the_cell w id)) as [g|] eqn:Eg.
    + rewrite (run_unsubscribeFn_some _ _ g) by done.
      set (w1 := with_calls _ _).
      assert (H1 : stopped_at id (cleanup_count id (calls w) + 1) w1).
      { split; [exact Hs|]. subst w1. simpl. rewrite cleanup_count_app. simpl.
        by rewrite Nat.eqb_refl. }
      assert (Hp : preserves (stopped_at id (cleanup_count id (calls w) + 1))
                     (call fuel g ;; set_unsubscribeFn id None)).
      { apply preserves_bind; [apply stopped_at_call|].
        intros _ w' H'. by apply stopped_at_clear. }
      by destruct (Hp w1 H1) as [_ H2].
    + rewrite run_unsubscribeFn_none by done. simpl. lia.
Qed.

(** C1: when the consumer's [next] callback throws [e], [subscriber.next] does
    not reach the Subscriber's error path: line 49 calls [this.error], which an
    Observable does not have, so a TypeError leaves [subscriber.next] towards
    the producer, the Observer's [error] callback is not invoked, and the
    subscription is still live. *)
Theorem next_handler_throw_escapes fuel id f hn he hc v e w :
  isStopped (the_cell w id) = false ->
  hn v = Throws e ->
  let r := s_next (mk_subscriber fuel id (consumer fuel f (Handlers (Some hn) he hc))) v w in
  fst r = Raised (TypeError "this.error is not a function") /\
  log (snd r) = log w ++ [OnNext v] /\
  isStopped (the_cell (snd r) id) = false.
Proof.
  intros E Hv. simpl. unfold subscriber_next, bind, note, get_isStopped; simpl.
  change (the_cell (with_calls w _) id) with (the_cell w id). rewrite E. simpl.
  unfold try_catch, bind, emit; simpl. rewrite Hv. simpl. done.
Qed.

Lemma next_handler_throw_escapes_witness :
  let w := snd (alloc_cell empty_world) in
  let r := s_next (mk_subscriber 1 0 (consumer 1 0
             (Handlers (Some (fun _ => Throws boom)) (Some (fun _ => Returns)) (Some Returns))))
             (VNum 1) w in
  fst r = Raised (TypeError "this.error is not a function") /\
  log (snd r) = log w ++ [OnNext (VNum 1)] /\
  isStopped (the_cell (snd r) 0) = false.
Proof.
  apply (next_handler_throw_escapes 1 0 0 (fun _ => Throws boom) _ _ (VNum 1) boom);
    reflexivity.
Defined.

(** C2: once a subscription is terminal, through [error], [complete] or
    [unsubscribe], whatever calls of [next], [error] and [complete] the
    producer makes afterwards invoke no callback of the Observer. *)
Theorem no_signal_after_terminal fuel id f h t later w :
  let o := consumer fuel f h in
  let w1 := snd (terminate fuel id o t w) in
  log (send_all (mk_subscriber fuel id o) later w1) = log w1.
Proof. simpl. apply send_all_stopped, terminate_stops. Qed.

Lemma live_in_range w id : isStopped (the_cell w id) = false -> (id < length (cells w))%nat.
Proof.
  unfold the_cell. intros H. destruct (cells w !! id) eqn:E; [|done].
  by apply lookup_lt_Some in E.
Qed.

Lemma the_cell_set_isStopped c b w :
  (c < length (cells w))%nat ->
  the_cell (snd (set_isStopped c b w)) c = Cell b (unsubscribeFn (the_cell w c)).
Proof.
  intros Hc. unfold the_cell, set_isStopped; simpl. rewrite list_lookup_alter_eq.
  destruct (cells w !! c) eqn:E; [done|]. apply lookup_ge_None in E. lia.
Qed.

Lemma the_cell_set_unsubscribeFn c g w :
  (c < length (cells w))%nat ->
  the_cell (snd (set_unsubscribeFn c g w)) c = Cell (isStopped (the_cell w c)) g.
Proof.
  intros Hc. unfold the_cell, set_unsubscribeFn; simpl. rewrite list_lookup_alter_eq.
  destruct (cells w !! c) eqn:E; [done|]. apply lookup_ge_None in E. lia.
Qed.

(** The first [unsubscribe] on a live cell: the flag is set, the registered
    cleanup is called, and the slot is cleared if that call returns. *)
Lemma unsubscribe_live_some fuel id g w :
  isStopped (the_cell w id) = false ->
  unsubscribeFn (the_cell w id) = Some g ->
  unsubscribe fuel id w
  = (call fuel g ;; set_unsubscribeFn id None)
      (with_calls (snd (set_isStopped id true w)) (calls w ++ [CallCleanup id])).
Proof.
  intros Hlive Hslot. unfold unsubscribe. rewrite unsubscribe_with_live by done.
  by rewrite (run_unsubscribeFn_some _ _ g) by (by rewrite unsubscribeFn_set_isStopped).
Qed.

Lemma unsubscribe_live_none fuel id w :
  isStopped (the_cell w id) = false ->
  unsubscribeFn (the_cell w id) = None ->
  unsubscribe fuel id w = (Returned tt, snd (set_isStopped id true w)).
Proof.
  intros Hlive Hslot. unfold unsubscribe. rewrite unsubscribe_with_live by done.
  apply run_unsubscribeFn_none. by rewrite unsubscribeFn_set_isStopped.
Qed.

(** The first [unsubscribe] on a live cell whose cleanup was written by the
    user: the cleanup runs, once; the slot is cleared unless it throws. *)
Lemma unsubscribe_user_cleanup fuel id tag c w :
  isStopped (the_cell w id) = false ->
  unsubscribeFn (the_cell w id) = Some (UserFn tag c) ->
  let r := unsubscribe (S fuel) id w in
  fst r = match c with Normal _ => Returned tt | Throw x => Raised x end /\
  log (snd r) = log w ++ [Teardown tag] /\
  the_cell (snd r) id
  = Cell true (match c with Normal _ => None | Throw _ => Some (UserFn tag c) end) /\
  calls (snd r) = calls w ++ [CallCleanup id].
Proof.
  intros Hlive Hslot. cbn zeta. rewrite (unsubscribe_live_some _ _ (UserFn tag c)) by done.
  pose proof (live_in_range w id Hlive) as Hin.
  set (w2 := with_calls _ _).
  assert (Hc2 : the_cell w2 id = Cell true (Some (UserFn tag c))).
  { subst w2. change (the_cell (with_calls ?w _) id) with (the_cell w id).
    rewrite the_cell_set_isStopped by done. by rewrite Hslot. }
  assert (Hlog2 : log w2 = log w) by done.
  assert (Hcalls2 : calls w2 = calls w ++ [CallCleanup id]) by done.
  assert (Hin2 : (id < length (cells w2))%nat).
  { subst w2. simpl. by rewrite length_alter. }
  clearbody w2.
  destruct c as [[]|x].
  - assert (E : (call (S fuel) (UserFn tag (Normal tt)) ;; set_unsubscribeFn id None) w2
                = (Returned tt,
                   snd (set_unsubscribeFn id None (with_log w2 (log w2 ++ [Teardown tag])))))
      by reflexivity.
    rewrite E. cbn [fst snd]. split; [done|]. split; [simpl; by rewrite Hlog2|].
    split; [|done].
    rewrite the_cell_set_unsubscribeFn by done.
    change (the_cell (with_log w2 _) id) with (the_cell w2 id). by rewrite Hc2.
  - assert (E : (call (S fuel) (UserFn tag (Throw x)) ;; set_unsubscribeFn id None) w2
                = (Raised x, with_log w2 (log w2 ++ [Teardown tag])))
      by reflexivity.
    rewrite E. cbn [fst snd]. split; [done|]. split; [simpl; by rewrite Hlog2|].
    split; [|done].
    change (the_cell (with_log w2 _) id) with (the_cell w2 id). by rewrite Hc2.
Qed.

(** C4: [unsubscribe] is idempotent.  After the first call the cell is
    terminal.  On a cell that is terminal already the call returns and changes
    nothing.  On a live cell without a cleanup it returns and only sets the
    flag.  On a live cell with the cleanup [g] it sets the flag, calls [g]
    once and then clears the slot; when [g] was written by the user the log
    grows by the one record of that call and by nothing else, the call
    returns if [g] does, and the slot is empty afterwards.  Any number of
    further calls, and any number of calls after termination by [error] or
    [complete], return normally and change nothing, so the log keeps showing
    the cleanup once. *)
Theorem unsubscribe_idempotent fuel id w :
  let r := unsubscribe fuel id w in
  let w1 := snd r in
  isStopped (the_cell w1 id) = true /\
  cleanup_count id (calls w1)
  = (cleanup_count id (calls w)
     + match isStopped (the_cell w id), unsubscribeFn (the_cell w id) with
       | false, Some _ => 1
       | _, _ => 0
       end)%nat /\
  (forall k, again k (unsubscribe fuel id) w1 = (Returned tt, w1)) /\
  (forall f h t k,
     let w2 := snd (terminate fuel id (consumer fuel f h) t w) in
     again k (unsubscribe fuel id) w2 = (Returned tt, w2)) /\
  (isStopped (the_cell w id) = true -> r = (Returned tt, w)) /\
  (isStopped (the_cell w id) = false -> unsubscribeFn (the_cell w id) = None ->
   r = (Returned tt, snd (set_isStopped id true w))) /\
  (forall g,
     isStopped (the_cell w id) = false -> unsubscribeFn (the_cell w id) = Some g ->
     r = (call fuel g ;; set_unsubscribeFn id None)
           (with_calls (snd (set_isStopped id true w)) (calls w ++ [CallCleanup id]))) /\
  (forall tag c,
     isStopped (the_cell w id) = false ->
     unsubscribeFn (the_cell w id) = Some (UserFn tag c) ->
     (1 <= fuel)%nat ->
     fst r = match c with Normal _ => Returned tt | Throw x => Raised x end /\
     log w1 = log w ++ [Teardown tag] /\
     the_cell w1 id
     = Cell true (match c with Normal _ => None | Throw _ => Some (UserFn tag c) end) /\
     forall k, log (snd (again k (unsubscribe fuel id) w1)) = log w ++ [Teardown tag]).
Proof.
  cbn zeta.
  pose proof (terminate_stops fuel id 0 (Handlers None None None) ByUnsubscribe w) as H.
  cbn [terminate] in H.
  split; [exact H|]. split; [apply unsubscribe_count|].
  split; [intros k; by apply again_unsubscribe_stopped|].
  split; [intros f h t k; apply again_unsubscribe_stopped, terminate_stops|].
  split; [intros Hs; by apply unsubscribe_stopped|].
  split; [intros Hl Hn; by apply unsubscribe_live_none|].
  split; [intros g Hl Hg; by apply unsubscribe_live_some|].
  intros tag c Hl Hg Hfuel. destruct fuel as [|n]; [lia|].
  destruct (unsubscribe_user_cleanup n id tag c w Hl Hg) as (E1 & E2 & E3 & _).
  split; [exact E1|]. split; [exact E2|]. split; [exact E3|].
  intros k. rewrite again_unsubscribe_stopped by exact H. exact E2.
Qed.

Lemma unsubscribe_idempotent_witness :
  let w := World [Cell false (Some (UserFn "probe" (Normal tt)))] [] [] [] in
  let r := unsubscribe 1 0 w in
  fst r = Returned tt /\
  log (snd r) = [Teardown "probe"] /\
  the_cell (snd r) 0 = Cell true None /\
  log (snd (again 3 (unsubscribe 1 0) (snd r))) = [Teardown "probe"].
Proof.
  destruct (unsubscribe_idempotent 1 0
              (World [Cell false (Some (UserFn "probe" (Normal tt)))] [] [] []))
    as (_ & _ & _ & _ & _ & _ & _ & H).
  destruct (H "probe" (Normal tt) eq_refl eq_refl (le_n 1)) as (H1 & H2 & H3 & H4).
  split; [exact H1|]. split; [exact H2|]. split; [exact H3|]. exact (H4 3%nat).
Defined.

(** * Fresh cells and frames *)

Lemma lookup_fresh {A} (l : list A) x : (l ++ [x]) !! length l = Some x.
Proof. by apply list_lookup_middle. Qed.

Lemma alter_fresh {A} (g : A -> A) (l : list A) x :
  alter g (length l) (l ++ [x]) = l ++ [g x].
Proof.
  replace (length l) with (length l + 0)%nat by lia. by rewrite alter_app_r.
Qed.

Lemma world_eta w : World (cells w) (frames w) (log w) (calls w) = w.
Proof. by destruct w. Qed.

(** A callback of a consumer whose [subscription] is not initialised yet:
    whatever it does, it cannot reach any Subscription. *)
Lemma react_uninitialised fuel f r w :
  subscription (the_frame w f) = None ->
  exists res, react fuel f r w = (res, w) /\ res <> OutOfFuel.
Proof.
  intros H. destruct r; simpl; [by eexists..|].
  unfold bind, get_subscription. rewrite H. by eexists.
Qed.

Lemma try_react_uninitialised fuel f r ev w :
  subscription (the_frame w f) = None ->
  try_catch (emit ev ;; react fuel f r) (fun _ => ret tt) w
  = (Returned tt, with_log w (log w ++ [ev])).
Proof.
  intros H. unfold try_catch, bind at 1, emit.
  destruct (react_uninitialised fuel f r (with_log w (log w ++ [ev])) H) as (res & -> & Hr).
  by destruct res as [[]| |].
Qed.

(** * [from] *)

Lemma subscriber_isStopped_undefined s : get_property s "isStopped" = VUndefined.
Proof. reflexivity. Qed.

(** The loop of [from] on a live Subscriber whose Observer's [next] returns. *)
Lemma from_loop_live fuel id f hn he hc array w :
  isStopped (the_cell w id) = false ->
  (forall v, hn v = Returns) ->
  from_loop array (mk_subscriber fuel id (consumer fuel f (Handlers (Some hn) he hc))) w
  = (Returned tt,
     World (cells w) (frames w) (log w ++ map OnNext array)
           (calls w ++ map (CallNext id) array)).
Proof.
  intros E Hn. revert w E. induction array as [|v rest IH]; intros w E.
  - simpl. rewrite !app_nil_r. by rewrite world_eta.
  - cbn [from_loop]. rewrite subscriber_isStopped_undefined. cbn [truthy].
    unfold bind at 1. cbn [s_next mk_subscriber].
    rewrite subscriber_next_live by done. simpl.
    unfold try_catch, bind at 1, emit. simpl. rewrite Hn. simpl.
    rewrite IH by done. simpl. by rewrite <- !app_assoc.
Qed.

(** * Running a computation step by step *)

Lemma bind_runs {A B} (m : M A) (k : A -> M B) w a w1 r w2 :
  m w = (Returned a, w1) -> k a w1 = (r, w2) -> bind m k w = (r, w2).
Proof. intros H1 H2. unfold bind. by rewrite H1. Qed.

Lemma bind_raises {A B} (m : M A) (k : A -> M B) w e w1 :
  m w = (Raised e, w1) -> bind m k w = (Raised e, w1).
Proof. intros H1. unfold bind. by rewrite H1. Qed.

Lemma try_runs {A} (m : M A) (h : value -> M A) w a w1 :
  m w = (Returned a, w1) -> try_catch m h w = (Returned a, w1).
Proof. intros H1. unfold try_catch. by rewrite H1. Qed.

Lemma try_catches {A} (m : M A) (h : value -> M A) w e w1 r w2 :
  m w = (Raised e, w1) -> h e w1 = (r, w2) -> try_catch m h w = (r, w2).
Proof. intros H1 H2. unfold try_catch. by rewrite H1. Qed.

Lemma the_cell_fresh cs fs l c x : the_cell (World (cs ++ [x]) fs l c) (length cs) = x.
Proof. unfold the_cell. simpl. by rewrite lookup_fresh. Qed.

Lemma the_frame_fresh cs fs l c x : the_frame (World cs (fs ++ [x]) l c) (length fs) = x.
Proof. unfold the_frame. simpl. by rewrite lookup_fresh. Qed.

(** The procedure of [from] on a live Subscriber without cleanup. *)
Lemma from_subscribeFn_runs fuel id f hn he hc array w :
  isStopped (the_cell w id) = false ->
  unsubscribeFn (the_cell w id) = None ->
  subscription (the_frame w f) = None ->
  (forall v, hn v = Returns) ->
  from_subscribeFn array
    (mk_subscriber fuel id (consumer fuel f (Handlers (Some hn) he (Some hc)))) w
  = (Returned (RFunction EmptyFn),
     World (alter (fun c => Cell true (unsubscribeFn c)) id (cells w)) (frames w)
           (log w ++ map OnNext array ++ [OnComplete])
           (calls w ++ map (CallNext id) array)).
Proof.
  intros E Hf Hs Hn. unfold from_subscribeFn.
  eapply bind_runs; [by apply from_loop_live|].
  eapply bind_runs; [|reflexivity].
  cbn [s_complete mk_subscriber]. rewrite subscriber_complete_live by done.
  eapply bind_runs.
  - cbn [complete consumer h_complete option_map]. by apply try_react_uninitialised.
  - rewrite run_unsubscribeFn_none; [simpl; by rewrite <- app_assoc|].
    change (the_cell (with_log ?w _) id) with (the_cell w id).
    by rewrite unsubscribeFn_set_isStopped.
Qed.

Lemma run_subscribe_from fuel array hn he hc cs fs l c :
  (forall v, hn v = Returns) ->
  run_subscribe fuel (From array) (Handlers (Some hn) he (Some hc)) (World cs fs l c)
  = (Returned (length cs),
     World (cs ++ [Cell true (Some EmptyFn)]) (fs ++ [Frame 0 (Some (length cs))])
           (l ++ map OnNext array ++ [OnComplete])
           (c ++ map (CallNext (length cs)) array)).
Proof.
  intros Hn. unfold run_subscribe.
  eapply bind_runs; [reflexivity|].
  eapply bind_runs.
  - cbn [subscribe normalize]. eapply bind_runs; [reflexivity|].
    eapply bind_runs; [eapply try_runs, bind_runs|reflexivity].
    + apply from_subscribeFn_runs; try done;
        unfold the_cell, the_frame; simpl; by rewrite lookup_fresh.
    + reflexivity.
  - simpl. unfold bind, init_subscription, ret, with_frames, with_cells; simpl.
    by rewrite !alter_fresh.
Qed.

(** C3: for every finite array and every Observer whose [next] callback
    returns normally, subscribing to [from(array)] invokes [next] once for each
    element, in array order, then [complete] once, and never [error];
    [subscribe] returns the new Subscription. *)
Theorem from_delivers_all fuel array hn he hc w :
  (forall v, hn v = Returns) ->
  let r := run_subscribe fuel (From array) (Handlers (Some hn) he (Some hc)) w in
  fst r = Returned (length (cells w)) /\
  log (snd r) = log w ++ map OnNext array ++ [OnComplete].
Proof.
  intros Hn. destruct w as [cs fs l c]. cbn zeta. by rewrite run_subscribe_from.
Qed.

Lemma from_delivers_all_witness :
  let r := run_subscribe 0 (From [VNum 1; VNum 2; VNum 3]) recorder empty_world in
  fst r = Returned 0%nat /\
  log (snd r) = [OnNext (VNum 1); OnNext (VNum 2); OnNext (VNum 3); OnComplete].
Proof.
  apply (from_delivers_all 0 [VNum 1; VNum 2; VNum 3] (fun _ => Returns)
           (Some (fun _ => Returns)) Returns empty_world).
  reflexivity.
Defined.

(** * A procedure written by the user neither allocates nor touches frames *)

Lemma same_shape_run_producer n fs fuel p id f h :
  preserves (same_shape n fs)
    (run_producer fuel p (mk_subscriber fuel id (consumer fuel f h))).
Proof.
  assert (Hs : forall w j b, same_shape n fs w -> same_shape n fs (snd (set_isStopped j b w))).
  { intros w j b [H1 H2]. split; [|done]. simpl. by rewrite length_alter. }
  assert (Hc : forall w j g, same_shape n fs w -> same_shape n fs (snd (set_unsubscribeFn j g w))).
  { intros w j g [H1 H2]. split; [|done]. simpl. by rewrite length_alter. }
  apply run_producer_preserves. intros sig.
  apply (send_preserves _ (fun _ => True)); auto.
  apply (consumer_preserves _ (fun _ => True)); auto.
Qed.

(** C9: the loop of [from] tests [subscriber.isStopped], which the Subscriber
    object does not have, so on a terminal subscription it does not halt: every
    element of the array is still passed to [subscriber.next] (and dropped
    there, so the Observer sees none). *)
Theorem from_ignores_terminal_state fuel id o array w :
  isStopped (the_cell w id) = true ->
  let r := from_subscribeFn array (mk_subscriber fuel id o) w in
  fst r = Returned (RFunction EmptyFn) /\
  calls (snd r) = calls w ++ map (CallNext id) array /\
  log (snd r) = log w.
Proof.
  intros E. cbn zeta. unfold from_subscribeFn.
  assert (H : from_loop array (mk_subscriber fuel id o) w
              = (Returned tt, with_calls w (calls w ++ map (CallNext id) array))).
  { revert w E. induction array as [|v rest IH]; intros w E.
    - simpl. rewrite app_nil_r. by destruct w.
    - cbn [from_loop]. rewrite subscriber_isStopped_undefined. cbn [truthy].
      eapply bind_runs; [by apply subscriber_next_stopped|].
      rewrite IH by done. simpl. by rewrite <- app_assoc. }
  erewrite bind_runs; [| exact H |].
  2:{ eapply bind_runs; [by apply subscriber_complete_stopped | reflexivity]. }
  done.
Qed.

Lemma from_ignores_terminal_state_witness :
  let w := World [Cell true None] [] [] [] in
  let r := from_subscribeFn [VNum 1; VNum 2; VNum 3] (mk_subscriber 0 0 (consumer 0 0 recorder)) w in
  fst r = Returned (RFunction EmptyFn) /\
  calls (snd r) = [CallNext 0 (VNum 1); CallNext 0 (VNum 2); CallNext 0 (VNum 3)] /\
  log (snd r) = [].
Proof.
  apply (from_ignores_terminal_state 0 0 (consumer 0 0 recorder) [VNum 1; VNum 2; VNum 3]
           (World [Cell true None] [] [] [])).
  reflexivity.
Defined.

Section CreateRun.
Context (fuel : nat) (p : producer) (h : handlers) (w : world).
Local Abbreviation id := (length (cells w)).
Local Abbreviation f := (length (frames w)).

Lemma started_facts res w2 :
  run_producer fuel p (mk_subscriber fuel id (consumer fuel f h)) (started w) = (res, w2) ->
  length (cells w2) = S id /\
  the_frame w2 f = Frame 0 None /\
  unsubscribeFn (the_cell w2 id) = None /\
  cleanup_count id (calls w2) = cleanup_count id (calls w).
Proof.
  intros Hrun.
  pose proof (same_shape_run_producer (S id) (frames w ++ [Frame 0 None]) fuel p id f h
                (started w)) as H1.
  pose proof (unregistered_at_run_producer id (cleanup_count id (calls w)) fuel p id (consumer fuel f h)
                (unregistered_at_consumer _ _ _ _ _) (started w)) as H2.
  rewrite Hrun in H1, H2. simpl in H1, H2.
  destruct H1 as [H1a H1b].
  { split; [|done]. simpl. rewrite length_app. simpl. lia. }
  destruct H2 as [H2a H2b].
  { split; [|done]. unfold the_cell, started; simpl. by rewrite lookup_fresh. }
  repeat split; try done.
  unfold the_frame. rewrite H1b. by rewrite lookup_fresh.
Qed.

Lemma run_subscribe_create_returned rv w2 :
  run_producer fuel p (mk_subscriber fuel id (consumer fuel f h)) (started w) = (Returned rv, w2) ->
  run_subscribe fuel (Create p) h w
  = (Returned id, snd (init_subscription f id (snd (register_cleanup id rv w2)))).
Proof.
  intros Hrun. unfold run_subscribe.
  eapply bind_runs; [reflexivity|].
  eapply bind_runs; [|reflexivity].
  cbn [subscribe normalize]. eapply bind_runs; [reflexivity|].
  eapply bind_runs; [eapply try_runs, bind_runs|reflexivity].
  - exact Hrun.
  - simpl. by destruct rv as [|g|[g|]|v].
Qed.

Lemma run_subscribe_create_raised e w2 :
  run_producer fuel p (mk_subscriber fuel id (consumer fuel f h)) (started w) = (Raised e, w2) ->
  run_subscribe fuel (Create p) h w
  = (Returned id,
     snd (init_subscription f id
       (if isStopped (the_cell w2 id) then w2
        else match h_error h with
             | Some _ => with_log (snd (set_isStopped id true w2)) (log w2 ++ [OnError e])
             | None => snd (set_isStopped id true w2)
             end))).
Proof.
  intros Hrun. destruct (started_facts _ _ Hrun) as (Hlen & Hfr & Hslot & _).
  unfold run_subscribe.
  eapply bind_runs; [reflexivity|].
  eapply bind_runs; [|reflexivity].
  cbn [subscribe normalize]. eapply bind_runs; [reflexivity|].
  eapply bind_runs; [|reflexivity].
  eapply try_catches; [eapply bind_raises; exact Hrun|].
  cbn [s_error mk_subscriber].
  change (length (cells (with_frames w _))) with id.
  change (length (frames w)) with f.
  destruct (isStopped (the_cell w2 id)) eqn:E.
  - by apply subscriber_error_stopped.
  - rewrite subscriber_error_live by done.
    assert (Hslot' : forall l, unsubscribeFn
              (the_cell (with_log (snd (set_isStopped id true w2)) l) id) = None).
    { intros l. change (the_cell (with_log ?w _) id) with (the_cell w id).
      by rewrite unsubscribeFn_set_isStopped. }
    unfold consumer at 1. cbn [error].
    destruct (h_error h) as [he|]; cbn [option_map].
    + eapply bind_runs; [apply try_react_uninitialised|].
      * change (the_frame (snd (set_isStopped id true w2)) f) with (the_frame w2 f).
        by rewrite Hfr.
      * by apply run_unsubscribeFn_none.
    + eapply bind_runs; [reflexivity|].
      apply run_unsubscribeFn_none. apply (Hslot' (log w2)).
Qed.
End CreateRun.

Lemma send_all_cleanup_count fuel id o n sigs w :
  observer_preserves (stopped_at id n) o ->
  stopped_at id n w ->
  stopped_at id n (send_all (mk_subscriber fuel id o) sigs w).
Proof.
  intros Ho. revert w. induction sigs as [|sig sigs IH]; intros w H; [done|].
  unfold send_all in *. cbn [fold_left]. apply IH. by apply stopped_at_send.
Qed.

(** C8, as amended: when the subscribe-procedure throws [e] synchronously,
    [subscribe] does not throw; it returns the Subscription, which is then
    terminal.  The Observer's [error] callback, if present, receives [e] exactly
    once provided the subscription was still live when the procedure threw;
    if the procedure had already signalled [error] or [complete], the thrown
    error is dropped. *)
Theorem producer_fault_delivered fuel p h w e w2 :
  let id := length (cells w) in
  let f := length (frames w) in
  run_producer fuel p (mk_subscriber fuel id (consumer fuel f h)) (started w) = (Raised e, w2) ->
  let r := run_subscribe fuel (Create p) h w in
  fst r = Returned id /\
  isStopped (the_cell (snd r) id) = true /\
  log (snd r)
  = log w2 ++ (if isStopped (the_cell w2 id) then []
               else match h_error h with Some _ => [OnError e] | None => [] end).
Proof.
  intros id f Hrun r. subst r. rewrite (run_subscribe_create_raised _ _ _ _ _ _ Hrun).
  fold id f. cbn [fst snd]. split; [done|].
  change (the_cell (snd (init_subscription f id ?w)) id) with (the_cell w id).
  change (log (snd (init_subscription f id ?w))) with (log w).
  destruct (isStopped (the_cell w2 id)) eqn:E.
  - split; [done|]. by rewrite app_nil_r.
  - assert (Hs : isStopped (the_cell (snd (set_isStopped id true w2)) id) = true).
    { rewrite isStopped_set_isStopped. by case_decide. }
    destruct (h_error h); (split; [exact Hs|]); simpl; [done|by rewrite app_nil_r].
Qed.

Lemma producer_fault_delivered_witness :
  let r := run_subscribe 1 (Create (PThrow boom)) recorder empty_world in
  fst r = Returned 0%nat /\
  isStopped (the_cell (snd r) 0) = true /\
  log (snd r) = [OnError boom].
Proof.
  apply (producer_fault_delivered 1 (PThrow boom) recorder empty_world boom
           (started empty_world)).
  reflexivity.
Defined.

(** C8, as stated, fails: this procedure signals [complete] and then throws
    [boom]; the Observer has an [error] callback, and it is never invoked. *)
Lemma producer_fault_after_complete_dropped :
  let p := PCall SigComplete (fun _ => PThrow boom) in
  let r := run_subscribe 1 (Create p) recorder empty_world in
  fst (run_producer 1 p (mk_subscriber 1 0 (consumer 1 0 recorder)) (started empty_world))
  = Raised boom /\
  fst r = Returned 0%nat /\
  log (snd r) = [OnComplete] /\
  ~ In (OnError boom) (log (snd r)).
Proof.
  repeat split. simpl. intros [H|[]]. discriminate H.
Qed.

(** C10: when the subscribe-procedure makes the subscription terminal before
    it returns and then returns a cleanup function [g], the slot was empty all
    the while the procedure ran, so no cleanup was invoked by the terminal
    transition; [g] is stored afterwards and is never invoked: not by
    [subscribe], which adds nothing to the log the procedure left, not by any
    later [unsubscribe], which returns without doing anything, and not by any
    later call of the producer: whatever calls the producer makes and however
    often [unsubscribe] is called after them, the log stays as the procedure
    left it. *)
Theorem late_cleanup_never_invoked fuel p h w g w2 :
  let id := length (cells w) in
  let f := length (frames w) in
  let s := mk_subscriber fuel id (consumer fuel f h) in
  run_producer fuel p s (started w) = (Returned (RFunction g), w2) ->
  isStopped (the_cell w2 id) = true ->
  let r := run_subscribe fuel (Create p) h w in
  fst r = Returned id /\
  unsubscribeFn (the_cell w2 id) = None /\
  unsubscribeFn (the_cell (snd r) id) = Some g /\
  cleanup_count id (calls (snd r)) = cleanup_count id (calls w) /\
  (forall k, again k (unsubscribe fuel id) (snd r) = (Returned tt, snd r)) /\
  (forall later,
     cleanup_count id (calls (send_all s later (snd r))) = cleanup_count id (calls w)) /\
  log (snd r) = log w2 /\
  (forall later k,
     let r' := again k (unsubscribe fuel id) (send_all s later (snd r)) in
     fst r' = Returned tt /\
     log (snd r') = log w2 /\
     the_cell (snd r') id = Cell true (Some g)).
Proof.
  intros id f s Hrun E r. subst r s.
  destruct (started_facts _ _ _ _ _ _ Hrun) as (Hlen & Hfr & Hslot & Hcount).
  rewrite (run_subscribe_create_returned _ _ _ _ _ _ Hrun). fold id f. cbn [fst snd].
  set (w3 := snd (init_subscription f id _)).
  assert (Hcell : the_cell w3 id = Cell true (Some g)).
  { subst w3. unfold the_cell in *. simpl. rewrite list_lookup_alter_eq.
    destruct (cells w2 !! id) as [c|] eqn:Ec; simpl in *.
    - by rewrite E.
    - apply lookup_ge_None in Ec. fold id in Hlen. lia. }
  assert (Hst : stopped_at id (cleanup_count id (calls w)) w3).
  { split; [by rewrite Hcell|]. exact Hcount. }
  assert (Hlog : log w3 = log w2) by done.
  assert (Hkeep : forall later,
            cells (send_all (mk_subscriber fuel id (consumer fuel f h)) later w3) = cells w3).
  { intros later. revert Hcell. generalize w3. clear.
    induction later as [|sig later IH]; intros w3 Hcell; [done|].
    unfold send_all in *. cbn [fold_left].
    assert (Hs : isStopped (the_cell w3 id) = true) by (by rewrite Hcell).
    assert (E : cells (snd (send (mk_subscriber fuel id (consumer fuel f h)) sig w3))
                = cells w3).
    { destruct sig; cbn [send mk_subscriber s_next s_error s_complete].
      - by rewrite subscriber_next_stopped.
      - by rewrite subscriber_error_stopped.
      - by rewrite subscriber_complete_stopped. }
    rewrite IH; [done|]. unfold the_cell in *. by rewrite E. }
  split; [done|]. split; [done|]. split; [by rewrite Hcell|]. split; [done|].
  split; [intros k; apply again_unsubscribe_stopped; by rewrite Hcell|].
  split; [intros later; by apply send_all_cleanup_count; [apply stopped_at_consumer|]|].
  split; [done|].
  intros later k. cbn zeta.
  assert (Hc : the_cell (send_all (mk_subscriber fuel id (consumer fuel f h)) later w3) id
               = Cell true (Some g)).
  { unfold the_cell in *. by rewrite Hkeep. }
  rewrite again_unsubscribe_stopped by (by rewrite Hc). cbn [fst snd].
  split; [done|]. split; [|done].
  rewrite send_all_stopped by (by rewrite Hcell). done.
Qed.

Lemma late_cleanup_never_invoked_witness :
  let p := PCall SigComplete (fun _ => PReturn (RFunction (UserFn "probe" (Normal tt)))) in
  let r := run_subscribe 1 (Create p) recorder empty_world in
  let s := mk_subscriber 1 0 (consumer 1 0 recorder) in
  fst r = Returned 0%nat /\
  unsubscribeFn (the_cell (snd r) 0) = Some (UserFn "probe" (Normal tt)) /\
  log (snd r) = [OnComplete] /\
  log (snd (again 3 (unsubscribe 1 0) (send_all s [SigNext (VNum 1); SigComplete] (snd r))))
  = [OnComplete].
Proof.
  pose proof (late_cleanup_never_invoked 1
    (PCall SigComplete (fun _ => PReturn (RFunction (UserFn "probe" (Normal tt)))))
    recorder empty_world (UserFn "probe" (Normal tt))
    (World [Cell true None] [Frame 0 None] [OnComplete] []) eq_refl eq_refl)
    as (H1 & _ & H3 & _ & _ & _ & H7 & H8).
  split; [exact H1 | split; [exact H3 | split; [exact H7|]]].
  exact (proj1 (proj2 (H8 [SigNext (VNum 1); SigComplete] 3%nat))).
Defined.

(** * [take] over a procedure written by the user *)

Lemma lookup2_0 {A} (l : list A) x y : (l ++ [x; y]) !! length l = Some x.
Proof. by apply list_lookup_middle. Qed.

Lemma lookup2_1 {A} (l : list A) x y : (l ++ [x; y]) !! S (length l) = Some y.
Proof.
  change (l ++ [x; y]) with (l ++ [x] ++ [y]). rewrite app_assoc.
  replace (S (length l)) with (length (l ++ [x])) by (rewrite length_app; simpl; lia).
  apply lookup_fresh.
Qed.

Lemma alter2_0 {A} (g : A -> A) (l : list A) x y :
  alter g (length l) (l ++ [x; y]) = l ++ [g x; y].
Proof. replace (length l) with (length l + 0)%nat by lia. by rewrite alter_app_r. Qed.

Lemma alter2_1 {A} (g : A -> A) (l : list A) x y :
  alter g (S (length l)) (l ++ [x; y]) = l ++ [x; g y].
Proof. replace (S (length l)) with (length l + 1)%nat by lia. by rewrite alter_app_r. Qed.

Section TakeRefinement.
Context (fuel : nat) (count : Z) (cs : list cell) (fs : list frame) (l : list event).
Context (hn he : value -> reaction) (hc : reaction).
Hypothesis hn_returns : forall v, hn v = Returns.

Local Abbreviation d := (length cs).
Local Abbreviation u := (S (length cs)).
Local Abbreviation f0 := (length fs).
Local Abbreviation f1 := (S (length fs)).
Local Abbreviation h := (Handlers (Some hn) (Some he) (Some hc)).
Local Abbreviation downstream := (mk_subscriber fuel d (consumer fuel f0 h)).
Local Abbreviation upstream := (mk_subscriber fuel u (take_observer fuel count f1 downstream)).
Local Abbreviation tw := (take_world cs fs l).

Lemma tw_cell_d st : the_cell (tw st) d = Cell (t_down st) None.
Proof. unfold the_cell, take_world; simpl. by rewrite lookup2_0. Qed.

Lemma tw_cell_u st : the_cell (tw st) u = Cell (t_up st) None.
Proof. unfold the_cell, take_world; simpl. by rewrite lookup2_1. Qed.

Lemma tw_frame_0 st : the_frame (tw st) f0 = Frame 0 None.
Proof. unfold the_frame, take_world; simpl. by rewrite lookup2_0. Qed.

Lemma tw_frame_1 st : the_frame (tw st) f1 = Frame (t_taken st) None.
Proof. unfold the_frame, take_world; simpl. by rewrite lookup2_1. Qed.

Lemma tw_stop_d sd su t evs cl :
  snd (set_isStopped d true (tw (TakeState sd su t evs cl))) = tw (TakeState true su t evs cl).
Proof. unfold set_isStopped, take_world, with_cells; simpl. by rewrite alter2_0. Qed.

Lemma tw_stop_u sd su t evs cl :
  snd (set_isStopped u true (tw (TakeState sd su t evs cl))) = tw (TakeState sd true t evs cl).
Proof. unfold set_isStopped, take_world, with_cells; simpl. by rewrite alter2_1. Qed.

Lemma tw_emit sd su t evs cl ev :
  with_log (tw (TakeState sd su t evs cl)) (log (tw (TakeState sd su t evs cl)) ++ [ev])
  = tw (TakeState sd su t (evs ++ [ev]) cl).
Proof. unfold take_world, with_log; simpl. by rewrite app_assoc. Qed.

Lemma tw_note sd su t evs cl c :
  with_calls (tw (TakeState sd su t evs cl)) (calls (tw (TakeState sd su t evs cl)) ++ [c])
  = tw (TakeState sd su t evs (cl ++ [c])).
Proof. done. Qed.

Lemma tw_set_taken sd su t evs cl n :
  set_taken f1 n (tw (TakeState sd su t evs cl)) = (Returned tt, tw (TakeState sd su n evs cl)).
Proof. unfold set_taken, take_world, with_frames; simpl. by rewrite alter2_1. Qed.

Lemma tw_get_taken st : get_taken f1 (tw st) = (Returned (t_taken st), tw st).
Proof. unfold get_taken. by rewrite tw_frame_1. Qed.

Lemma tw_get_subscription st :
  get_subscription f1 (tw st)
  = (Raised (ReferenceError "Cannot access 'subscription' before initialization"), tw st).
Proof. unfold get_subscription. by rewrite tw_frame_1. Qed.

(** The downstream Subscriber, the one [subscribe] built for the consumer. *)
Lemma tw_down_next sd su t evs cl v :
  s_next downstream v (tw (TakeState sd su t evs cl))
  = (Returned tt, tw (TakeState sd su t (deliver sd evs (OnNext v)) (cl ++ [CallNext d v]))).
Proof.
  cbn [s_next mk_subscriber]. destruct sd.
  - rewrite subscriber_next_stopped by (by rewrite tw_cell_d). by rewrite tw_note.
  - rewrite subscriber_next_live by (by rewrite tw_cell_d). rewrite tw_note.
    cbn [next consumer h_next option_map deliver].
    eapply try_runs, bind_runs; [reflexivity|]. rewrite tw_emit.
    by rewrite hn_returns.
Qed.

Lemma tw_down_complete sd su t evs cl :
  s_complete downstream (tw (TakeState sd su t evs cl))
  = (Returned tt, tw (TakeState true su t (deliver sd evs OnComplete) cl)).
Proof.
  cbn [s_complete mk_subscriber]. destruct sd.
  - by rewrite subscriber_complete_stopped by (by rewrite tw_cell_d).
  - rewrite subscriber_complete_live by (by rewrite tw_cell_d). rewrite tw_stop_d.
    cbn [complete consumer h_complete option_map deliver].
    eapply bind_runs.
    + apply try_react_uninitialised. by rewrite tw_frame_0.
    + rewrite tw_emit. apply run_unsubscribeFn_none. by rewrite tw_cell_d.
Qed.

Lemma tw_down_error sd su t evs cl e :
  s_error downstream e (tw (TakeState sd su t evs cl))
  = (Returned tt, tw (TakeState true su t (deliver sd evs (OnError e)) cl)).
Proof.
  cbn [s_error mk_subscriber]. destruct sd.
  - by rewrite subscriber_error_stopped by (by rewrite tw_cell_d).
  - rewrite subscriber_error_live by (by rewrite tw_cell_d). rewrite tw_stop_d.
    cbn [error consumer h_error option_map deliver].
    eapply bind_runs.
    + apply try_react_uninitialised. by rewrite tw_frame_0.
    + rewrite tw_emit. apply run_unsubscribeFn_none. by rewrite tw_cell_d.
Qed.

(** The [next] of [take]'s Observer, lines 206-216. *)
Lemma tw_take_next sd su t evs cl v :
  take_next fuel count f1 downstream v (tw (TakeState sd su t evs cl))
  = if Z.ltb t count then
      if Z.geb (t + 1) count then
        (Raised (ReferenceError "Cannot access 'subscription' before initialization"),
         tw (TakeState true su (t + 1)
               (deliver sd (deliver sd evs (OnNext v)) OnComplete) (cl ++ [CallNext d v])))
      else
        (Returned tt,
         tw (TakeState sd su (t + 1) (deliver sd evs (OnNext v)) (cl ++ [CallNext d v])))
    else (Returned tt, tw (TakeState sd su t evs cl)).
Proof.
  unfold take_next.
  destruct (Z.ltb t count) eqn:E1; [destruct (Z.geb (t + 1) count) eqn:E2|].
  - eapply bind_runs; [apply tw_get_taken|]. cbn [t_taken]. rewrite E1.
    eapply bind_runs; [apply tw_down_next|].
    eapply bind_runs; [apply tw_set_taken|].
    eapply bind_runs; [apply tw_get_taken|]. cbn [t_taken]. rewrite E2.
    eapply bind_runs; [apply tw_down_complete|].
    apply bind_raises, tw_get_subscription.
  - eapply bind_runs; [apply tw_get_taken|]. cbn [t_taken]. rewrite E1.
    eapply bind_runs; [apply tw_down_next|].
    eapply bind_runs; [apply tw_set_taken|].
    eapply bind_runs; [apply tw_get_taken|]. cbn [t_taken]. by rewrite E2.
  - eapply bind_runs; [apply tw_get_taken|]. cbn [t_taken]. by rewrite E1.
Qed.

Lemma take_step_refines sig st :
  send upstream sig (tw st)
  = (fst (take_step count d u sig st), tw (snd (take_step count d u sig st))).
Proof.
  destruct st as [sd su t evs cl]. destruct sig as [v|e|]; cbn [send take_step].
  - cbn [s_next mk_subscriber]. destruct su.
    + rewrite subscriber_next_stopped by (by rewrite tw_cell_u). by rewrite tw_note.
    + rewrite subscriber_next_live by (by rewrite tw_cell_u). rewrite tw_note.
      cbn [next take_observer].
      unfold try_catch. rewrite tw_take_next.
      destruct (Z.ltb t count); [|done].
      by destruct (Z.geb (t + 1) count).
  - cbn [s_error mk_subscriber]. destruct su.
    + by rewrite subscriber_error_stopped by (by rewrite tw_cell_u).
    + rewrite subscriber_error_live by (by rewrite tw_cell_u). rewrite tw_stop_u.
      cbn [error take_observer].
      eapply bind_runs; [eapply try_runs, tw_down_error|].
      apply run_unsubscribeFn_none. by rewrite tw_cell_u.
  - cbn [s_complete mk_subscriber]. destruct su.
    + by rewrite subscriber_complete_stopped by (by rewrite tw_cell_u).
    + rewrite subscriber_complete_live by (by rewrite tw_cell_u). rewrite tw_stop_u.
      cbn [complete take_observer].
      eapply bind_runs; [eapply try_runs, tw_down_complete|].
      apply run_unsubscribeFn_none. by rewrite tw_cell_u.
Qed.
End TakeRefinement.

Lemma bind_alloc_frame {B} (k : nat -> M B) w :
  (f <- alloc_frame ;; k f) w
  = k (length (frames w)) (with_frames w (frames w ++ [Frame 0 None])).
Proof. done. Qed.

Lemma bind_alloc_cell {B} (k : nat -> M B) w :
  (id <- alloc_cell ;; k id) w
  = k (length (cells w)) (with_cells w (cells w ++ [Cell false None])).
Proof. done. Qed.

Lemma bind_out_of_fuel {A B} (m : M A) (k : A -> M B) w w1 :
  m w = (OutOfFuel, w1) -> bind m k w = (OutOfFuel, w1).
Proof. intros H1. unfold bind. by rewrite H1. Qed.

Lemma try_out_of_fuel {A} (m : M A) (h : value -> M A) w w1 :
  m w = (OutOfFuel, w1) -> try_catch m h w = (OutOfFuel, w1).
Proof. intros H1. unfold try_catch. by rewrite H1. Qed.

Lemma subscribe_take fuel count source arg :
  subscribe fuel (Take count source) arg
  = (id <- alloc_cell ;;
     try_catch
       (cleanup <-
          (if Z.leb count 0 then
             s_complete (mk_subscriber fuel id (normalize arg)) ;;
             ret RUndefined
           else
             f <- alloc_frame ;;
             subscription <-
               subscribe fuel source
                 (AsObject (take_observer fuel count f (mk_subscriber fuel id (normalize arg)))) ;;
             init_subscription f subscription ;;
             ret (RFunction (UnsubscribeOf subscription))) ;;
        register_cleanup id cleanup)
       (fun error => s_error (mk_subscriber fuel id (normalize arg)) error) ;;
     ret id).
Proof. done. Qed.

Section TakeRun.
Context (fuel : nat) (count : Z) (cs : list cell) (fs : list frame) (l : list event).
Context (hn he : value -> reaction) (hc : reaction).
Hypothesis hn_returns : forall v, hn v = Returns.

Local Abbreviation d := (length cs).
Local Abbreviation u := (S (length cs)).
Local Abbreviation f0 := (length fs).
Local Abbreviation f1 := (S (length fs)).
Local Abbreviation h := (Handlers (Some hn) (Some he) (Some hc)).
Local Abbreviation downstream := (mk_subscriber fuel d (consumer fuel f0 h)).
Local Abbreviation upstream := (mk_subscriber fuel u (take_observer fuel count f1 downstream)).
Local Abbreviation tw := (take_world cs fs l).

Lemma take_forever_refines n gen i st :
  forever n upstream gen i (tw st)
  = (fst (take_forever n count d u gen i st), tw (snd (take_forever n count d u gen i st))).
Proof.
  revert i st. induction n as [|n IH]; intros i st; [done|].
  cbn [forever take_forever]. unfold bind.
  pose proof (take_step_refines fuel count cs fs l hn he hc hn_returns (SigNext (gen i)) st) as H.
  cbn [send] in H. rewrite H.
  destruct (take_step count d u (SigNext (gen i)) st) as [[[]|x|] st']; cbn [fst snd]; auto.
Qed.

Lemma take_run_refines p st :
  run_producer fuel p upstream (tw st)
  = (fst (take_run fuel count d u p st), tw (snd (take_run fuel count d u p st))).
Proof.
  revert st. induction p as [r|e|sig k IH|gen r]; intros st; cbn [run_producer take_run].
  - done.
  - done.
  - rewrite (take_step_refines fuel count cs fs l hn he hc hn_returns).
    destruct (take_step count d u sig st) as [[[]|x|] st']; cbn [fst snd]; auto.
  - apply take_forever_refines.
Qed.

Lemma tw_register cleanup sd su t evs cl :
  snd (register_cleanup u cleanup (tw (TakeState sd su t evs cl)))
  = World (cs ++ [Cell sd None; Cell su (registered cleanup)])
          (fs ++ [Frame 0 None; Frame t None]) (l ++ evs) cl.
Proof.
  destruct cleanup as [|g|[g|]|v]; try done;
    unfold register_cleanup, set_unsubscribeFn, take_world, with_cells; simpl;
    by rewrite alter2_1.
Qed.

Lemma take_finish w2 cleanup sd su t evs cl :
  w2 = World (cs ++ [Cell sd None; Cell su (registered cleanup)])
             (fs ++ [Frame 0 None; Frame t None]) (l ++ evs) cl ->
  (init_subscription f0 d ;; ret d)
    (with_cells
       (with_frames w2
          (alter (fun fr => Frame (taken fr) (Some u)) f1 (frames w2)))
       (alter (fun c0 => Cell (isStopped c0) (Some (UnsubscribeOf u))) d
          (cells (with_frames w2
             (alter (fun fr => Frame (taken fr) (Some u)) f1 (frames w2))))))
  = (Returned d, take_done cs fs l cleanup (TakeState sd su t evs cl)).
Proof.
  intros ->. unfold bind, init_subscription, ret, with_frames, with_cells, take_done.
  simpl. by rewrite !alter2_0, !alter2_1; simpl; rewrite ?alter2_0.
Qed.

Lemma run_subscribe_take p c :
  0 < count ->
  run_subscribe fuel (Take count (Create p)) h (World cs fs l c)
  = take_subscribe fuel count cs fs l c p.
Proof.
  intros Hcount. unfold run_subscribe, take_subscribe.
  pose proof (take_run_refines p (TakeState false false 0 [] c)) as Hrun.
  assert (Hw : World ((cs ++ [Cell false None]) ++ [Cell false None])
                 ((fs ++ [Frame 0 None]) ++ [Frame 0 None]) l c
               = tw (TakeState false false 0 [] c)).
  { unfold take_world. simpl. by rewrite <- !app_assoc, app_nil_r. }
  assert (Hu : length (cs ++ [Cell false None]) = u) by (rewrite length_app; simpl; lia).
  assert (Hf : length (fs ++ [Frame 0 None]) = f1) by (rewrite length_app; simpl; lia).
  destruct (take_run fuel count d u p (TakeState false false 0 [] c)) as [res st].
  cbn [fst snd] in Hrun.
  assert (Hup : subscribe fuel (Create p) (AsObject (take_observer fuel count f1 downstream))
                  (World (cs ++ [Cell false None]) ((fs ++ [Frame 0 None]) ++ [Frame 0 None]) l c)
                = match res with
                  | Returned cleanup =>
                      (Returned u, snd (register_cleanup u cleanup (tw st)))
                  | Raised x =>
                      (Returned u, tw (snd (take_step count d u (SigError x) st)))
                  | OutOfFuel => (OutOfFuel, tw st)
                  end).
  { cbn [subscribe normalize]. rewrite bind_alloc_cell.
    unfold with_cells. cbn [frames cells log calls]. rewrite Hu, Hw.
    destruct res as [cleanup|x|].
    - eapply bind_runs; [eapply try_runs, bind_runs; [exact Hrun|]|reflexivity].
      by destruct cleanup as [|g|[g|]|v].
    - eapply bind_runs; [eapply try_catches; [eapply bind_raises, Hrun|]|reflexivity].
      pose proof (take_step_refines fuel count cs fs l hn he hc hn_returns (SigError x) st) as H.
      cbn [send] in H. rewrite H. f_equal.
      by destruct st as [sd [] t evs cl].
    - unfold bind, try_catch. by rewrite Hrun. }
  rewrite bind_alloc_frame, subscribe_take.
  replace (Z.leb count 0) with false by (symmetry; apply Z.leb_gt; lia).
  unfold with_frames. cbn [frames cells log calls normalize].
  destruct res as [cleanup|x|].
  - destruct st as [sd su t evs cl]. eapply bind_runs.
    + rewrite bind_alloc_cell. unfold with_cells. cbn [frames cells log calls].
      eapply bind_runs; [eapply try_runs, bind_runs | reflexivity].
      * rewrite bind_alloc_frame. unfold with_frames. cbn [frames cells log calls].
        rewrite Hf. eapply bind_runs; [exact Hup|].
        eapply bind_runs; reflexivity.
      * reflexivity.
    + apply take_finish, tw_register.
  - destruct (take_step count d u (SigError x) st) as [r2 [sd su t evs cl]] eqn:E2.
    cbn [snd] in *. eapply bind_runs.
    + rewrite bind_alloc_cell. unfold with_cells. cbn [frames cells log calls].
      eapply bind_runs; [eapply try_runs, bind_runs | reflexivity].
      * rewrite bind_alloc_frame. unfold with_frames. cbn [frames cells log calls].
        rewrite Hf. eapply bind_runs; [exact Hup|].
        eapply bind_runs; reflexivity.
      * reflexivity.
    + by apply take_finish.
  - apply bind_out_of_fuel.
    rewrite bind_alloc_cell. unfold with_cells. cbn [frames cells log calls].
    apply bind_out_of_fuel, try_out_of_fuel, bind_out_of_fuel.
    rewrite bind_alloc_frame. unfold with_frames. cbn [frames cells log calls].
    rewrite Hf. by apply bind_out_of_fuel.
Qed.
End TakeRun.

Section TakeMachine.
Context (count : Z) (d u : nat).











End TakeMachine.




Section Extends.
Context (w0 : world).


Lemma extends_calls w cl : extends w0 w -> extends w0 (with_calls w cl).
Proof. done. Qed.






End Extends.

Section TakeSees.
Context (fuel : nat) (count : Z) (d u f0 f1 : nat) (l : list event).
Context (hn he : value -> reaction) (hc : reaction).
Hypothesis hn_returns : forall v, hn v = Returns.
Hypothesis d_not_u : d <> u.

Local Abbreviation h := (Handlers (Some hn) (Some he) (Some hc)).
Local Abbreviation downstream := (mk_subscriber fuel d (consumer fuel f0 h)).
Local Abbreviation upstream := (mk_subscriber fuel u (take_observer fuel count f1 downstream)).



















End TakeSees.


Section TakeSession.
Context (fuel : nat) (count : Z) (hn he : value -> reaction) (hc : reaction).
Hypothesis hn_returns : forall v, hn v = Returns.
Local Abbreviation h := (Handlers (Some hn) (Some he) (Some hc)).


End TakeSession.




(** C6, as amended: under [take(2)] a producer that emits without end delivers
    exactly two values to the consumer, then [complete], and [subscribe]
    returns; no cleanup is ever registered for the upstream subscription, since
    the procedure never returns one, and no cleanup is invoked. *)
Theorem take_two_of_endless n gen cleanup hn he hc w :
  (forall v, hn v = Returns) ->
  let r := run_subscribe (S (S n)) (Take 2 (Create (PForever gen cleanup)))
             (Handlers (Some hn) (Some he) (Some hc)) w in
  let d := length (cells w) in
  let u := S d in
  fst r = Returned d /\
  log (snd r) = log w ++ [OnNext (gen 0%nat); OnNext (gen 1%nat); OnComplete] /\
  unsubscribeFn (the_cell (snd r) u) = None /\
  calls (snd r)
  = calls w ++ [CallNext u (gen 0%nat); CallNext d (gen 0%nat);
                CallNext u (gen 1%nat); CallNext d (gen 1%nat)].
Proof.
  intros Hn. destruct w as [cs fs l c]. cbn zeta. cbn [cells log calls].
  rewrite run_subscribe_take by done.
  unfold take_subscribe, take_done, the_cell. simpl.
  rewrite lookup2_1. simpl. by rewrite <- !app_assoc.
Qed.

Lemma take_two_of_endless_witness :
  let r := run_subscribe 2 (Take 2 (Create (PForever (fun i => VNum (Z.of_nat i))
             (RFunction (UserFn "upstream" (Normal tt)))))) recorder empty_world in
  fst r = Returned 0%nat /\
  log (snd r) = [OnNext (VNum 0); OnNext (VNum 1); OnComplete] /\
  unsubscribeFn (the_cell (snd r) 1) = None /\
  calls (snd r)
  = [CallNext 1 (VNum 0); CallNext 0 (VNum 0); CallNext 1 (VNum 1); CallNext 0 (VNum 1)].
Proof.
  apply (take_two_of_endless 0 (fun i => VNum (Z.of_nat i))
           (RFunction (UserFn "upstream" (Normal tt)))
           (fun _ => Returns) (fun _ => Returns) Returns empty_world).
  reflexivity.
Defined.

(** C6, as stated, fails: the endless producer below would return the cleanup
    "upstream"; after [subscribe] on [take(2)] that cleanup has not run, no
    cleanup at all has been invoked, and none is registered upstream. *)
Lemma endless_cleanup_never_fires :
  let p := PForever (fun i => VNum (Z.of_nat i)) (RFunction (UserFn "upstream" (Normal tt))) in
  let r := run_subscribe 5 (Take 2 (Create p)) recorder empty_world in
  log (snd r) = [OnNext (VNum 0); OnNext (VNum 1); OnComplete] /\
  ~ In (Teardown "upstream") (log (snd r)) /\
  cleanup_count 1 (calls (snd r)) = 0%nat /\
  unsubscribeFn (the_cell (snd r) 1) = None.
Proof.
  cbn zeta. split; [reflexivity | split; [|split; reflexivity]].
  simpl. intros [H|[H|[H|[]]]]; discriminate H.
Qed.

(** * [map] with a throwing transform over [of(v)] *)

Ltac lookups :=
  unfold the_cell, the_frame, set_isStopped, set_unsubscribeFn, with_cells, with_log,
    with_calls; simpl;
  rewrite ?alter2_0, ?alter2_1, ?lookup2_0, ?lookup2_1, ?lookup_fresh; simpl;
  rewrite ?alter2_0, ?alter2_1, ?lookup2_0, ?lookup2_1, ?lookup_fresh; simpl;
  try done.

Lemma run_subscribe_map_throw fuel fn v e hn he hc cs fs l c :
  fn v = Throw e ->
  run_subscribe fuel (Map fn (Of [v])) (Handlers hn (Some he) hc) (World cs fs l c)
  = (Returned (length cs),
     World (cs ++ [Cell true (Some (UnsubscribeOf (S (length cs)))); Cell true (Some EmptyFn)])
           (fs ++ [Frame 0 (Some (length cs))])
           (l ++ [OnError e])
           (c ++ [CallNext (S (length cs)) v])).
Proof.
  intros Hfn. unfold run_subscribe, Of.
  assert (Hu : length (cs ++ [Cell false None]) = S (length cs))
    by (rewrite length_app; simpl; lia).
  rewrite bind_alloc_frame. unfold with_frames. cbn [frames cells log calls].
  cbn [subscribe normalize].
  eapply bind_runs.
  - rewrite bind_alloc_cell. unfold with_cells. cbn [frames cells log calls].
    eapply bind_runs; [eapply try_runs, bind_runs | reflexivity].
    + eapply bind_runs; [|reflexivity].
      rewrite bind_alloc_cell. unfold with_cells. cbn [frames cells log calls].
      rewrite Hu, <- app_assoc. cbn [app].
      eapply bind_runs; [eapply try_runs, bind_runs | reflexivity].
      * unfold from_subscribeFn.
        eapply bind_runs; [|eapply bind_runs; [|reflexivity]].
        -- cbn [from_loop]. rewrite subscriber_isStopped_undefined. cbn [truthy].
           eapply bind_runs; [|reflexivity]. cbn [s_next mk_subscriber].
           rewrite subscriber_next_live by lookups. cbn [next map_observer].
           eapply try_runs. unfold map_next. rewrite Hfn.
           eapply try_catches; [reflexivity|]. cbn [s_error mk_subscriber].
           rewrite subscriber_error_live by lookups.
           cbn [error consumer h_error option_map].
           eapply bind_runs; [apply try_react_uninitialised; lookups|].
           apply run_unsubscribeFn_none. lookups.
        -- cbn [s_complete mk_subscriber].
           rewrite subscriber_complete_live by lookups. cbn [complete map_observer].
           eapply bind_runs; [eapply try_runs|].
           ++ cbn [s_complete mk_subscriber]. apply subscriber_complete_stopped. lookups.
           ++ apply run_unsubscribeFn_none. lookups.
      * reflexivity.
    + reflexivity.
  - unfold bind, init_subscription, ret, register_cleanup. lookups.
    by rewrite alter_fresh.
Qed.

(** C7, as amended: [map(fn)] over [of(v)], where [fn] throws [e] on [v],
    delivers [error(e)] once and neither [next] nor [complete].  The upstream
    subscription ends terminal through the [complete] of [of(v)] itself; the
    cleanup of [of(v)] and the cleanup of [map] are both registered only after
    their subscriptions are terminal, and no cleanup is invoked. *)
Theorem map_throwing_transform fuel fn v e hn he hc w :
  fn v = Throw e ->
  let r := run_subscribe fuel (Map fn (Of [v])) (Handlers hn (Some he) hc) w in
  let d := length (cells w) in
  let u := S d in
  fst r = Returned d /\
  log (snd r) = log w ++ [OnError e] /\
  the_cell (snd r) d = Cell true (Some (UnsubscribeOf u)) /\
  the_cell (snd r) u = Cell true (Some EmptyFn) /\
  calls (snd r) = calls w ++ [CallNext u v].
Proof.
  intros Hfn. destruct w as [cs fs l c]. cbn zeta. cbn [cells log calls].
  rewrite (run_subscribe_map_throw _ _ _ e) by done. cbn [fst snd log calls].
  split; [done | split; [done | split; [|split; [|done]]]]; lookups.
Qed.

Lemma map_throwing_transform_witness :
  let r := run_subscribe 1 (Map (fun _ => Throw boom) (Of [VNum 1])) recorder empty_world in
  fst r = Returned 0%nat /\
  log (snd r) = [OnError boom] /\
  the_cell (snd r) 0 = Cell true (Some (UnsubscribeOf 1)) /\
  the_cell (snd r) 1 = Cell true (Some EmptyFn) /\
  calls (snd r) = [CallNext 1 (VNum 1)].
Proof.
  apply (map_throwing_transform 1 (fun _ => Throw boom) (VNum 1) boom
           (Some (fun _ => Returns)) (fun _ => Returns) (Some Returns) empty_world).
  reflexivity.
Defined.

(** C7, as stated, fails in its last part: after [subscribe] returns, the
    cleanup of the upstream subscription is still sitting in its slot, never
    called, and no cleanup of either subscription has been invoked. *)
Lemma map_throw_no_cleanup_fires :
  let r := run_subscribe 5 (Map (fun _ => Throw boom) (Of [VNum 1])) recorder empty_world in
  log (snd r) = [OnError boom] /\
  cleanup_count 1 (calls (snd r)) = 0%nat /\
  cleanup_count 0 (calls (snd r)) = 0%nat /\
  unsubscribeFn (the_cell (snd r) 1) = Some EmptyFn.
Proof. cbn zeta. split; [reflexivity | split; [reflexivity | split; reflexivity]]. Qed.

(** * Pipelines over an array *)

Lemma agree_above_refl nc nf w : agree_above nc nf w w.
Proof. by repeat split. Qed.

Lemma agree_above_trans nc nf w1 w2 w3 :
  agree_above nc nf w1 w2 -> agree_above nc nf w2 w3 -> agree_above nc nf w1 w3.
Proof.
  intros (A1 & A2 & A3 & A4) (B1 & B2 & B3 & B4). repeat split; try congruence.
  - intros j Hj. by rewrite B3, A3.
  - intros g Hg. by rewrite B4, A4.
Qed.

Lemma agree_above_mono nc nf nc' nf' w w' :
  agree_above nc nf w w' -> (nc <= nc')%nat -> (nf <= nf')%nat -> agree_above nc' nf' w w'.
Proof.
  intros (A1 & A2 & A3 & A4) H1 H2. repeat split; try done.
  - intros j Hj. apply A3. lia.
  - intros g Hg. apply A4. lia.
Qed.

Lemma agree_below_mono nc nf nc' nf' w w' :
  agree_below nc nf w w' -> (nc' <= nc)%nat -> (nf' <= nf)%nat -> agree_below nc' nf' w w'.
Proof.
  intros (A1 & A2) H1 H2. split.
  - intros j Hj. apply A1. lia.
  - intros g Hg. apply A2. lia.
Qed.

Lemma sub_bound_le nd nf :
  match node_frame nd with Some f => (f < nf)%nat | None => True end ->
  (sub_bound nd nf <= nf)%nat.
Proof. unfold sub_bound. destruct (node_frame nd); lia. Qed.

(** [rep] reads the cells below [nc] and the frames below [nf] only. *)
Lemma rep_agree f0 k : forall nc nf st w w',
  rep f0 nc nf k st w -> agree_below nc nf w w' -> rep f0 nc nf k st w'.
Proof.
  induction k as [|nd k IH]; intros nc nf [|n st] w w' H [A1 A2]; try done.
  - destruct H as [H1 H2]. split; [done|]. by rewrite A2.
  - destruct H as (H1 & H2 & H3 & H4). cbn [rep].
    split; [done|]. split; [by rewrite A1|].
    assert (Hb := sub_bound_le nd nf).
    split.
    + destruct (node_frame nd) as [f|]; [|done]. destruct H3 as [H3 H3'].
      split; [done|]. by rewrite A2.
    + apply (IH _ _ _ w); [done|]. apply (agree_below_mono nc nf); [done|lia|].
      apply Hb. destruct (node_frame nd); [by destruct H3|done].
Qed.

Lemma rep_mono f0 k nc nf nc' nf' st w :
  rep f0 nc nf k st w -> (nc <= nc')%nat -> (nf <= nf')%nat -> rep f0 nc' nf' k st w.
Proof.
  revert nc nf nc' nf' st. induction k as [|nd k IH]; intros nc nf nc' nf' [|n st] H L1 L2; try done.
  - destruct H. split; [lia|done].
  - destruct H as (H1 & H2 & H3 & H4). cbn [rep].
    split; [lia|]. split; [done|]. unfold sub_bound in *.
    destruct (node_frame nd) as [f|].
    + split; [|done]. destruct H3. split; [lia|done].
    + split; [done|]. apply (IH (node_cell nd) nf); [done|lia|done].
Qed.

(** The bounds are facts about the nodes, not about the store. *)
Lemma rep_rebound f0 k : forall nc nf nc' nf' st st' w w',
  rep f0 nc nf k st w -> rep f0 nc' nf' k st' w' -> rep f0 nc nf k st' w'.
Proof.
  induction k as [|nd k IH]; intros nc nf nc' nf' [|n st] [|n' st'] w w' H H'; try done.
  - destruct H, H'. by split.
  - destruct H as (H1 & H2 & H3 & H4), H' as (H1' & H2' & H3' & H4'). cbn [rep].
    split; [done|]. split; [done|]. unfold sub_bound in *.
    destruct (node_frame nd) as [f|].
    + split; [|done]. destruct H3, H3'. by split.
    + split; [done|]. by apply (IH (node_cell nd) nf (node_cell nd) nf' st st' w w').
Qed.

Lemma rep_length f0 k : forall nc nf st w, rep f0 nc nf k st w -> length st = length k.
Proof.
  induction k as [|nd k IH]; intros nc nf [|n st] w H; try done.
  destruct H as (_ & _ & _ & H). simpl. f_equal. exact (IH _ _ _ _ H).
Qed.

Lemma rep_same f0 nc nf k st w w' :
  cells w' = cells w -> frames w' = frames w -> rep f0 nc nf k st w -> rep f0 nc nf k st w'.
Proof.
  intros H1 H2 H. apply (rep_agree _ _ _ _ _ w); [done|].
  split; intros; unfold the_cell, the_frame; by rewrite ?H1, ?H2.
Qed.

Lemma agree_above_same nc nf w w' :
  cells w' = cells w -> frames w' = frames w -> agree_above nc nf w w'.
Proof.
  intros H1 H2. repeat split; intros; unfold the_cell, the_frame; by rewrite ?H1, ?H2.
Qed.

(** ** Writes to one cell or one frame *)


Lemma the_cell_set_isStopped_ne c b j w :
  j <> c -> the_cell (snd (set_isStopped c b w)) j = the_cell w j.
Proof.
  intros Hj. unfold the_cell, set_isStopped; simpl.
  by rewrite list_lookup_alter_ne by congruence.
Qed.

Lemma the_cell_set_unsubscribeFn_ne c g j w :
  j <> c -> the_cell (snd (set_unsubscribeFn c g w)) j = the_cell w j.
Proof.
  intros Hj. unfold the_cell, set_unsubscribeFn; simpl.
  by rewrite list_lookup_alter_ne by congruence.
Qed.

Lemma the_frame_set_taken f n w :
  (f < length (frames w))%nat ->
  the_frame (snd (set_taken f n w)) f = Frame n (subscription (the_frame w f)).
Proof.
  intros Hf. unfold the_frame, set_taken; simpl. rewrite list_lookup_alter_eq.
  destruct (frames w !! f) eqn:E; [done|]. apply lookup_ge_None in E. lia.
Qed.

Lemma the_frame_set_taken_ne f n g w :
  g <> f -> the_frame (snd (set_taken f n w)) g = the_frame w g.
Proof.
  intros Hg. unfold the_frame, set_taken; simpl.
  by rewrite list_lookup_alter_ne by congruence.
Qed.

Lemma the_frame_init_subscription_ne f s g w :
  g <> f -> the_frame (snd (init_subscription f s w)) g = the_frame w g.
Proof.
  intros Hg. unfold the_frame, init_subscription; simpl.
  by rewrite list_lookup_alter_ne by congruence.
Qed.

(** A write to cell [c]: the cells above and below it and all frames stay. *)
Lemma cell_write_above c nf w w' :
  length (cells w') = length (cells w) -> frames w' = frames w ->
  (forall j, j <> c -> the_cell w' j = the_cell w j) ->
  agree_above (S c) nf w w'.
Proof.
  intros H1 H2 H3. repeat split; [done|by rewrite H2|..].
  - intros j Hj. apply H3. lia.
  - intros g _. unfold the_frame. by rewrite H2.
Qed.

Lemma cell_write_below c nf w w' :
  frames w' = frames w ->
  (forall j, j <> c -> the_cell w' j = the_cell w j) ->
  agree_below c nf w w'.
Proof.
  intros H2 H3. split.
  - intros j Hj. apply H3. lia.
  - intros g _. unfold the_frame. by rewrite H2.
Qed.

Lemma frame_write_above nc f w w' :
  length (frames w') = length (frames w) -> cells w' = cells w ->
  (forall g, g <> f -> the_frame w' g = the_frame w g) ->
  agree_above nc (S f) w w'.
Proof.
  intros H1 H2 H3. repeat split; [by rewrite H2|done|..].
  - intros j _. unfold the_cell. by rewrite H2.
  - intros g Hg. apply H3. lia.
Qed.

Lemma frame_write_below nc f w w' :
  cells w' = cells w ->
  (forall g, g <> f -> the_frame w' g = the_frame w g) ->
  agree_below nc f w w'.
Proof.
  intros H2 H3. split.
  - intros j _. unfold the_cell. by rewrite H2.
  - intros g Hg. apply H3. lia.
Qed.

(** An exception of a terminal callback is dropped by the Subscriber. *)
Lemma swallow (m : M unit) w r w' :
  m w = (r, w') -> r <> OutOfFuel -> try_catch m (fun _ => ret tt) w = (Returned tt, w').
Proof. intros H Hr. unfold try_catch. rewrite H. by destruct r as [[]| |]. Qed.

Section Nodes.
Context (fuel f0 : nat) (h : handlers).
Local Abbreviation obs := (observer_of fuel f0 h).

(** [subscriber.error] and [subscriber.complete] of a cell above the nodes. *)
Lemma s_end_follows k c nc nf st w t flag :
  follows_end fuel f0 h k ->
  (nc <= c)%nat -> (c < length (cells w))%nat -> (nf <= length (frames w))%nat ->
  the_cell w c = Cell flag None ->
  rep f0 nc nf k st w ->
  exists w',
    s_end (mk_subscriber fuel c (obs k)) t w = (Returned tt, w') /\
    the_cell w' c = Cell true None /\
    rep f0 nc nf k (if flag then st else fst (m_end h (map node_op k) st t)) w' /\
    log w' = log w ++ (if flag then [] else snd (m_end h (map node_op k) st t)) /\
    agree_above (S c) nf w w'.
Proof.
  intros IH Hnc Hc Hnf Hcell Hrep. destruct flag.
  - exists w. split.
    + destruct t; simpl; [apply subscriber_complete_stopped | apply subscriber_error_stopped];
        by rewrite Hcell.
    + rewrite app_nil_r. repeat split; try done.
  - set (w1 := snd (set_isStopped c true w)).
    assert (Hc1 : the_cell w1 c = Cell true None).
    { subst w1. rewrite the_cell_set_isStopped by done. by rewrite Hcell. }
    assert (Hlen : length (cells w1) = length (cells w)).
    { subst w1. simpl. by rewrite length_alter. }
    assert (Hrep1 : rep f0 nc nf k st w1).
    { apply (rep_agree _ _ _ _ _ w); [done|].
      apply (agree_below_mono c nf); [|lia|lia].
      apply cell_write_below; [done|]. intros j Hj. by apply the_cell_set_isStopped_ne. }
    destruct (IH nc nf st w1 t) as (r & w2 & Hrun & Hr & Hrep2 & Hlog & Hag); try done.
    { rewrite Hlen. lia. }
    exists w2.
    assert (Hc2 : the_cell w2 c = Cell true None).
    { destruct Hag as (_ & _ & A & _). by rewrite A. }
    assert (Hag' : agree_above (S c) nf w w2).
    { apply (agree_above_trans _ _ _ w1).
      - apply cell_write_above; [done|done|]. intros j Hj. by apply the_cell_set_isStopped_ne.
      - apply (agree_above_mono nc nf); [done|lia|lia]. }
    split; [|done].
    destruct t; simpl.
    + rewrite subscriber_complete_live by (by rewrite Hcell).
      eapply bind_runs.
      * simpl in Hrun. destruct (complete (obs k)); [by eapply swallow|].
        inversion Hrun; by subst.
      * apply run_unsubscribeFn_none. by rewrite Hc2.
    + rewrite subscriber_error_live by (by rewrite Hcell).
      eapply bind_runs.
      * simpl in Hrun. destruct (error (obs k)); [by eapply swallow|].
        inversion Hrun; by subst.
      * apply run_unsubscribeFn_none. by rewrite Hc2.
Qed.


Lemma o_end_node nd k t :
  o_end (obs (nd :: k)) t = s_end (mk_subscriber fuel (node_cell nd) (obs k)) t.
Proof. by destruct nd, t. Qed.

Lemma follows_end_all k : follows_end fuel f0 h k.
Proof.
  induction k as [|nd k IH]; intros nc nf [|n st] w t Hnc Hnf Hrep; try done.
  - destruct Hrep as [Hf Hsub]. cbn [map m_end fst snd observer_of].
    assert (Hr : forall ev r,
      exists res, (emit ev ;; react fuel f0 r) w = (res, with_log w (log w ++ [ev])) /\
                  res <> OutOfFuel).
    { intros ev r. unfold bind at 1, emit.
      destruct (react_uninitialised fuel f0 r (with_log w (log w ++ [ev])) Hsub)
        as (res & -> & Hres).
      by exists res. }
    assert (Hsame : forall l, rep f0 nc nf [] [] (with_log w l) /\
                              agree_above nc nf w (with_log w l)).
    { intros l. split; [by split|by repeat split]. }
    destruct t as [|e]; simpl; unfold o_end; cbn [consumer complete error].
    + destruct (h_complete h) as [hc|]; cbn [option_map has_handler].
      * destruct (Hr OnComplete hc) as (res & -> & Hres).
        exists res, (with_log w (log w ++ [OnComplete])).
        split; [done|]. split; [done|]. destruct (Hsame (log w ++ [OnComplete])). done.
      * exists (Returned tt), w. rewrite app_nil_r.
        split; [done|]. split; [done|]. split; [by split|]. split; [done|apply agree_above_refl].
    + destruct (h_error h) as [he|]; cbn [option_map has_handler].
      * destruct (Hr (OnError e) (he e)) as (res & -> & Hres).
        exists res, (with_log w (log w ++ [OnError e])).
        split; [done|]. split; [done|]. destruct (Hsame (log w ++ [OnError e])). done.
      * exists (Returned tt), w. rewrite app_nil_r.
        split; [done|]. split; [done|]. split; [by split|]. split; [done|apply agree_above_refl].
  - destruct Hrep as (Hc & Hcell & Hfr & Hsub).
    assert (Hb : (sub_bound nd nf <= nf)%nat).
    { apply sub_bound_le. destruct (node_frame nd); [by destruct Hfr|done]. }
    rewrite o_end_node.
    destruct (s_end_follows k (node_cell nd) (node_cell nd) (sub_bound nd nf) st w t
                (n_stopped n) IH) as (w' & Hrun & Hcell' & Hrep' & Hlog & Hag);
      try done; try lia.
    exists (Returned tt), w'. split; [done|]. split; [done|].
    assert (Hfr' : match node_frame nd with
                   | Some f => (f < nf)%nat /\ the_frame w' f = Frame (n_counter n) None
                   | None => True
                   end).
    { unfold sub_bound in Hag. destruct (node_frame nd) as [f|]; [|done].
      destruct Hfr as [Hf1 Hf2]. split; [done|].
      destruct Hag as (_ & _ & _ & A). by rewrite A. }
    cbn [map m_end]. destruct (n_stopped n) eqn:En.
    + cbn [fst snd]. split; [|split; [done|]].
      * cbn [rep]. rewrite En. done.
      * apply (agree_above_mono (S (node_cell nd)) (sub_bound nd nf)); [done|lia|lia].
    + destruct (m_end h (map node_op k) st t) as [st1 out] eqn:Em. cbn [fst snd] in *.
      split; [|split; [done|]].
      * cbn [rep]. cbn [n_stopped n_counter]. done.
      * apply (agree_above_mono (S (node_cell nd)) (sub_bound nd nf)); [done|lia|lia].
Qed.

(** [subscriber.next] of a cell above the nodes. *)
Lemma s_next_follows k c nc nf st w v flag :
  follows_next fuel f0 h k ->
  (nc <= c)%nat -> (c < length (cells w))%nat -> (nf <= length (frames w))%nat ->
  the_cell w c = Cell flag None ->
  rep f0 nc nf k st w ->
  let m := m_sub_next flag st (m_next h (map node_op k) st v) in
  exists w',
    subscriber_next c (obs k) v w = (result_of (fst (fst m)), w') /\
    rep f0 nc nf k (snd (fst m)) w' /\
    log w' = log w ++ snd m /\
    agree_above nc nf w w'.
Proof.
  intros IH Hnc Hc Hnf Hcell Hrep. cbn zeta. unfold m_sub_next. destruct flag.
  - exists (with_calls w (calls w ++ [CallNext c v])). split.
    + apply subscriber_next_stopped. by rewrite Hcell.
    + simpl. rewrite app_nil_r. split; [by apply (rep_same _ _ _ _ _ w)|].
      split; [done|by apply agree_above_same].
  - rewrite subscriber_next_live by (by rewrite Hcell).
    set (w0 := with_calls w (calls w ++ [CallNext c v])).
    destruct (IH nc nf st w0 v) as (w' & Hrun & Hrep' & Hlog & Hag);
      [subst w0; simpl; lia | done | by apply (rep_same _ _ _ _ _ w) |].
    exists w'.
    destruct (m_next h (map node_op k) st v) as [[r st1] out]. cbn [fst snd] in *.
    assert (Hgoal : try_catch (o_next (obs k) v) (fun error => this_error error) w0
                    = (result_of (match r with None => None | Some _ => Some not_a_function end), w')).
    { unfold try_catch. rewrite Hrun. by destruct r. }
    split.
    + unfold o_next in Hgoal. destruct (next (obs k)).
      * rewrite Hgoal. by destruct r.
      * unfold try_catch in Hgoal. simpl in Hgoal. destruct r; exact Hgoal.
    + by destruct r.
Qed.


(** [map] and [filter] passing a value on. *)
Lemma forward_follows k c nc nf st w u stopped counter :
  follows_next fuel f0 h k ->
  (nc <= c)%nat -> (c < length (cells w))%nat -> (nf <= length (frames w))%nat ->
  the_cell w c = Cell stopped None ->
  rep f0 nc nf k st w ->
  let s := mk_subscriber fuel c (obs k) in
  let m := m_forward h (map node_op k) stopped counter st (m_next h (map node_op k) st u) in
  exists w' fl st1,
    try_catch (s_next s u) (fun error => s_error s error) w = (Returned tt, w') /\
    fst m = (None, NState fl counter :: st1) /\
    the_cell w' c = Cell fl None /\
    rep f0 nc nf k st1 w' /\
    log w' = log w ++ snd m /\
    agree_above (S c) nf w w'.
Proof.
  intros IH Hnc Hc Hnf Hcell Hrep. cbn zeta. unfold m_forward.
  destruct (s_next_follows k c nc nf st w u stopped IH Hnc Hc Hnf Hcell Hrep)
    as (w1 & Hrun & Hrep1 & Hlog1 & Hag1).
  cbn zeta in *.
  destruct (m_sub_next stopped st (m_next h (map node_op k) st u)) as [[r st1] out] eqn:Em.
  cbn [fst snd] in *.
  assert (Hcell1 : the_cell w1 c = Cell stopped None).
  { destruct Hag1 as (_ & _ & A & _). by rewrite A. }
  destruct r as [x|].
  - assert (Hlive : stopped = false).
    { unfold m_sub_next in Em. destruct stopped; [by inversion Em|done]. }
    subst stopped.
    destruct (s_end_follows k c nc nf st1 w1 (Fails x) false (follows_end_all k))
      as (w2 & Hrun2 & Hcell2 & Hrep2 & Hlog2 & Hag2); try done.
    { destruct Hag1 as (A & _). lia. }
    { destruct Hag1 as (_ & A & _). lia. }
    destruct (m_end h (map node_op k) st1 (Fails x)) as [st2 out2]. cbn [fst snd] in *.
    exists w2, true, st2. split.
    { eapply try_catches; [exact Hrun|exact Hrun2]. }
    split; [done|]. split; [done|]. split; [done|].
    split; [by rewrite Hlog2, Hlog1, app_assoc|].
    apply (agree_above_trans _ _ _ w1); [|done].
    apply (agree_above_mono nc nf); [done|lia|lia].
  - exists w1, stopped, st1. split; [by apply try_runs|].
    split; [done|]. split; [done|]. split; [done|]. split; [done|].
    apply (agree_above_mono nc nf); [done|lia|lia].
Qed.

(** [map] and [filter] when the user's function throws. *)
Lemma fail_follows k c nc nf st w e stopped counter :
  (nc <= c)%nat -> (c < length (cells w))%nat -> (nf <= length (frames w))%nat ->
  the_cell w c = Cell stopped None ->
  rep f0 nc nf k st w ->
  let s := mk_subscriber fuel c (obs k) in
  let m := m_fail h (map node_op k) stopped counter st e in
  exists w' fl st1,
    s_error s e w = (Returned tt, w') /\
    fst m = (None, NState fl counter :: st1) /\
    the_cell w' c = Cell fl None /\
    rep f0 nc nf k st1 w' /\
    log w' = log w ++ snd m /\
    agree_above (S c) nf w w'.
Proof.
  intros Hnc Hc Hnf Hcell Hrep. cbn zeta. unfold m_fail.
  destruct (s_end_follows k c nc nf st w (Fails e) stopped (follows_end_all k))
    as (w2 & Hrun2 & Hcell2 & Hrep2 & Hlog2 & Hag2); try done.
  destruct stopped.
  - exists w2, true, st. split; [exact Hrun2|]. by do 4 (split; [done|]).
  - destruct (m_end h (map node_op k) st (Fails e)) as [st2 out2]. cbn [fst snd] in *.
    exists w2, true, st2. split; [exact Hrun2|]. by do 4 (split; [done|]).
Qed.

Lemma get_taken_reads f w counter sub :
  the_frame w f = Frame counter sub -> get_taken f w = (Returned counter, w).
Proof. intros H. unfold get_taken. by rewrite H. Qed.

Lemma take_next_reads count f s v w counter sub :
  the_frame w f = Frame counter sub ->
  take_next fuel count f s v w
  = (if Z.ltb counter count then
       s_next s v ;;
       set_taken f (counter + 1) ;;
       taken' <- get_taken f ;;
       if Z.geb taken' count then
         s_complete s ;;
         subscription <- get_subscription f ;;
         unsubscribe fuel subscription
       else ret tt
     else ret tt) w.
Proof. intros H. unfold take_next, bind at 1, get_taken. by rewrite H. Qed.

Lemma skip_next_reads count f s v w counter sub :
  the_frame w f = Frame counter sub ->
  o_next (skip_observer count f s) v w
  = (if Z.geb counter count then s_next s v else set_taken f (counter + 1)) w.
Proof.
  intros H. unfold o_next. cbn [next skip_observer]. unfold bind at 1, get_taken.
  by rewrite H.
Qed.

(** The [next] of [take]. *)
Lemma take_follows k count f c st w v stopped counter :
  follows_next fuel f0 h k ->
  (c < length (cells w))%nat -> (f < length (frames w))%nat ->
  the_cell w c = Cell stopped None ->
  the_frame w f = Frame counter None ->
  rep f0 c f k st w ->
  let s := mk_subscriber fuel c (obs k) in
  let m := m_take h (map node_op k) count stopped counter st (m_next h (map node_op k) st v) in
  exists w' fl ctr st1,
    take_next fuel count f s v w = (result_of (fst (fst m)), w') /\
    snd (fst m) = NState fl ctr :: st1 /\
    the_cell w' c = Cell fl None /\
    the_frame w' f = Frame ctr None /\
    rep f0 c f k st1 w' /\
    log w' = log w ++ snd m /\
    agree_above (S c) (S f) w w'.
Proof.
  intros IH Hc Hf Hcell Hframe Hrep. cbn zeta. unfold m_take.
  rewrite (take_next_reads _ _ _ _ _ _ _ Hframe).
  destruct (Z.ltb counter count) eqn:Elt.
  2:{ exists w, stopped, counter, st. rewrite app_nil_r.
      do 5 (split; [done|]). split; [done|apply agree_above_refl]. }
  destruct (s_next_follows k c c f st w v stopped IH) as (w1 & Hrun & Hrep1 & Hlog1 & Hag1);
    try done; try lia.
  cbn zeta in *.
  destruct (m_sub_next stopped st (m_next h (map node_op k) st v)) as [[r st1] out] eqn:Em.
  cbn [fst snd] in *.
  assert (Hcell1 : the_cell w1 c = Cell stopped None).
  { destruct Hag1 as (_ & _ & A & _). by rewrite A. }
  assert (Hframe1 : the_frame w1 f = Frame counter None).
  { destruct Hag1 as (_ & _ & _ & A). by rewrite A. }
  assert (Hc1 : (c < length (cells w1))%nat) by (destruct Hag1 as (A & _); lia).
  assert (Hf1 : (f < length (frames w1))%nat) by (destruct Hag1 as (_ & A & _); lia).
  destruct r as [x|].
  { exists w1, stopped, counter, st1. split; [by apply bind_raises|].
    do 5 (split; [done|]). apply (agree_above_mono c f); [done|lia|lia]. }
  set (w2 := snd (set_taken f (counter + 1) w1)).
  assert (Hframe2 : the_frame w2 f = Frame (counter + 1) None).
  { subst w2. rewrite the_frame_set_taken by done. by rewrite Hframe1. }
  assert (Hag2 : agree_above (S c) (S f) w w2).
  { apply (agree_above_trans _ _ _ w1); [apply (agree_above_mono c f); [done|lia|lia]|].
    apply frame_write_above; [simpl; by rewrite length_alter|done|].
    intros g Hg. by apply the_frame_set_taken_ne. }
  assert (Hrep2 : rep f0 c f k st1 w2).
  { apply (rep_agree _ _ _ _ _ w1); [done|]. apply frame_write_below; [done|].
    intros g Hg. by apply the_frame_set_taken_ne. }
  assert (Hstep : forall (m : M unit),
            (s_next (mk_subscriber fuel c (obs k)) v ;;
             set_taken f (counter + 1) ;;
             taken' <- get_taken f ;;
             if Z.geb taken' count then m else ret tt) w
            = (if Z.geb (counter + 1) count then m w2 else (Returned tt, w2))).
  { intros m. destruct (m w2) as [res w3] eqn:Hm.
    destruct (Z.geb (counter + 1) count) eqn:E;
      (eapply bind_runs; [exact Hrun|];
       eapply bind_runs; [reflexivity|]; fold w2;
       eapply bind_runs; [by apply (get_taken_reads _ _ _ None)|];
       by rewrite E). }
  rewrite Hstep. clear Hstep.
  destruct (Z.geb (counter + 1) count) eqn:Ege.
  assert (Hcell2 : the_cell w2 c = Cell stopped None) by exact Hcell1.
  assert (Hlog2 : log w2 = log w ++ out) by exact Hlog1.
  2:{ exists w2, stopped, (counter + 1), st1. by do 6 (split; [done|]). }
  destruct (s_end_follows k c c f st1 w2 Completes stopped (follows_end_all k))
    as (w3 & Hrun3 & Hcell3 & Hrep3 & Hlog3 & Hag3); try done; try lia.
  { subst w2. simpl. rewrite length_alter. lia. }
  assert (Hframe3 : the_frame w3 f = Frame (counter + 1) None).
  { destruct Hag3 as (_ & _ & _ & A). by rewrite A. }
  assert (Hraise : (s_complete (mk_subscriber fuel c (obs k)) ;;
                    subscription <- get_subscription f ;;
                    unsubscribe fuel subscription) w2 = (Raised uninitialised, w3)).
  { eapply bind_runs; [exact Hrun3|]. apply bind_raises.
    unfold get_subscription. by rewrite Hframe3. }
  assert (Hag3' : agree_above (S c) (S f) w w3).
  { apply (agree_above_trans _ _ _ w2); [done|].
    apply (agree_above_mono (S c) f); [done|lia|lia]. }
  destruct stopped.
  - exists w3, true, (counter + 1), st1. split; [exact Hraise|].
    rewrite Hlog3, app_nil_r. by do 5 (split; [done|]).
  - destruct (m_end h (map node_op k) st1 Completes) as [st2 out2]. cbn [fst snd] in *.
    exists w3, true, (counter + 1), st2. split; [exact Hraise|].
    do 4 (split; [done|]). split; [|done]. by rewrite Hlog3, Hlog2, app_assoc.
Qed.

(** The [next] of [skip]. *)
Lemma skip_follows k count f c st w v stopped counter :
  follows_next fuel f0 h k ->
  (c < length (cells w))%nat -> (f < length (frames w))%nat ->
  the_cell w c = Cell stopped None ->
  the_frame w f = Frame counter None ->
  rep f0 c f k st w ->
  let s := mk_subscriber fuel c (obs k) in
  let m := m_skip count stopped counter st (m_next h (map node_op k) st v) in
  exists w' ctr st1,
    o_next (skip_observer count f s) v w = (result_of (fst (fst m)), w') /\
    snd (fst m) = NState stopped ctr :: st1 /\
    the_cell w' c = Cell stopped None /\
    the_frame w' f = Frame ctr None /\
    rep f0 c f k st1 w' /\
    log w' = log w ++ snd m /\
    agree_above (S c) (S f) w w'.
Proof.
  intros IH Hc Hf Hcell Hframe Hrep. cbn zeta. unfold m_skip.
  rewrite (skip_next_reads _ _ _ _ _ _ _ Hframe).
  destruct (Z.geb counter count) eqn:Ege.
  - destruct (s_next_follows k c c f st w v stopped IH) as (w1 & Hrun & Hrep1 & Hlog1 & Hag1);
      try done; try lia.
    cbn zeta in *.
    destruct (m_sub_next stopped st (m_next h (map node_op k) st v)) as [[r st1] out] eqn:Em.
    cbn [fst snd] in *.
    exists w1, counter, st1. split; [exact Hrun|]. split; [done|].
    destruct Hag1 as (A1 & A2 & A3 & A4).
    split; [by rewrite A3|]. split; [by rewrite A4|]. split; [done|]. split; [done|].
    apply (agree_above_mono c f); [by repeat split|lia|lia].
  - set (w2 := snd (set_taken f (counter + 1) w)).
    exists w2, (counter + 1), st. split; [done|]. split; [done|].
    split; [done|]. split.
    { subst w2. rewrite the_frame_set_taken by done. by rewrite Hframe. }
    split.
    { apply (rep_agree _ _ _ _ _ w); [done|]. apply frame_write_below; [done|].
      intros g Hg. by apply the_frame_set_taken_ne. }
    split; [by rewrite app_nil_r|].
    apply frame_write_above; [simpl; by rewrite length_alter|done|].
    intros g Hg. by apply the_frame_set_taken_ne.
Qed.

Lemma follows_next_all k : follows_next fuel f0 h k.
Proof.
  induction k as [|nd k IH]; intros nc nf [|n st] w v Hnc Hnf Hrep; try done.
  - destruct Hrep as [Hf Hsub]. cbn [map m_next observer_of]. unfold o_next.
    cbn [consumer next].
    destruct (h_next h) as [hn|]; cbn [option_map fst snd].
    + exists (with_log w (log w ++ [OnNext v])). split.
      * unfold bind at 1, emit. destruct (hn v); simpl; try done.
        unfold bind, get_subscription.
        change (the_frame (with_log w _) f0) with (the_frame w f0). by rewrite Hsub.
      * split; [by split|]. split; [done|by apply agree_above_same].
    + exists w. rewrite app_nil_r. split; [done|]. split; [by split|].
      split; [done|apply agree_above_refl].
  - destruct Hrep as (Hc & Hcell & Hfr & Hsub). destruct n as [stopped counter].
    cbn [n_stopped n_counter] in *.
    destruct nd as [fn c|predicate c|count f c|count f c];
      cbn [node_cell node_frame] in *; unfold sub_bound in Hsub; cbn [node_frame] in Hsub;
      cbn [map node_op m_next observer_of].
    + unfold o_next. cbn [next map_observer]. unfold map_next.
      destruct (fn v) as [u|e].
      * destruct (forward_follows k c c nf st w u stopped counter IH)
          as (w' & fl & st1 & Hrun & Hm & Hcell' & Hrep' & Hlog & Hag); try done; try lia.
        cbn zeta in *. exists w'. rewrite Hm. cbn [fst snd].
        split; [exact Hrun|]. split; [by cbn [rep]|].
        split; [done|]. apply (agree_above_mono (S c) nf); [done|lia|lia].
      * destruct (fail_follows k c c nf st w e stopped counter)
          as (w' & fl & st1 & Hrun & Hm & Hcell' & Hrep' & Hlog & Hag); try done; try lia.
        cbn zeta in *. exists w'. rewrite Hm. cbn [fst snd].
        split; [exact Hrun|]. split; [by cbn [rep]|].
        split; [done|]. apply (agree_above_mono (S c) nf); [done|lia|lia].
    + unfold o_next. cbn [next filter_observer].
      destruct (predicate v) as [[|]|e].
      * destruct (forward_follows k c c nf st w v stopped counter IH)
          as (w' & fl & st1 & Hrun & Hm & Hcell' & Hrep' & Hlog & Hag); try done; try lia.
        cbn zeta in *. exists w'. rewrite Hm. cbn [fst snd].
        split; [exact Hrun|]. split; [by cbn [rep]|].
        split; [done|]. apply (agree_above_mono (S c) nf); [done|lia|lia].
      * exists w. cbn [fst snd]. rewrite app_nil_r. split; [done|].
        split; [by cbn [rep]|]. split; [done|apply agree_above_refl].
      * destruct (fail_follows k c c nf st w e stopped counter)
          as (w' & fl & st1 & Hrun & Hm & Hcell' & Hrep' & Hlog & Hag); try done; try lia.
        cbn zeta in *. exists w'. rewrite Hm. cbn [fst snd].
        split; [exact Hrun|]. split; [by cbn [rep]|].
        split; [done|]. apply (agree_above_mono (S c) nf); [done|lia|lia].
    + destruct Hfr as [Hf Hframe]. unfold o_next. cbn [next take_observer].
      destruct (take_follows k count f c st w v stopped counter IH)
        as (w' & fl & ctr & st1 & Hrun & Hm & Hcell' & Hframe' & Hrep' & Hlog & Hag);
        try done; try lia.
      cbn zeta in *. exists w'. rewrite Hm.
      split; [exact Hrun|]. split; [by cbn [rep]|].
      split; [done|]. apply (agree_above_mono (S c) (S f)); [done|lia|lia].
    + destruct Hfr as [Hf Hframe].
      destruct (skip_follows k count f c st w v stopped counter IH)
        as (w' & ctr & st1 & Hrun & Hm & Hcell' & Hframe' & Hrep' & Hlog & Hag);
        try done; try lia.
      cbn zeta in *. exists w'. rewrite Hm.
      split; [exact Hrun|]. split; [by cbn [rep]|].
      split; [done|]. apply (agree_above_mono (S c) (S f)); [done|lia|lia].
Qed.

(** The loop of [from] on the Subscriber of a live cell above the nodes. *)
Lemma from_loop_follows k s nc nf array : forall st w,
  (nc <= s)%nat -> (s < length (cells w))%nat -> (nf <= length (frames w))%nat ->
  the_cell w s = Cell false None ->
  rep f0 nc nf k st w ->
  let m := m_from_loop h (map node_op k) st array in
  exists w',
    from_loop array (mk_subscriber fuel s (obs k)) w = (result_of (fst (fst m)), w') /\
    rep f0 nc nf k (snd (fst m)) w' /\
    log w' = log w ++ snd m /\
    agree_above nc nf w w'.
Proof.
  induction array as [|x rest IH]; intros st w Hnc Hs Hnf Hcell Hrep; cbn zeta.
  - exists w. cbn [m_from_loop fst snd]. rewrite app_nil_r.
    split; [done|]. split; [done|]. split; [done|apply agree_above_refl].
  - cbn [from_loop m_from_loop]. rewrite subscriber_isStopped_undefined. cbn [truthy].
    destruct (s_next_follows k s nc nf st w x false (follows_next_all k))
      as (w1 & Hrun & Hrep1 & Hlog1 & Hag1); try done.
    cbn zeta in *.
    destruct (m_sub_next false st (m_next h (map node_op k) st x)) as [[r st1] out].
    cbn [fst snd] in *. destruct r as [e|].
    + exists w1. split; [by apply bind_raises|]. done.
    + destruct (IH st1 w1) as (w2 & Hrun2 & Hrep2 & Hlog2 & Hag2); try done.
      { destruct Hag1 as (A & _). lia. }
      { destruct Hag1 as (_ & A & _). lia. }
      { destruct Hag1 as (_ & _ & A & _). by rewrite A. }
      cbn zeta in *.
      destruct (m_from_loop h (map node_op k) st1 rest) as [[r st2] out2].
      cbn [fst snd] in *. exists w2.
      split; [eapply bind_runs; [exact Hrun|exact Hrun2]|].
      split; [done|]. split; [by rewrite Hlog2, Hlog1, app_assoc|].
      by apply (agree_above_trans _ _ _ w1).
Qed.

Lemma the_cell_alloc w : the_cell (snd (alloc_cell w)) (length (cells w)) = Cell false None.
Proof. unfold the_cell, alloc_cell; simpl. by rewrite lookup_fresh. Qed.

Lemma the_frame_alloc w : the_frame (snd (alloc_frame w)) (length (frames w)) = Frame 0 None.
Proof. unfold the_frame, alloc_frame; simpl. by rewrite lookup_fresh. Qed.

Lemma alloc_cell_below nf w : agree_below (length (cells w)) nf w (snd (alloc_cell w)).
Proof.
  split; [|done]. intros j Hj. unfold the_cell, alloc_cell; simpl.
  by rewrite lookup_app_l.
Qed.

Lemma alloc_frame_below nc w : agree_below nc (length (frames w)) w (snd (alloc_frame w)).
Proof.
  split; [done|]. intros g Hg. unfold the_frame, alloc_frame; simpl.
  by rewrite lookup_app_l.
Qed.

(** The end of [subscribe] (lines 89-101 and 107). *)
Lemma subscribe_registers (body : M retval) id s w rv w' :
  body w = (Returned rv, w') ->
  (try_catch (cleanup <- body ;; register_cleanup id cleanup) (fun error => s_error s error) ;;
   ret id) w
  = (Returned id, snd (register_cleanup id rv w')).
Proof.
  intros H. eapply bind_runs; [eapply try_runs, bind_runs; [exact H|]|reflexivity].
  by destruct rv as [|g|[g|]|v].
Qed.

Lemma subscribe_catches (body : M retval) id s w e w' w'' :
  body w = (Raised e, w') ->
  s_error s e w' = (Returned tt, w'') ->
  (try_catch (cleanup <- body ;; register_cleanup id cleanup) (fun error => s_error s error) ;;
   ret id) w
  = (Returned id, w'').
Proof.
  intros H1 H2.
  eapply bind_runs; [eapply try_catches; [by apply bind_raises|exact H2]|reflexivity].
Qed.

Lemma subscribe_follows source : over_array source = true ->
  forall k nc nf st w,
    (nc <= length (cells w))%nat -> (nf <= length (frames w))%nat ->
    rep f0 nc nf k st w ->
    exists w',
      subscribe fuel source (AsObject (obs k)) w = (Returned (length (cells w)), w') /\
      rep f0 nc nf k (fst (m_subscribe h source (map node_op k) st)) w' /\
      log w' = log w ++ snd (m_subscribe h source (map node_op k) st) /\
      isStopped (the_cell w' (length (cells w))) = m_stopped h source (map node_op k) st.
Proof.
  induction source as [p|array|fn source IH|predicate source IH|count source IH|count source IH];
    intros Hover k nc nf st w Hnc Hnf Hrep; [done|..];
    cbn [over_array] in Hover; cbn [subscribe normalize];
    rewrite bind_alloc_cell;
    set (c := length (cells w)); set (w1 := with_cells w (cells w ++ [Cell false None]));
    assert (Hc1 : the_cell w1 c = Cell false None) by apply the_cell_alloc;
    assert (Hlen1 : length (cells w1) = S c) by (subst w1; simpl; rewrite length_app; simpl; lia);
    assert (Hfl1 : length (frames w1) = length (frames w)) by done;
    assert (Hrep1 : rep f0 c nf k st w1)
      by (apply (rep_agree _ _ _ _ _ w); [by apply (rep_mono _ _ nc nf)|apply alloc_cell_below]).
  - destruct (from_loop_follows k c c nf array st w1)
      as (w2 & Hrun2 & Hrep2 & Hlog2 & Hag2); try done; try lia.
    cbn zeta in *. cbn [m_subscribe m_stopped].
    destruct (m_from_loop h (map node_op k) st array) as [[r st2] out2]. cbn [fst snd] in *.
    assert (Hc2 : the_cell w2 c = Cell false None).
    { destruct Hag2 as (_ & _ & A & _). by rewrite A. }
    destruct Hag2 as (A1 & A2 & _).
    destruct r as [e|].
    + destruct (s_end_follows k c c nf st2 w2 (Fails e) false (follows_end_all k))
        as (w3 & Hrun3 & Hc3 & Hrep3 & Hlog3 & Hag3); try done; try lia.
      destruct (m_end h (map node_op k) st2 (Fails e)) as [st3 out3]. cbn [fst snd] in *.
      exists w3. split.
      { eapply subscribe_catches; [|exact Hrun3]. unfold from_subscribeFn.
        by apply bind_raises. }
      split; [by apply (rep_rebound _ _ nc nf c nf st _ w)|].
      split; [by rewrite Hlog3, Hlog2, app_assoc|]. by rewrite Hc3.
    + destruct (s_end_follows k c c nf st2 w2 Completes false (follows_end_all k))
        as (w3 & Hrun3 & Hc3 & Hrep3 & Hlog3 & Hag3); try done; try lia.
      destruct (m_end h (map node_op k) st2 Completes) as [st3 out3]. cbn [fst snd] in *.
      exists (snd (register_cleanup c (RFunction EmptyFn) w3)). split.
      { apply subscribe_registers. unfold from_subscribeFn.
        eapply bind_runs; [exact Hrun2|]. eapply bind_runs; [exact Hrun3|reflexivity]. }
      split.
      { apply (rep_rebound _ _ nc nf c nf st _ w); [done|].
        apply (rep_agree _ _ _ _ _ w3); [done|]. apply cell_write_below; [done|].
        intros j Hj. by apply the_cell_set_unsubscribeFn_ne. }
      split.
      { change (log (snd (register_cleanup c (RFunction EmptyFn) w3))) with (log w3).
        by rewrite Hlog3, Hlog2, app_assoc. }
      cbn [register_cleanup]. rewrite isStopped_set_unsubscribeFn. by rewrite Hc3.
  - destruct (IH Hover (NMap fn c :: k) (S c) nf (NState false 0 :: st) w1)
      as (w2 & Hrun2 & Hrep2 & Hlog2 & Hst2); [lia|lia| |].
    { cbn [rep node_cell node_frame n_stopped]. unfold sub_bound. cbn [node_frame].
      split; [lia|]. by do 2 (split; [done|]). }
    cbn [map node_op] in *. cbn [m_subscribe m_stopped].
    destruct (m_subscribe h source (OpMap fn :: map node_op k) (NState false 0 :: st))
      as [[|n' st''] out] eqn:Em; cbn [fst snd] in *; [done|].
    destruct Hrep2 as (_ & Hc2 & _ & Hsub2). cbn [node_cell] in *.
    exists (snd (register_cleanup c (RFunction (UnsubscribeOf (length (cells w1)))) w2)).
    split.
    { apply subscribe_registers. eapply bind_runs; [exact Hrun2|reflexivity]. }
    split.
    { apply (rep_rebound _ _ nc nf c nf st _ w); [done|].
      apply (rep_agree _ _ _ _ _ w2); [done|]. apply cell_write_below; [done|].
      intros j Hj. by apply the_cell_set_unsubscribeFn_ne. }
    split; [done|].
    cbn [register_cleanup]. rewrite isStopped_set_unsubscribeFn. by rewrite Hc2.
  - destruct (IH Hover (NFilter predicate c :: k) (S c) nf (NState false 0 :: st) w1)
      as (w2 & Hrun2 & Hrep2 & Hlog2 & Hst2); [lia|lia| |].
    { cbn [rep node_cell node_frame n_stopped]. unfold sub_bound. cbn [node_frame].
      split; [lia|]. by do 2 (split; [done|]). }
    cbn [map node_op] in *. cbn [m_subscribe m_stopped].
    destruct (m_subscribe h source (OpFilter predicate :: map node_op k) (NState false 0 :: st))
      as [[|n' st''] out] eqn:Em; cbn [fst snd] in *; [done|].
    destruct Hrep2 as (_ & Hc2 & _ & Hsub2). cbn [node_cell] in *.
    exists (snd (register_cleanup c (RFunction (UnsubscribeOf (length (cells w1)))) w2)).
    split.
    { apply subscribe_registers. eapply bind_runs; [exact Hrun2|reflexivity]. }
    split.
    { apply (rep_rebound _ _ nc nf c nf st _ w); [done|].
      apply (rep_agree _ _ _ _ _ w2); [done|]. apply cell_write_below; [done|].
      intros j Hj. by apply the_cell_set_unsubscribeFn_ne. }
    split; [done|].
    cbn [register_cleanup]. rewrite isStopped_set_unsubscribeFn. by rewrite Hc2.
  - destruct (Z.leb count 0) eqn:Ecount.
    { destruct (s_end_follows k c c nf st w1 Completes false (follows_end_all k))
        as (w3 & Hrun3 & Hc3 & Hrep3 & Hlog3 & Hag3); try done; try lia.
      cbn [m_subscribe m_stopped]. rewrite Ecount.
      destruct (m_end h (map node_op k) st Completes) as [st3 out3]. cbn [fst snd] in *.
      exists (snd (register_cleanup c RUndefined w3)). split.
      { apply subscribe_registers. eapply bind_runs; [exact Hrun3|reflexivity]. }
      split; [by apply (rep_rebound _ _ nc nf c nf st _ w)|].
      split; [done|]. cbn [register_cleanup ret snd]. by rewrite Hc3. }
    set (f := length (frames w1)).
    set (w1' := with_frames w1 (frames w1 ++ [Frame 0 None])).
    assert (Hfr1 : the_frame w1' f = Frame 0 None) by apply the_frame_alloc.
    assert (Hlen1' : length (cells w1') = S c) by exact Hlen1.
    destruct (IH Hover (NTake count f c :: k) (S c) (S f) (NState false 0 :: st) w1')
      as (w2 & Hrun2 & Hrep2 & Hlog2 & Hst2); [lia| | |].
    { subst w1'. simpl. rewrite length_app. simpl. lia. }
    { cbn [rep node_cell node_frame n_stopped n_counter]. unfold sub_bound. cbn [node_frame].
      split; [lia|]. split; [done|]. split; [split; [lia|done]|].
      apply (rep_agree _ _ _ _ _ w1); [apply (rep_mono _ _ c nf); [done|lia|subst f; lia]|].
      apply alloc_frame_below. }
    cbn [map node_op] in *. cbn [m_subscribe m_stopped]. rewrite Ecount.
    destruct (m_subscribe h source (OpTake count :: map node_op k) (NState false 0 :: st))
      as [[|n' st''] out] eqn:Em; cbn [fst snd] in *; [done|].
    destruct Hrep2 as (_ & Hc2 & _ & Hsub2). cbn [node_cell] in *.
    unfold sub_bound in Hsub2. cbn [node_frame] in Hsub2.
    set (w3 := snd (init_subscription f (length (cells w1')) w2)).
    exists (snd (register_cleanup c (RFunction (UnsubscribeOf (length (cells w1')))) w3)).
    split.
    { apply subscribe_registers. rewrite bind_alloc_frame.
      eapply bind_runs; [exact Hrun2|]. eapply bind_runs; reflexivity. }
    split.
    { apply (rep_rebound _ _ nc nf c f st _ w); [done|].
      apply (rep_agree _ _ _ _ _ w3); [|apply cell_write_below; [done|];
        intros j Hj; by apply the_cell_set_unsubscribeFn_ne].
      apply (rep_agree _ _ _ _ _ w2); [done|]. apply frame_write_below; [done|].
      intros g Hg. by apply the_frame_init_subscription_ne. }
    split; [done|].
    cbn [register_cleanup]. rewrite isStopped_set_unsubscribeFn.
    change (the_cell w3 c) with (the_cell w2 c). by rewrite Hc2.
  - set (f := length (frames w1)).
    set (w1' := with_frames w1 (frames w1 ++ [Frame 0 None])).
    assert (Hfr1 : the_frame w1' f = Frame 0 None) by apply the_frame_alloc.
    assert (Hlen1' : length (cells w1') = S c) by exact Hlen1.
    destruct (IH Hover (NSkip count f c :: k) (S c) (S f) (NState false 0 :: st) w1')
      as (w2 & Hrun2 & Hrep2 & Hlog2 & Hst2); [lia| | |].
    { subst w1'. simpl. rewrite length_app. simpl. lia. }
    { cbn [rep node_cell node_frame n_stopped n_counter]. unfold sub_bound. cbn [node_frame].
      split; [lia|]. split; [done|]. split; [split; [lia|done]|].
      apply (rep_agree _ _ _ _ _ w1); [apply (rep_mono _ _ c nf); [done|lia|subst f; lia]|].
      apply alloc_frame_below. }
    cbn [map node_op] in *. cbn [m_subscribe m_stopped].
    destruct (m_subscribe h source (OpSkip count :: map node_op k) (NState false 0 :: st))
      as [[|n' st''] out] eqn:Em; cbn [fst snd] in *; [done|].
    destruct Hrep2 as (_ & Hc2 & _ & Hsub2). cbn [node_cell] in *.
    unfold sub_bound in Hsub2. cbn [node_frame] in Hsub2.
    set (w3 := snd (init_subscription f (length (cells w1')) w2)).
    exists (snd (register_cleanup c (RFunction (UnsubscribeOf (length (cells w1')))) w3)).
    split.
    { apply subscribe_registers. rewrite bind_alloc_frame.
      eapply bind_runs; [exact Hrun2|]. eapply bind_runs; reflexivity. }
    split.
    { apply (rep_rebound _ _ nc nf c f st _ w); [done|].
      apply (rep_agree _ _ _ _ _ w3); [|apply cell_write_below; [done|];
        intros j Hj; by apply the_cell_set_unsubscribeFn_ne].
      apply (rep_agree _ _ _ _ _ w2); [done|]. apply frame_write_below; [done|].
      intros g Hg. by apply the_frame_init_subscription_ne. }
    split; [done|].
    cbn [register_cleanup]. rewrite isStopped_set_unsubscribeFn.
    change (the_cell w3 c) with (the_cell w2 c). by rewrite Hc2.
Qed.
End Nodes.

Lemma run_subscribe_follows fuel source h w :
  over_array source = true ->
  exists w',
    run_subscribe fuel source h w = (Returned (length (cells w)), w') /\
    log w' = log w ++ snd (m_subscribe h source [] []) /\
    isStopped (the_cell w' (length (cells w))) = m_stopped h source [] [].
Proof.
  intros Hover. unfold run_subscribe. rewrite bind_alloc_frame.
  set (f0 := length (frames w)). set (w1 := with_frames w (frames w ++ [Frame 0 None])).
  destruct (subscribe_follows fuel f0 h source Hover [] (length (cells w1)) (S f0) [] w1)
    as (w2 & Hrun & _ & Hlog & Hst); [done| |split; [lia|exact (f_equal subscription (the_frame_alloc w))]|].
  { subst w1. simpl. rewrite length_app. simpl. lia. }
  exists (snd (init_subscription f0 (length (cells w)) w2)). split.
  - eapply bind_runs; [exact Hrun|]. reflexivity.
  - split; [exact Hlog|exact Hst].
Qed.

(** ** The nodes as functions on lists *)

Lemma m_end_length h ops : forall st t, length (fst (m_end h ops st t)) = length st.
Proof.
  induction ops as [|op ops IH]; intros [|n st] t; try done.
  cbn [m_end]. destruct (n_stopped n); [done|].
  specialize (IH st t). destruct (m_end h ops st t). simpl in *. by rewrite IH.
Qed.

Lemma m_end_dead h ops : forall st t,
  length st = length ops -> dead st = true ->
  snd (m_end h ops st t) = [] /\ dead (fst (m_end h ops st t)) = true.
Proof.
  induction ops as [|op ops IH]; intros [|n st] t Hlen Hdead; try done.
  cbn [m_end]. destruct (n_stopped n) eqn:En; [done|].
  cbn [dead existsb] in Hdead. rewrite En in Hdead.
  destruct (IH st t) as [H1 H2]; [by inversion Hlen|done|].
  destruct (m_end h ops st t). simpl in *. done.
Qed.

Lemma sub_next_ok stopped st r :
  step_ok st r ->
  let m := m_sub_next stopped st r in
  length (snd (fst m)) = length st /\
  (stopped || dead st = true -> snd m = [] /\ (stopped || dead (snd (fst m)) = true)) /\
  (fst (fst m) <> None -> stopped = false /\ dead (snd (fst m)) = true).
Proof.
  intros (H1 & H2 & H3). cbn zeta. unfold m_sub_next. destruct stopped; [done|].
  destruct r as [[[x|] st1] out]; cbn [fst snd orb] in *.
  - split; [done|]. split; [done|]. intros _. split; [done|]. by apply H3.
  - done.
Qed.

Lemma forward_ok h ops stopped counter st r :
  length st = length ops -> step_ok st r ->
  step_ok (NState stopped counter :: st) (m_forward h ops stopped counter st r).
Proof.
  intros Hlen Hr. destruct (sub_next_ok stopped st r Hr) as (H1 & H2 & H3).
  unfold m_forward, step_ok. cbn [dead existsb n_stopped].
  destruct (m_sub_next stopped st r) as [[[x|] st1] out]; cbn [fst snd] in *.
  - destruct H3 as [-> Hd]; [done|].
    destruct (m_end_dead h ops st1 (Fails x)) as [E1 E2]; [congruence|done|].
    pose proof (m_end_length h ops st1 (Fails x)) as E3.
    destruct (m_end h ops st1 (Fails x)) as [st2 out2]. cbn [fst snd] in *.
    split; [simpl; congruence|]. split; [|done].
    intros Hdead. cbn [orb] in *. destruct (H2 Hdead) as [-> _]. by subst.
  - split; [simpl; congruence|]. split; [|done]. exact H2.
Qed.

Lemma fail_ok h ops stopped counter st e :
  length st = length ops ->
  step_ok (NState stopped counter :: st) (m_fail h ops stopped counter st e).
Proof.
  intros Hlen. unfold m_fail, step_ok. cbn [dead existsb n_stopped].
  destruct stopped; [done|]. cbn [orb].
  pose proof (m_end_length h ops st (Fails e)) as E3.
  pose proof (m_end_dead h ops st (Fails e) Hlen) as E.
  destruct (m_end h ops st (Fails e)) as [st2 out2]. cbn [fst snd] in *.
  split; [simpl; congruence|]. split; [|done].
  intros Hdead. by destruct (E Hdead).
Qed.

Lemma take_ok h ops count stopped counter st r :
  length st = length ops -> step_ok st r ->
  step_ok (NState stopped counter :: st) (m_take h ops count stopped counter st r).
Proof.
  intros Hlen Hr. destruct (sub_next_ok stopped st r Hr) as (H1 & H2 & H3).
  unfold m_take, step_ok. cbn [dead existsb n_stopped].
  destruct (Z.ltb counter count).
  2:{ cbn [fst snd dead existsb n_stopped]. done. }
  destruct (m_sub_next stopped st r) as [[[x|] st1] out]; cbn [fst snd] in *.
  - destruct H3 as [-> Hd]; [done|]. cbn [dead existsb n_stopped orb] in *.
    split; [simpl; congruence|]. split; [|done].
    intros Hdead. by destruct (H2 Hdead).
  - destruct (Z.geb (counter + 1) count).
    + destruct stopped.
      * cbn [fst snd dead existsb n_stopped orb] in *.
        split; [simpl; congruence|]. split; [|done]. intros _. by destruct H2.
      * pose proof (m_end_length h ops st1 Completes) as E3.
        pose proof (m_end_dead h ops st1 Completes) as E.
        destruct (m_end h ops st1 Completes) as [st2 out2].
        cbn [fst snd dead existsb n_stopped orb] in *.
        split; [simpl; congruence|]. split; [|done].
        intros Hdead. destruct (H2 Hdead) as [-> Hd]. destruct E as [-> _]; [congruence|done|done].
    + cbn [fst snd dead existsb n_stopped] in *.
      split; [simpl; congruence|]. split; [|done]. exact H2.
Qed.

Lemma skip_ok count stopped counter st r :
  step_ok st r ->
  step_ok (NState stopped counter :: st) (m_skip count stopped counter st r).
Proof.
  intros Hr. destruct (sub_next_ok stopped st r Hr) as (H1 & H2 & H3).
  unfold m_skip, step_ok. cbn [dead existsb n_stopped].
  destruct (Z.geb counter count).
  2:{ cbn [fst snd dead existsb n_stopped]. done. }
  destruct (m_sub_next stopped st r) as [[x st1] out]; cbn [fst snd dead existsb n_stopped] in *.
  split; [simpl; congruence|]. split; [exact H2|].
  intros Hx. destruct (H3 Hx) as [-> Hd]. done.
Qed.

Lemma m_next_ok h ops : next_returns h ->
  forall st v, length st = length ops -> step_ok st (m_next h ops st v).
Proof.
  intros Hn. induction ops as [|op ops IH]; intros [|[stopped counter] st] v Hlen; try done.
  - cbn [m_next]. destruct (h_next h) as [hn|] eqn:E; [|done].
    rewrite (Hn hn v E). done.
  - assert (Hl : length st = length ops) by (by inversion Hlen).
    cbn [m_next]. destruct op as [fn|predicate|count|count].
    + destruct (fn v); [by apply forward_ok; [|apply IH]|by apply fail_ok].
    + destruct (predicate v) as [[|]|e];
        [by apply forward_ok; [|apply IH]| |by apply fail_ok].
      unfold step_ok. cbn [fst snd]. done.
    + by apply take_ok; [|apply IH].
    + by apply skip_ok, IH.
Qed.

Lemma m_run_dead h ops : next_returns h ->
  forall vs st t, length st = length ops -> dead st = true -> m_run h ops st vs t = [].
Proof.
  intros Hn. induction vs as [|v vs IH]; intros st t Hlen Hdead.
  - cbn [m_run]. destruct t as [t|]; [|done]. by destruct (m_end_dead h ops st t Hlen Hdead).
  - cbn [m_run]. destruct (m_next_ok h ops Hn st v Hlen) as (H1 & H2 & _).
    destruct (m_next h ops st v) as [[r st1] out]. cbn [fst snd] in *.
    destruct (H2 Hdead) as [-> Hd]. apply IH; [congruence|done].
Qed.

Lemma m_run_consumer h vs t : next_returns h -> m_run h [] [] vs t = seen h (vs, t).
Proof.
  intros Hn. unfold seen. cbn [fst snd]. induction vs as [|v vs IH].
  - cbn [m_run m_end snd]. destruct t; by destruct (h_next h).
  - cbn [m_run m_next]. destruct (h_next h) as [hn|] eqn:E; [|done].
    simpl. by rewrite IH.
Qed.

(** A step of [m_run], by what [next] of the nodes after the first does. *)
Lemma m_run_step h ops st v vs t :
  m_run h ops st (v :: vs) t
  = snd (m_next h ops st v) ++ m_run h ops (snd (fst (m_next h ops st v))) vs t.
Proof. cbn [m_run]. by destruct (m_next h ops st v) as [[r st1] out]. Qed.

Lemma m_run_nil_stage h op ops counter st t :
  m_run h (op :: ops) (NState false counter :: st) [] t = m_run h ops st [] t.
Proof.
  cbn [m_run m_end n_stopped]. destruct t as [t|]; [|done]. by destruct (m_end h ops st t).
Qed.

(** [map] and [filter] passing a value on from a live cell: either the cell
    stays live, or the nodes below threw and a cell among them is terminal. *)
Lemma forward_cases h ops counter st u :
  next_returns h -> length st = length ops ->
  let n := m_next h ops st u in
  let m := m_forward h ops false counter st n in
  snd m = snd n /\
  length (snd (fst n)) = length ops /\
  (snd (fst m) = NState false counter :: snd (fst n) \/
   (exists st2, snd (fst m) = NState true counter :: st2 /\ length st2 = length ops) /\
   dead (snd (fst n)) = true).
Proof.
  intros Hn Hlen. cbn zeta. unfold m_forward, m_sub_next.
  destruct (m_next_ok h ops Hn st u Hlen) as (H1 & _ & H3).
  destruct (m_next h ops st u) as [[[x|] st1] out]; cbn [fst snd] in *.
  - assert (Hd : dead st1 = true) by (by apply H3).
    destruct (m_end_dead h ops st1 (Fails not_a_function)) as [E1 E2]; [congruence|done|].
    pose proof (m_end_length h ops st1 (Fails not_a_function)) as E3.
    destruct (m_end h ops st1 (Fails not_a_function)) as [st2 out2]. cbn [fst snd] in *.
    subst out2. rewrite app_nil_r. split; [done|]. split; [congruence|].
    right. split; [|done]. exists st2. split; [done|congruence].
  - split; [done|]. split; [congruence|]. by left.
Qed.

Lemma m_run_stopped h op ops counter st vs t :
  next_returns h -> length st = length ops ->
  m_run h (op :: ops) (NState true counter :: st) vs t = [].
Proof. intros Hn Hlen. apply m_run_dead; [done|simpl; congruence|done]. Qed.

Lemma fail_run h ops counter st e vs t :
  next_returns h -> length st = length ops ->
  forall op,
  let m := m_fail h ops false counter st e in
  snd m ++ m_run h (op :: ops) (snd (fst m)) vs t = m_run h ops st [] (Some (Fails e)).
Proof.
  intros Hn Hlen op. cbn zeta. unfold m_fail. cbn [m_run].
  pose proof (m_end_length h ops st (Fails e)) as E3.
  destruct (m_end h ops st (Fails e)) as [st2 out2]. cbn [fst snd] in *.
  rewrite m_run_stopped by (done || congruence). by rewrite app_nil_r.
Qed.

Lemma m_run_map h fn ops counter t : next_returns h ->
  forall vs st, length st = length ops ->
  m_run h (OpMap fn :: ops) (NState false counter :: st) vs t
  = m_run h ops st (fst (map_stream fn vs t)) (snd (map_stream fn vs t)).
Proof.
  intros Hn. induction vs as [|v vs IH]; intros st Hlen.
  - apply m_run_nil_stage.
  - rewrite m_run_step. cbn [m_next map_stream]. destruct (fn v) as [u|e].
    + destruct (forward_cases h ops counter st u Hn Hlen) as (E1 & E2 & E3).
      cbn zeta in *. rewrite E1.
      destruct (map_stream fn vs t) as [us t'] eqn:Es. cbn [fst snd] in *.
      rewrite m_run_step. f_equal.
      destruct E3 as [->|[(st2 & -> & Hl2) Hd]].
      * by rewrite IH.
      * rewrite m_run_stopped by done. by rewrite m_run_dead.
    + by apply fail_run.
Qed.

Lemma m_run_filter h predicate ops counter t : next_returns h ->
  forall vs st, length st = length ops ->
  m_run h (OpFilter predicate :: ops) (NState false counter :: st) vs t
  = m_run h ops st (fst (filter_stream predicate vs t)) (snd (filter_stream predicate vs t)).
Proof.
  intros Hn. induction vs as [|v vs IH]; intros st Hlen.
  - apply m_run_nil_stage.
  - rewrite m_run_step. cbn [m_next filter_stream]. destruct (predicate v) as [[|]|e].
    + destruct (forward_cases h ops counter st v Hn Hlen) as (E1 & E2 & E3).
      cbn zeta in *. rewrite E1.
      destruct (filter_stream predicate vs t) as [us t'] eqn:Es. cbn [fst snd] in *.
      rewrite m_run_step. f_equal.
      destruct E3 as [->|[(st2 & -> & Hl2) Hd]].
      * by rewrite IH.
      * rewrite m_run_stopped by done. by rewrite m_run_dead.
    + cbn [fst snd app]. by apply IH.
    + by apply fail_run.
Qed.

Lemma take_stream_nil r t : 0 < r -> take_stream r [] t = ([], t).
Proof.
  intros Hr. unfold take_stream. destruct (Z.leb_spec r 0); [lia|].
  destruct (Nat.leb_spec (Z.to_nat r) (@length value [])); [simpl in *; lia|done].
Qed.

Lemma take_stream_last v vs t : take_stream 1 (v :: vs) t = ([v], Some Completes).
Proof. done. Qed.

Lemma take_stream_cons r v vs t :
  1 < r ->
  take_stream r (v :: vs) t
  = (v :: fst (take_stream (r - 1) vs t), snd (take_stream (r - 1) vs t)).
Proof.
  intros Hr. unfold take_stream.
  destruct (Z.leb_spec r 0); [lia|]. destruct (Z.leb_spec (r - 1) 0); [lia|].
  replace (Z.to_nat r) with (S (Z.to_nat (r - 1))) by lia. cbn [length Nat.leb firstn].
  by destruct (Nat.leb (Z.to_nat (r - 1)) (length vs)).
Qed.

Lemma take_stream_head r v vs t :
  0 < r -> exists us t', take_stream r (v :: vs) t = (v :: us, t').
Proof.
  intros Hr. destruct (decide (r = 1)) as [->|Hne].
  - by exists [], (Some Completes).
  - rewrite take_stream_cons by lia. by eexists _, _.
Qed.

Lemma m_run_take h count ops t : next_returns h ->
  forall vs st counter, length st = length ops -> counter < count ->
  m_run h (OpTake count :: ops) (NState false counter :: st) vs t
  = m_run h ops st (fst (take_stream (count - counter) vs t))
      (snd (take_stream (count - counter) vs t)).
Proof.
  intros Hn. induction vs as [|v vs IH]; intros st counter Hlen Hlt.
  - rewrite take_stream_nil by lia. apply m_run_nil_stage.
  - rewrite m_run_step. cbn [m_next]. unfold m_take, m_sub_next.
    destruct (Z.ltb_spec counter count); [|lia].
    destruct (m_next_ok h ops Hn st v Hlen) as (H1 & _ & H3).
    destruct (m_next h ops st v) as [[[x|] st1] out] eqn:En; cbn [fst snd] in *.
    + assert (Hd : dead st1 = true) by (by apply H3).
      destruct (take_stream_head (count - counter) v vs t) as (us & t' & ->); [lia|].
      cbn [fst snd]. rewrite m_run_step, En. cbn [fst snd].
      rewrite !m_run_dead; try done; simpl; congruence.
    + destruct (Z.geb_spec (counter + 1) count).
      * replace (count - counter) with 1 by lia. rewrite take_stream_last. cbn [fst snd].
        rewrite m_run_step, En. cbn [fst snd m_run].
        pose proof (m_end_length h ops st1 Completes) as E3.
        destruct (m_end h ops st1 Completes) as [st2 out2]. cbn [fst snd] in *.
        rewrite m_run_stopped by (done || congruence). by rewrite app_nil_r.
      * rewrite take_stream_cons by lia. cbn [fst snd].
        rewrite m_run_step, En. cbn [fst snd]. f_equal.
        rewrite IH by (congruence || lia). by replace (count - (counter + 1)) with (count - counter - 1) by lia.
Qed.

Lemma m_run_skip h count ops t : next_returns h ->
  forall vs st counter, length st = length ops ->
  m_run h (OpSkip count :: ops) (NState false counter :: st) vs t
  = m_run h ops st (skipn (Z.to_nat (count - counter)) vs) t.
Proof.
  intros Hn. induction vs as [|v vs IH]; intros st counter Hlen.
  - rewrite skipn_nil. apply m_run_nil_stage.
  - rewrite m_run_step. cbn [m_next]. unfold m_skip, m_sub_next.
    destruct (Z.geb_spec counter count).
    + destruct (m_next_ok h ops Hn st v Hlen) as (H1 & _ & _).
      replace (Z.to_nat (count - counter)) with 0%nat in * by lia. cbn [skipn].
      rewrite m_run_step.
      destruct (m_next h ops st v) as [[[x|] st1] out] eqn:En; cbn [fst snd] in *;
        f_equal; rewrite IH by congruence;
        by replace (Z.to_nat (count - counter)) with 0%nat by lia.
    + cbn [fst snd app]. rewrite IH by done.
      replace (Z.to_nat (count - counter)) with (S (Z.to_nat (count - (counter + 1)))) by lia.
      done.
Qed.

Lemma m_from_loop_run h ops : next_returns h ->
  forall array st, length st = length ops ->
  let m := m_from_loop h ops st array in
  length (snd (fst m)) = length ops /\
  snd m ++ snd (m_end h ops (snd (fst m))
                  (match fst (fst m) with None => Completes | Some e => Fails e end))
  = m_run h ops st array (Some Completes).
Proof.
  intros Hn. induction array as [|x rest IH]; intros st Hlen; cbn zeta.
  - done.
  - cbn [m_from_loop]. rewrite m_run_step. unfold m_sub_next.
    destruct (m_next_ok h ops Hn st x Hlen) as (H1 & _ & H3).
    destruct (m_next h ops st x) as [[[e|] st1] out]; cbn [fst snd] in *.
    + assert (Hd : dead st1 = true) by (by apply H3).
      split; [congruence|].
      destruct (m_end_dead h ops st1 (Fails not_a_function)) as [-> _]; [congruence|done|].
      by rewrite m_run_dead by (done || congruence).
    + destruct (IH st1) as [E1 E2]; [congruence|]. cbn zeta in *.
      destruct (m_from_loop h ops st1 rest) as [[r st2] out2]. cbn [fst snd] in *.
      split; [done|]. by rewrite <- app_assoc, E2.
Qed.

Lemma m_subscribe_run h source : next_returns h -> over_array source = true ->
  forall ops st, length st = length ops ->
  snd (m_subscribe h source ops st)
  = m_run h ops st (fst (delivered source)) (snd (delivered source)).
Proof.
  intros Hn.
  induction source as [p|array|fn source IH|predicate source IH|count source IH|count source IH];
    intros Hover ops st Hlen; [done|..]; cbn [over_array] in Hover; cbn [m_subscribe delivered].
  - destruct (m_from_loop_run h ops Hn array st Hlen) as [_ E]. cbn zeta in E.
    destruct (m_from_loop h ops st array) as [[[e|] st1] out]; cbn [fst snd] in *;
      [destruct (m_end h ops st1 (Fails e))|destruct (m_end h ops st1 Completes)]; exact E.
  - specialize (IH Hover (OpMap fn :: ops) (NState false 0 :: st)).
    destruct (m_subscribe h source (OpMap fn :: ops) (NState false 0 :: st)) as [st1 out].
    cbn [snd] in *. rewrite IH by (simpl; congruence).
    destruct (delivered source) as [vs t]. by apply m_run_map.
  - specialize (IH Hover (OpFilter predicate :: ops) (NState false 0 :: st)).
    destruct (m_subscribe h source (OpFilter predicate :: ops) (NState false 0 :: st))
      as [st1 out].
    cbn [snd] in *. rewrite IH by (simpl; congruence).
    destruct (delivered source) as [vs t]. by apply m_run_filter.
  - destruct (delivered source) as [vs t] eqn:Ed. unfold take_stream.
    destruct (Z.leb_spec count 0) as [Hle|Hgt]; [done|].
    specialize (IH Hover (OpTake count :: ops) (NState false 0 :: st)).
    destruct (m_subscribe h source (OpTake count :: ops) (NState false 0 :: st)) as [st1 out].
    cbn [fst snd] in *. rewrite IH by (simpl; congruence).
    rewrite m_run_take by (done || lia). unfold take_stream.
    replace (count - 0) with count by lia. by destruct (Z.leb_spec count 0); [lia|].
  - specialize (IH Hover (OpSkip count :: ops) (NState false 0 :: st)).
    destruct (m_subscribe h source (OpSkip count :: ops) (NState false 0 :: st)) as [st1 out].
    cbn [snd] in *. rewrite IH by (simpl; congruence).
    destruct (delivered source) as [vs t]. rewrite m_run_skip by done.
    by replace (count - 0) with count by lia.
Qed.

(** ** The cells of a pipeline end up terminal *)

Lemma m_end_stops h ops : forall st t,
  length st = length ops -> closed st ->
  forallb n_stopped (fst (m_end h ops st t)) = true.
Proof.
  induction ops as [|op ops IH]; intros [|n st] t Hlen Hc; try done.
  destruct Hc as [Hc1 Hc2]. cbn [m_end]. destruct (n_stopped n) eqn:En.
  - cbn [fst forallb]. rewrite En. by apply Hc1.
  - specialize (IH st t). destruct (m_end h ops st t) as [st1 out]. cbn [fst forallb n_stopped] in *.
    apply IH; [by inversion Hlen|done].
Qed.

Lemma stopped_closed st : forallb n_stopped st = true -> closed st.
Proof.
  induction st as [|n st IH]; [done|]. cbn [forallb closed]. intros [H1 H2]%andb_prop.
  split; [done|by apply IH].
Qed.

Lemma m_end_closed h ops st t : length st = length ops -> closed st -> closed (fst (m_end h ops st t)).
Proof. intros Hlen Hc. by apply stopped_closed, m_end_stops. Qed.

Lemma sub_next_closed stopped counter st r :
  closed (NState stopped counter :: st) -> (closed st -> closed (snd (fst r))) ->
  closed (NState stopped counter :: snd (fst (m_sub_next stopped st r))).
Proof.
  intros [Hc1 Hc2] Hr. unfold m_sub_next. destruct stopped; [done|].
  destruct r as [[[x|] st1] out]; cbn [fst snd closed n_stopped] in *; by split; [|apply Hr].
Qed.

Lemma m_next_closed h ops : next_returns h ->
  forall st v, length st = length ops -> closed st -> closed (snd (fst (m_next h ops st v))).
Proof.
  intros Hn. induction ops as [|op ops IH]; intros [|[stopped counter] st] v Hlen Hc; try done.
  - cbn [m_next]. by destruct (h_next h).
  - assert (Hl : length st = length ops) by (by inversion Hlen).
    pose proof (sub_next_closed stopped counter st (m_next h ops st v) Hc (IH st v Hl)) as Hsub.
    destruct (m_next_ok h ops Hn st v Hl) as (Hlen1 & _).
    assert (Hfail : forall e, closed (snd (fst (m_fail h ops stopped counter st e)))).
    { intros e. unfold m_fail. destruct stopped; [done|].
      pose proof (m_end_stops h ops st (Fails e) Hl (proj2 Hc)) as E.
      destruct (m_end h ops st (Fails e)) as [st2 out2]. cbn [fst snd closed n_stopped] in *.
      split; [done|by apply stopped_closed]. }
    assert (Hforward : forall u,
      closed (snd (fst (m_forward h ops stopped counter st (m_next h ops st u))))).
    { intros u. unfold m_forward.
      pose proof (sub_next_closed stopped counter st (m_next h ops st u) Hc (IH st u Hl)) as Hs.
      destruct (m_next_ok h ops Hn st u Hl) as (Hlu & _).
      assert (Hlu' : length (snd (fst (m_sub_next stopped st (m_next h ops st u)))) = length ops).
      { unfold m_sub_next. destruct stopped; [done|].
        by destruct (m_next h ops st u) as [[[x|] st1] out]; cbn [fst snd] in *; congruence. }
      destruct (m_sub_next stopped st (m_next h ops st u)) as [[[x|] st1] out];
        cbn [fst snd] in *; [|done].
      pose proof (m_end_stops h ops st1 (Fails x) Hlu' (proj2 Hs)) as E.
      destruct (m_end h ops st1 (Fails x)) as [st2 out2]. cbn [fst snd closed n_stopped] in *.
      split; [done|by apply stopped_closed]. }
    assert (Hlen1' : length (snd (fst (m_sub_next stopped st (m_next h ops st v)))) = length ops).
    { unfold m_sub_next. destruct stopped; [done|].
      by destruct (m_next h ops st v) as [[[x|] st1] out]; cbn [fst snd] in *; congruence. }
    cbn [m_next]. destruct op as [fn|predicate|count|count].
    + destruct (fn v); [apply Hforward|apply Hfail].
    + destruct (predicate v) as [[|]|e]; [apply Hforward|done|apply Hfail].
    + unfold m_take. destruct (Z.ltb counter count); [|done].
      destruct (m_sub_next stopped st (m_next h ops st v)) as [[[x|] st1] out];
        cbn [fst snd] in *; [done|].
      destruct (Z.geb (counter + 1) count); [|done].
      destruct stopped; [done|].
      pose proof (m_end_stops h ops st1 Completes Hlen1' (proj2 Hsub)) as E.
      destruct (m_end h ops st1 Completes) as [st2 out2]. cbn [fst snd closed n_stopped] in *.
      split; [done|by apply stopped_closed].
    + unfold m_skip. destruct (Z.geb counter count); [|done].
      by destruct (m_sub_next stopped st (m_next h ops st v)) as [[x st1] out].
Qed.

Lemma m_from_loop_closed h ops : next_returns h ->
  forall array st, length st = length ops -> closed st ->
  closed (snd (fst (m_from_loop h ops st array))).
Proof.
  intros Hn. induction array as [|x rest IH]; intros st Hlen Hc; [done|].
  cbn [m_from_loop]. unfold m_sub_next.
  pose proof (m_next_closed h ops Hn st x Hlen Hc) as H1.
  destruct (m_next_ok h ops Hn st x Hlen) as (H2 & _).
  destruct (m_next h ops st x) as [[[e|] st1] out]; cbn [fst snd] in *; [done|].
  specialize (IH st1). destruct (m_from_loop h ops st1 rest) as [[r st2] out2].
  cbn [fst snd] in *. apply IH; [congruence|done].
Qed.

Lemma m_subscribe_stops h source : next_returns h -> over_array source = true ->
  forall ops st, length st = length ops -> closed st ->
  length (fst (m_subscribe h source ops st)) = length ops /\
  forallb n_stopped (fst (m_subscribe h source ops st)) = true /\
  m_stopped h source ops st = true.
Proof.
  intros Hn.
  induction source as [p|array|fn source IH|predicate source IH|count source IH|count source IH];
    intros Hover ops st Hlen Hc; [done|..]; cbn [over_array] in Hover;
    cbn [m_subscribe m_stopped].
  - destruct (m_from_loop_run h ops Hn array st Hlen) as [E1 _].
    pose proof (m_from_loop_closed h ops Hn array st Hlen Hc) as E2. cbn zeta in *.
    destruct (m_from_loop h ops st array) as [[[e|] st1] out]; cbn [fst snd] in *.
    + pose proof (m_end_stops h ops st1 (Fails e) E1 E2) as E3.
      pose proof (m_end_length h ops st1 (Fails e)) as E4.
      destruct (m_end h ops st1 (Fails e)). cbn [fst] in *. split; [congruence|done].
    + pose proof (m_end_stops h ops st1 Completes E1 E2) as E3.
      pose proof (m_end_length h ops st1 Completes) as E4.
      destruct (m_end h ops st1 Completes). cbn [fst] in *. split; [congruence|done].
  - destruct (IH Hover (OpMap fn :: ops) (NState false 0 :: st)) as (E1 & E2 & _);
      [simpl; congruence|by split|].
    destruct (m_subscribe h source (OpMap fn :: ops) (NState false 0 :: st)) as [[|n st1] out];
      [done|]. cbn [fst snd tail forallb length] in *.
    apply andb_prop in E2 as [E2 E3]. split; [by inversion E1|done].
  - destruct (IH Hover (OpFilter predicate :: ops) (NState false 0 :: st)) as (E1 & E2 & _);
      [simpl; congruence|by split|].
    destruct (m_subscribe h source (OpFilter predicate :: ops) (NState false 0 :: st))
      as [[|n st1] out]; [done|]. cbn [fst snd tail forallb length] in *.
    apply andb_prop in E2 as [E2 E3]. split; [by inversion E1|done].
  - destruct (Z.leb count 0).
    { split; [by rewrite m_end_length|]. split; [by apply m_end_stops|done]. }
    destruct (IH Hover (OpTake count :: ops) (NState false 0 :: st)) as (E1 & E2 & _);
      [simpl; congruence|by split|].
    destruct (m_subscribe h source (OpTake count :: ops) (NState false 0 :: st))
      as [[|n st1] out]; [done|]. cbn [fst snd tail forallb length] in *.
    apply andb_prop in E2 as [E2 E3]. split; [by inversion E1|done].
  - destruct (IH Hover (OpSkip count :: ops) (NState false 0 :: st)) as (E1 & E2 & _);
      [simpl; congruence|by split|].
    destruct (m_subscribe h source (OpSkip count :: ops) (NState false 0 :: st))
      as [[|n st1] out]; [done|]. cbn [fst snd tail forallb length] in *.
    apply andb_prop in E2 as [E2 E3]. split; [by inversion E1|done].
Qed.

(** What subscribing to a pipeline over an array does, for a consumer whose
    [next] callback returns. *)
Lemma run_subscribe_pipeline fuel source h w :
  over_array source = true -> next_returns h ->
  exists w',
    run_subscribe fuel source h w = (Returned (length (cells w)), w') /\
    log w' = log w ++ seen h (delivered source) /\
    isStopped (the_cell w' (length (cells w))) = true.
Proof.
  intros Hover Hn.
  destruct (run_subscribe_follows fuel source h w Hover) as (w' & Hrun & Hlog & Hst).
  exists w'. split; [done|].
  rewrite Hlog, Hst, (m_subscribe_run h source Hn Hover [] []) by done.
  destruct (m_subscribe_stops h source Hn Hover [] []) as (_ & _ & E); [done|done|].
  split; [|done]. f_equal. rewrite m_run_consumer by done. by destruct (delivered source).
Qed.

(** * What pipelines over an array deliver *)

Lemma map_stream_total fn g t vs :
  (forall u, In u vs -> fn u = Normal (g u)) -> map_stream fn vs t = (map g vs, t).
Proof.
  induction vs as [|v vs IH]; intros H; [done|].
  cbn [map_stream map]. rewrite (H v) by (by left).
  rewrite IH; [done|]. intros u Hu. apply H. by right.
Qed.

Lemma map_stream_throw fn g t pre v post e :
  (forall u, In u pre -> fn u = Normal (g u)) -> fn v = Throw e ->
  map_stream fn (pre ++ v :: post) t = (map g pre, Some (Fails e)).
Proof.
  intros H Hv. induction pre as [|u pre IH]; cbn [map_stream map app].
  - by rewrite Hv.
  - rewrite (H u) by (by left). rewrite IH; [done|]. intros u' Hu'. apply H. by right.
Qed.

Lemma filter_stream_total predicate p t vs :
  (forall u, In u vs -> predicate u = Normal (p u)) ->
  filter_stream predicate vs t = (List.filter p vs, t).
Proof.
  induction vs as [|v vs IH]; intros H; [done|].
  cbn [filter_stream List.filter]. rewrite (H v) by (by left).
  rewrite IH by (intros u Hu; apply H; by right). by destruct (p v).
Qed.

Lemma map_stream_fusion f g t vs :
  map_stream g (fst (map_stream f vs t)) (snd (map_stream f vs t))
  = map_stream (and_then f g) vs t.
Proof.
  induction vs as [|v vs IH]; [done|].
  cbn [map_stream]. unfold and_then at 1. destruct (f v) as [u|e]; [|done].
  destruct (map_stream f vs t) as [us t']. cbn [fst snd map_stream] in *.
  destruct (g u); [|done]. by rewrite IH.
Qed.

(** X1: subscribing to a pipeline of [map], [filter], [take] and [skip] over
    [Observable.from] or [Observable.of], with an Observer whose [next]
    callback, if there is one, returns normally: [subscribe] returns the
    Subscription; the Observer has seen, in order, exactly the values the
    operators pass on, read as functions on lists, and then the one ending;
    and the Subscription is terminal already. *)
Theorem pipeline_delivers fuel source h w :
  over_array source = true -> next_returns h ->
  let r := run_subscribe fuel source h w in
  fst r = Returned (length (cells w)) /\
  log (snd r) = log w ++ seen h (delivered source) /\
  isStopped (the_cell (snd r) (length (cells w))) = true.
Proof.
  intros Hover Hn. cbn zeta.
  by destruct (run_subscribe_pipeline fuel source h w Hover Hn) as (w' & -> & H1 & H2).
Qed.

Lemma pipeline_delivers_witness :
  let source := Take 2 (Filter is_odd (Skip 1 (From [VNum 1; VNum 2; VNum 3; VNum 4; VNum 5]))) in
  let r := run_subscribe 0 source recorder empty_world in
  fst r = Returned 0%nat /\
  log (snd r) = [OnNext (VNum 3); OnNext (VNum 5); OnComplete] /\
  isStopped (the_cell (snd r) 0) = true.
Proof.
  apply (pipeline_delivers 0
           (Take 2 (Filter is_odd (Skip 1 (From [VNum 1; VNum 2; VNum 3; VNum 4; VNum 5]))))
           recorder empty_world).
  - reflexivity.
  - intros hn v [= <-]. reflexivity.
Defined.

(** X2: when [fn] returns normally on every value the source delivers,
    [source.map(fn)] delivers the images of those values, in the same order,
    and ends as the source does. *)
Theorem map_delivers_images fuel fn g source h w vs t :
  over_array source = true -> next_returns h ->
  delivered source = (vs, t) ->
  (forall u, In u vs -> fn u = Normal (g u)) ->
  let r := run_subscribe fuel (Map fn source) h w in
  fst r = Returned (length (cells w)) /\
  log (snd r) = log w ++ seen h (map g vs, t).
Proof.
  intros Hover Hn Hd Hfn. cbn zeta.
  destruct (run_subscribe_pipeline fuel (Map fn source) h w Hover Hn) as (w' & -> & H1 & _).
  cbn [fst snd]. split; [done|]. rewrite H1. cbn [delivered]. rewrite Hd. by rewrite (map_stream_total fn g).
Qed.

Lemma map_delivers_images_witness :
  let r := run_subscribe 0 (Map twice (From [VNum 1; VNum 2; VNum 3])) recorder empty_world in
  fst r = Returned 0%nat /\
  log (snd r) = [OnNext (VNum 2); OnNext (VNum 4); OnNext (VNum 6); OnComplete].
Proof.
  apply (map_delivers_images 0 twice
           (fun v => match v with VNum n => VNum (2 * n) | _ => v end)
           (From [VNum 1; VNum 2; VNum 3]) recorder empty_world
           [VNum 1; VNum 2; VNum 3] (Some Completes)).
  - reflexivity.
  - intros hn v [= <-]. reflexivity.
  - reflexivity.
  - intros u [<-|[<-|[<-|[]]]]; reflexivity.
Defined.

(** X3: when [fn] throws [e] on a value the source delivers, and returns
    normally on the values before it, [source.map(fn)] delivers the images of
    the values before it and then [error(e)]; nothing of what the source
    delivers afterwards, nor its own ending, reaches the Observer. *)
Theorem map_stops_at_first_throw fuel fn g source h w pre v post t e :
  over_array source = true -> next_returns h ->
  delivered source = (pre ++ v :: post, t) ->
  (forall u, In u pre -> fn u = Normal (g u)) ->
  fn v = Throw e ->
  let r := run_subscribe fuel (Map fn source) h w in
  fst r = Returned (length (cells w)) /\
  log (snd r) = log w ++ seen h (map g pre, Some (Fails e)).
Proof.
  intros Hover Hn Hd Hfn Hv. cbn zeta.
  destruct (run_subscribe_pipeline fuel (Map fn source) h w Hover Hn) as (w' & -> & H1 & _).
  cbn [fst snd]. split; [done|]. rewrite H1. cbn [delivered]. rewrite Hd.
  by rewrite (map_stream_throw fn g t pre v post e).
Qed.

Lemma map_stops_at_first_throw_witness :
  let r := run_subscribe 0 (Map twice (From [VNum 1; VStr "two"; VNum 3])) recorder empty_world in
  fst r = Returned 0%nat /\
  log (snd r) = [OnNext (VNum 2); OnError boom].
Proof.
  apply (map_stops_at_first_throw 0 twice
           (fun v => match v with VNum n => VNum (2 * n) | _ => v end)
           (From [VNum 1; VStr "two"; VNum 3]) recorder empty_world
           [VNum 1] (VStr "two") [VNum 3] (Some Completes) boom).
  - reflexivity.
  - intros hn v [= <-]. reflexivity.
  - reflexivity.
  - intros u [<-|[]]. reflexivity.
  - reflexivity.
Defined.

(** X4: when [predicate] returns normally on every value the source
    delivers, [source.filter(predicate)] delivers those of them on which it
    returns true, in the same order, and ends as the source does. *)
Theorem filter_delivers_matching fuel predicate p source h w vs t :
  over_array source = true -> next_returns h ->
  delivered source = (vs, t) ->
  (forall u, In u vs -> predicate u = Normal (p u)) ->
  let r := run_subscribe fuel (Filter predicate source) h w in
  fst r = Returned (length (cells w)) /\
  log (snd r) = log w ++ seen h (List.filter p vs, t).
Proof.
  intros Hover Hn Hd Hp. cbn zeta.
  destruct (run_subscribe_pipeline fuel (Filter predicate source) h w Hover Hn)
    as (w' & -> & H1 & _).
  cbn [fst snd]. split; [done|]. rewrite H1. cbn [delivered]. rewrite Hd.
  by rewrite (filter_stream_total predicate p).
Qed.

Lemma filter_delivers_matching_witness :
  let r := run_subscribe 0 (Filter is_odd (From [VNum 1; VNum 2; VNum 3])) recorder empty_world in
  fst r = Returned 0%nat /\
  log (snd r) = [OnNext (VNum 1); OnNext (VNum 3); OnComplete].
Proof.
  apply (filter_delivers_matching 0 is_odd
           (fun v => match v with VNum n => Z.odd n | _ => false end)
           (From [VNum 1; VNum 2; VNum 3]) recorder empty_world
           [VNum 1; VNum 2; VNum 3] (Some Completes)).
  - reflexivity.
  - intros hn v [= <-]. reflexivity.
  - reflexivity.
  - intros u [<-|[<-|[<-|[]]]]; reflexivity.
Defined.

(** X5: for [count > 0], [source.take(count)] over a source that delivers at
    least [count] values delivers the first [count] of them and then
    [complete], whatever the source delivers afterwards and however it ends;
    over a source that delivers fewer it delivers them all and ends as the
    source does. *)
Theorem take_delivers_prefix fuel count source h w vs t :
  over_array source = true -> next_returns h ->
  delivered source = (vs, t) ->
  0 < count ->
  let r := run_subscribe fuel (Take count source) h w in
  fst r = Returned (length (cells w)) /\
  ((Z.to_nat count <= length vs)%nat ->
   log (snd r) = log w ++ seen h (firstn (Z.to_nat count) vs, Some Completes)) /\
  ((length vs < Z.to_nat count)%nat -> log (snd r) = log w ++ seen h (vs, t)).
Proof.
  intros Hover Hn Hd Hcount. cbn zeta.
  destruct (run_subscribe_pipeline fuel (Take count source) h w Hover Hn)
    as (w' & -> & H1 & _).
  cbn [fst snd]. split; [done|]. rewrite H1. cbn [delivered]. rewrite Hd. unfold take_stream.
  destruct (Z.leb_spec count 0); [lia|].
  destruct (Nat.leb_spec (Z.to_nat count) (length vs)); split; intros; (done || lia).
Qed.

Lemma take_delivers_prefix_witness :
  let source := Map twice (From [VNum 1; VNum 2; VStr "three"]) in
  let r := run_subscribe 0 (Take 2 source) recorder empty_world in
  fst r = Returned 0%nat /\
  log (snd r) = [OnNext (VNum 2); OnNext (VNum 4); OnComplete].
Proof.
  destruct (take_delivers_prefix 0 2 (Map twice (From [VNum 1; VNum 2; VStr "three"]))
              recorder empty_world [VNum 2; VNum 4] (Some (Fails boom))) as (H1 & H2 & _).
  - reflexivity.
  - intros hn v [= <-]. reflexivity.
  - reflexivity.
  - lia.
  - split; [exact H1|]. apply H2. simpl. lia.
Defined.

(** X6: [source.skip(count)] delivers what the source delivers but for the
    first [count] values, and ends as the source does; for [count <= 0] it
    leaves nothing out. *)
Theorem skip_delivers_rest fuel count source h w vs t :
  over_array source = true -> next_returns h ->
  delivered source = (vs, t) ->
  let r := run_subscribe fuel (Skip count source) h w in
  fst r = Returned (length (cells w)) /\
  log (snd r) = log w ++ seen h (skipn (Z.to_nat count) vs, t).
Proof.
  intros Hover Hn Hd. cbn zeta.
  destruct (run_subscribe_pipeline fuel (Skip count source) h w Hover Hn)
    as (w' & -> & H1 & _).
  cbn [fst snd]. split; [done|]. rewrite H1. cbn [delivered]. by rewrite Hd.
Qed.

Lemma skip_delivers_rest_witness :
  let r := run_subscribe 0 (Skip 2 (From [VNum 1; VNum 2; VNum 3])) recorder empty_world in
  fst r = Returned 0%nat /\
  log (snd r) = [OnNext (VNum 3); OnComplete].
Proof.
  apply (skip_delivers_rest 0 2 (From [VNum 1; VNum 2; VNum 3]) recorder empty_world
           [VNum 1; VNum 2; VNum 3] (Some Completes)).
  - reflexivity.
  - intros hn v [= <-]. reflexivity.
  - reflexivity.
Defined.

(** X7: two [map]s in a row deliver what one [map] with the composed function
    delivers: [source.map(f).map(g)] and [source.map(v => g(f(v)))] show the
    Observer the same callbacks, also when [f] or [g] throws. *)
Theorem map_fusion fuel f g source h w :
  over_array source = true -> next_returns h ->
  log (snd (run_subscribe fuel (Map g (Map f source)) h w))
  = log (snd (run_subscribe fuel (Map (and_then f g) source) h w)).
Proof.
  intros Hover Hn.
  destruct (run_subscribe_pipeline fuel (Map g (Map f source)) h w Hover Hn)
    as (w1 & -> & H1 & _).
  destruct (run_subscribe_pipeline fuel (Map (and_then f g) source) h w Hover Hn)
    as (w2 & -> & H2 & _).
  cbn [snd]. rewrite H1, H2. cbn [delivered].
  destruct (delivered source) as [vs t].
  pose proof (map_stream_fusion f g t vs) as E.
  destruct (map_stream f vs t) as [us t']. cbn [fst snd] in E. by rewrite E.
Qed.

Lemma map_fusion_witness :
  log (snd (run_subscribe 0 (Map twice (Map twice (From [VNum 1; VStr "two"]))) recorder
              empty_world))
  = log (snd (run_subscribe 0 (Map (and_then twice twice) (From [VNum 1; VStr "two"])) recorder
                empty_world)).
Proof.
  apply (map_fusion 0 twice twice (From [VNum 1; VStr "two"]) recorder empty_world).
  - reflexivity.
  - intros hn v [= <-]. reflexivity.
Defined.

(** * Faults of callbacks and of cleanups *)

(** A callback of the consumer running when its subscription is terminal
    already: whatever it does, the store stays as it is. *)
Lemma react_terminal fuel f id r w :
  isStopped (the_cell w id) = true -> own_subscription w f id ->
  exists res, react fuel f r w = (res, w) /\ res <> OutOfFuel.
Proof.
  intros Hs Hown. destruct r; simpl; [by eexists..|].
  unfold bind, get_subscription. destruct (subscription (the_frame w f)) as [s|] eqn:E.
  - rewrite (Hown s E). rewrite unsubscribe_stopped by done. by eexists.
  - by eexists.
Qed.

(** The callback part of a terminal transition (lines 56-62 and 72-78). *)
Lemma terminal_callback_runs fuel f id h t w :
  isStopped (the_cell w id) = true -> own_subscription w f id ->
  match t with
  | ByError e =>
      match error (consumer fuel f h) with
      | Some on_error => try_catch (on_error e) (fun _ => ret tt)
      | None => ret tt
      end w
  | ByComplete =>
      match complete (consumer fuel f h) with
      | Some on_complete => try_catch on_complete (fun _ => ret tt)
      | None => ret tt
      end w
  | ByUnsubscribe => ret tt w
  end = (Returned tt, with_log w (log w ++ terminal_events h t)).
Proof.
  intros Hs Hown.
  assert (H : forall ev r, try_catch (emit ev ;; react fuel f r) (fun _ => ret tt) w
                           = (Returned tt, with_log w (log w ++ [ev]))).
  { intros ev r. unfold try_catch, bind at 1, emit.
    destruct (react_terminal fuel f id r (with_log w (log w ++ [ev]))) as (res & -> & Hres);
      [done|done|]. by destruct res as [[]| |]. }
  assert (H0 : (Returned tt, w) = (Returned tt, with_log w (log w ++ []))).
  { rewrite app_nil_r. by destruct w. }
  destruct t as [e| |]; cbn [consumer error complete terminal_events].
  - destruct (h_error h); cbn [option_map]; [apply H|exact H0].
  - destruct (h_complete h); cbn [option_map]; [apply H|exact H0].
  - exact H0.
Qed.

(** Any terminal transition of a live cell, up to the call of the cleanup. *)
Lemma terminate_live fuel id f h t w :
  isStopped (the_cell w id) = false ->
  own_subscription w f id ->
  let w1 := snd (set_isStopped id true w) in
  terminate fuel id (consumer fuel f h) t w
  = run_unsubscribeFn (call fuel) id (with_log w1 (log w ++ terminal_events h t)).
Proof.
  intros Hlive Hown. cbn zeta.
  set (w1 := snd (set_isStopped id true w)).
  assert (Hs1 : isStopped (the_cell w1 id) = true).
  { subst w1. rewrite isStopped_set_isStopped. by case_decide. }
  assert (Hown1 : own_subscription w1 f id) by exact Hown.
  destruct t as [e| |]; cbn [terminate].
  - rewrite subscriber_error_live by done. fold w1. unfold bind at 1.
    by rewrite (terminal_callback_runs fuel f id h (ByError e) w1 Hs1 Hown1).
  - rewrite subscriber_complete_live by done. fold w1. unfold bind at 1.
    by rewrite (terminal_callback_runs fuel f id h ByComplete w1 Hs1 Hown1).
  - unfold unsubscribe. rewrite unsubscribe_with_live by done. fold w1.
    f_equal. cbn [terminal_events]. rewrite app_nil_r. symmetry. apply (world_eta w1).
Qed.



(** A terminal transition of a live cell whose cleanup was written by the user. *)
Lemma terminate_user_cleanup fuel id f h t tag c w :
  isStopped (the_cell w id) = false ->
  unsubscribeFn (the_cell w id) = Some (UserFn tag c) ->
  own_subscription w f id ->
  let r := terminate (S fuel) id (consumer (S fuel) f h) t w in
  fst r = match c with Normal _ => Returned tt | Throw x => Raised x end /\
  log (snd r) = log w ++ terminal_events h t ++ [Teardown tag] /\
  the_cell (snd r) id
  = Cell true (match c with Normal _ => None | Throw _ => Some (UserFn tag c) end) /\
  calls (snd r) = calls w ++ [CallCleanup id].
Proof.
  intros Hlive Hslot Hown. cbn zeta. rewrite terminate_live by done.
  pose proof (live_in_range w id Hlive) as Hin.
  set (w1 := snd (set_isStopped id true w)).
  assert (Hc1 : the_cell w1 id = Cell true (Some (UserFn tag c))).
  { subst w1. rewrite the_cell_set_isStopped by done. by rewrite Hslot. }
  rewrite (run_unsubscribeFn_some _ _ (UserFn tag c)) by (by rewrite <- Hslot, <- (unsubscribeFn_set_isStopped id true id w)).
  set (w2 := with_calls _ _).
  assert (Hc2 : the_cell w2 id = Cell true (Some (UserFn tag c))) by exact Hc1.
  assert (Hlog2 : log w2 = log w ++ terminal_events h t) by done.
  assert (Hcalls2 : calls w2 = calls w ++ [CallCleanup id]) by done.
  assert (Hin2 : (id < length (cells w2))%nat).
  { subst w2 w1. simpl. by rewrite length_alter. }
  clearbody w2. clear w1 Hc1.
  destruct c as [[]|x].
  - assert (E : (call (S fuel) (UserFn tag (Normal tt)) ;; set_unsubscribeFn id None) w2
                = (Returned tt,
                   snd (set_unsubscribeFn id None (with_log w2 (log w2 ++ [Teardown tag])))))
      by reflexivity.
    rewrite E. cbn [fst snd]. split; [done|]. split.
    { simpl. by rewrite Hlog2, <- app_assoc. }
    split; [|done].
    rewrite the_cell_set_unsubscribeFn by done.
    change (the_cell (with_log w2 _) id) with (the_cell w2 id). by rewrite Hc2.
  - assert (E : (call (S fuel) (UserFn tag (Throw x)) ;; set_unsubscribeFn id None) w2
                = (Raised x, with_log w2 (log w2 ++ [Teardown tag])))
      by reflexivity.
    rewrite E. cbn [fst snd]. split; [done|]. split.
    { simpl. by rewrite Hlog2, <- app_assoc. }
    split; [|done].
    change (the_cell (with_log w2 _) id) with (the_cell w2 id). by rewrite Hc2.
Qed.

(** * Cancelling a chain of operators *)

Lemma chained_agree g n : forall c w w',
  chained g c n w -> (forall j, (c <= j)%nat -> the_cell w' j = the_cell w j) ->
  chained g c n w'.
Proof.
  induction n as [|n IH]; intros c w w' H Hag; cbn [chained] in *.
  - by rewrite Hag.
  - destruct H as [H1 H2]. split; [by rewrite Hag|].
    apply (IH _ w); [done|]. intros j Hj. apply Hag. lia.
Qed.

(** Registering the [unsubscribe] of the inner Subscription as the cleanup of
    the cell [c] that was allocated before the inner [subscribe] ran. *)
Lemma chain_step g n w w2 :
  let c := length (cells w) in
  chained g (S c) n w2 ->
  (forall j, (j < S c)%nat -> the_cell w2 j = the_cell (snd (alloc_cell w)) j) ->
  let w' := snd (register_cleanup c (RFunction (UnsubscribeOf (S c))) w2) in
  chained g c (S n) w' /\
  (forall j, (j < c)%nat -> the_cell w' j = the_cell w j).
Proof.
  intros c Hch Hag. cbn zeta.
  assert (Hc2 : the_cell w2 c = Cell false None).
  { rewrite Hag by lia. apply the_cell_alloc. }
  assert (Hin : (c < length (cells w2))%nat) by (apply live_in_range; by rewrite Hc2).
  cbn [register_cleanup chained]. split; [split|].
  - rewrite the_cell_set_unsubscribeFn by done. by rewrite Hc2.
  - apply (chained_agree _ _ _ w2); [done|].
    intros j Hj. apply the_cell_set_unsubscribeFn_ne. lia.
  - intros j Hj. rewrite the_cell_set_unsubscribeFn_ne by lia. rewrite Hag by lia.
    destruct (alloc_cell_below 0 w) as [A _]. by apply A.
Qed.

Lemma subscribe_chain fuel g ops : forallb subscribes_upstream ops = true ->
  forall o w,
  exists w',
    subscribe fuel (pipe ops (Create (PReturn (RFunction g)))) (AsObject o) w
    = (Returned (length (cells w)), w') /\
    chained g (length (cells w)) (length ops) w' /\
    log w' = log w /\ calls w' = calls w /\
    (forall j, (j < length (cells w))%nat -> the_cell w' j = the_cell w j) /\
    frames w' = frames w ++ op_frames ops (length (cells w)).
Proof.
  induction ops as [|op ops IH]; intros Hops o w.
  - exists (snd (set_unsubscribeFn (length (cells w)) (Some g) (snd (alloc_cell w)))).
    split; [reflexivity|]. cbn [chained length].
    assert (Hin : (length (cells w) < length (cells (snd (alloc_cell w))))%nat).
    { simpl. rewrite length_app. simpl. lia. }
    split; [rewrite the_cell_set_unsubscribeFn by done; by rewrite the_cell_alloc|].
    split; [done|]. split; [done|]. split; [|by rewrite app_nil_r]. intros j Hj.
    rewrite the_cell_set_unsubscribeFn_ne by lia.
    destruct (alloc_cell_below 0 w) as [A _]. by apply A.
  - cbn [forallb] in Hops. apply andb_prop in Hops as [Hop Hops].
    specialize (IH Hops).
    set (c := length (cells w)).
    set (w1 := with_cells w (cells w ++ [Cell false None])).
    assert (Hlen1 : length (cells w1) = S c) by (subst w1; simpl; rewrite length_app; simpl; lia).
    destruct op as [fn|predicate|count|count]; cbn [pipe fold_right apply_op subscribe normalize];
      fold (pipe ops (Create (PReturn (RFunction g)))); rewrite bind_alloc_cell; fold c w1.
    + destruct (IH (map_observer fn (mk_subscriber fuel c o)) w1)
        as (w2 & Hrun & Hch & Hlog & Hcalls & Hag & Hframes).
      rewrite Hlen1 in *.
      exists (snd (register_cleanup c (RFunction (UnsubscribeOf (S c))) w2)).
      split; [apply subscribe_registers; eapply bind_runs; [exact Hrun|reflexivity]|].
      destruct (chain_step g (length ops) w w2 Hch Hag) as [E1 E2]. done.
    + destruct (IH (filter_observer predicate (mk_subscriber fuel c o)) w1)
        as (w2 & Hrun & Hch & Hlog & Hcalls & Hag & Hframes).
      rewrite Hlen1 in *.
      exists (snd (register_cleanup c (RFunction (UnsubscribeOf (S c))) w2)).
      split; [apply subscribe_registers; eapply bind_runs; [exact Hrun|reflexivity]|].
      destruct (chain_step g (length ops) w w2 Hch Hag) as [E1 E2]. done.
    + cbn [subscribes_upstream] in Hop. destruct (Z.leb_spec count 0); [lia|].
      set (f := length (frames w1)).
      set (w1' := with_frames w1 (frames w1 ++ [Frame 0 None])).
      destruct (IH (take_observer fuel count f (mk_subscriber fuel c o)) w1')
        as (w2 & Hrun & Hch & Hlog & Hcalls & Hag & Hframes).
      change (length (cells w1')) with (length (cells w1)) in *. rewrite Hlen1 in *.
      set (w3 := snd (init_subscription f (S c) w2)).
      exists (snd (register_cleanup c (RFunction (UnsubscribeOf (S c))) w3)).
      split.
      { apply subscribe_registers. rewrite bind_alloc_frame.
        eapply bind_runs; [exact Hrun|]. eapply bind_runs; reflexivity. }
      destruct (chain_step g (length ops) w w3) as [E1 E2];
        [by apply (chained_agree _ _ _ w2)|exact Hag|].
      do 4 (split; [done|]). cbn [op_frames register_cleanup].
      change (frames (snd (set_unsubscribeFn c (Some (UnsubscribeOf (S c))) w3)))
        with (alter (fun fr => Frame (taken fr) (Some (S c))) f (frames w2)).
      rewrite Hframes. change (frames w1') with (frames w ++ [Frame 0 None]).
      rewrite alter_app_l by (rewrite length_app; simpl; subst f; simpl; lia).
      subst f. change (frames w1) with (frames w). rewrite alter_fresh.
      by rewrite <- app_assoc.
    + set (f := length (frames w1)).
      set (w1' := with_frames w1 (frames w1 ++ [Frame 0 None])).
      destruct (IH (skip_observer count f (mk_subscriber fuel c o)) w1')
        as (w2 & Hrun & Hch & Hlog & Hcalls & Hag & Hframes).
      change (length (cells w1')) with (length (cells w1)) in *. rewrite Hlen1 in *.
      set (w3 := snd (init_subscription f (S c) w2)).
      exists (snd (register_cleanup c (RFunction (UnsubscribeOf (S c))) w3)).
      split.
      { apply subscribe_registers. rewrite bind_alloc_frame.
        eapply bind_runs; [exact Hrun|]. eapply bind_runs; reflexivity. }
      destruct (chain_step g (length ops) w w3) as [E1 E2];
        [by apply (chained_agree _ _ _ w2)|exact Hag|].
      do 4 (split; [done|]). cbn [op_frames register_cleanup].
      change (frames (snd (set_unsubscribeFn c (Some (UnsubscribeOf (S c))) w3)))
        with (alter (fun fr => Frame (taken fr) (Some (S c))) f (frames w2)).
      rewrite Hframes. change (frames w1') with (frames w ++ [Frame 0 None]).
      rewrite alter_app_l by (rewrite length_app; simpl; subst f; simpl; lia).
      subst f. change (frames w1) with (frames w). rewrite alter_fresh.
      by rewrite <- app_assoc.
Qed.

Lemma unsubscribe_chain tag n : forall c w fuel,
  chained (UserFn tag (Normal tt)) c n w -> (n < fuel)%nat ->
  exists w',
    unsubscribe fuel c w = (Returned tt, w') /\
    log w' = log w ++ [Teardown tag] /\
    (forall j, (c <= j <= c + n)%nat -> j <> c -> the_cell w' j = Cell true None) /\
    the_cell w' c = Cell true None /\
    (forall j, (j < c)%nat -> the_cell w' j = the_cell w j) /\
    frames w' = frames w.
Proof.
  induction n as [|n IH]; intros c w fuel Hch Hfuel;
    (destruct fuel as [|m]; [lia|]); cbn [chained] in Hch.
  - assert (Hlive : isStopped (the_cell w c) = false) by (by rewrite Hch).
    pose proof (live_in_range w c Hlive) as Hin.
    unfold unsubscribe. rewrite unsubscribe_with_live by done.
    set (w1 := snd (set_isStopped c true w)).
    assert (Hc1 : the_cell w1 c = Cell true (Some (UserFn tag (Normal tt)))).
    { subst w1. rewrite the_cell_set_isStopped by done. by rewrite Hch. }
    rewrite (run_unsubscribeFn_some _ _ (UserFn tag (Normal tt))) by (by rewrite Hc1).
    set (w2 := with_calls w1 _).
    exists (snd (set_unsubscribeFn c None (with_log w2 (log w2 ++ [Teardown tag])))).
    split; [reflexivity|]. split; [done|]. split; [intros j Hj Hne; lia|].
    assert (Hin2 : (c < length (cells w2))%nat).
    { subst w2 w1. simpl. by rewrite length_alter. }
    split.
    + rewrite the_cell_set_unsubscribeFn by done.
      change (the_cell (with_log w2 _) c) with (the_cell w1 c). by rewrite Hc1.
    + split; [|done]. intros j Hj. rewrite the_cell_set_unsubscribeFn_ne by lia.
      change (the_cell (with_log w2 _) j) with (the_cell w1 j).
      subst w1. apply the_cell_set_isStopped_ne. lia.
  - destruct Hch as [Hc Hch].
    assert (Hlive : isStopped (the_cell w c) = false) by (by rewrite Hc).
    pose proof (live_in_range w c Hlive) as Hin.
    unfold unsubscribe. rewrite unsubscribe_with_live by done.
    set (w1 := snd (set_isStopped c true w)).
    assert (Hc1 : the_cell w1 c = Cell true (Some (UnsubscribeOf (S c)))).
    { subst w1. rewrite the_cell_set_isStopped by done. by rewrite Hc. }
    rewrite (run_unsubscribeFn_some _ _ (UnsubscribeOf (S c))) by (by rewrite Hc1).
    set (w2 := with_calls w1 _).
    destruct (IH (S c) w2 m) as (w3 & Hrun & Hlog & Hall & Hnext & Hbelow & Hframes); [|lia|].
    { apply (chained_agree _ _ _ w); [done|]. intros j Hj.
      change (the_cell w2 j) with (the_cell w1 j). subst w1.
      apply the_cell_set_isStopped_ne. lia. }
    exists (snd (set_unsubscribeFn c None w3)).
    split; [eapply bind_runs; [exact Hrun|reflexivity]|].
    split; [done|].
    assert (Hc3 : the_cell w3 c = Cell true (Some (UnsubscribeOf (S c)))).
    { rewrite Hbelow by lia. exact Hc1. }
    assert (Hin3 : (c < length (cells w3))%nat).
    { unfold the_cell in Hc3. destruct (cells w3 !! c) eqn:E; [|done].
      by apply lookup_lt_Some in E. }
    split.
    + intros j Hj Hne. rewrite the_cell_set_unsubscribeFn_ne by lia.
      destruct (decide (j = S c)) as [->|Hne']; [done|]. apply Hall; lia.
    + split.
      * rewrite the_cell_set_unsubscribeFn by done. by rewrite Hc3.
      * split; [|exact Hframes]. intros j Hj. rewrite the_cell_set_unsubscribeFn_ne by lia.
        rewrite Hbelow by lia. change (the_cell w2 j) with (the_cell w1 j).
        subst w1. apply the_cell_set_isStopped_ne. lia.
Qed.

(** * Faults inside one subscription *)

(** X8: on a live subscription with a registered cleanup, [error],
    [complete] and [unsubscribe] return normally whatever the Observer's
    callback does, be it to throw or to call [unsubscribe] on this very
    subscription: the callback is invoked once, then the cleanup once, and the
    subscription is terminal with its cleanup slot cleared. *)
Theorem terminal_callback_fault_contained fuel id f h t tag w :
  isStopped (the_cell w id) = false ->
  unsubscribeFn (the_cell w id) = Some (UserFn tag (Normal tt)) ->
  own_subscription w f id ->
  let r := terminate (S fuel) id (consumer (S fuel) f h) t w in
  fst r = Returned tt /\
  log (snd r) = log w ++ terminal_events h t ++ [Teardown tag] /\
  the_cell (snd r) id = Cell true None /\
  cleanup_count id (calls (snd r)) = S (cleanup_count id (calls w)).
Proof.
  intros Hlive Hslot Hown.
  destruct (terminate_user_cleanup fuel id f h t tag (Normal tt) w Hlive Hslot Hown)
    as (H1 & H2 & H3 & H4).
  cbn zeta in *. split; [done|]. split; [done|]. split; [done|].
  rewrite H4, cleanup_count_app. simpl. rewrite Nat.eqb_refl. lia.
Qed.

Lemma terminal_callback_fault_contained_witness :
  let w := World [Cell false (Some (UserFn "probe" (Normal tt)))] [Frame 0 (Some 0%nat)] [] [] in
  let h := Handlers None (Some (fun _ => Throws boom)) (Some Unsubscribes) in
  let r := terminate 1 0 (consumer 1 0 h) (ByError (VStr "late")) w in
  fst r = Returned tt /\
  log (snd r) = [OnError (VStr "late"); Teardown "probe"] /\
  the_cell (snd r) 0 = Cell true None /\
  cleanup_count 0 (calls (snd r)) = 1%nat.
Proof.
  apply (terminal_callback_fault_contained 0 0 0
           (Handlers None (Some (fun _ => Throws boom)) (Some Unsubscribes))
           (ByError (VStr "late")) "probe"
           (World [Cell false (Some (UserFn "probe" (Normal tt)))] [Frame 0 (Some 0%nat)] [] [])).
  - reflexivity.
  - reflexivity.
  - intros s [= <-]. reflexivity.
Defined.

(** X9: a cleanup that throws [x]: the terminal transition that invokes it,
    [error], [complete] or [unsubscribe], throws [x] to its caller, after the
    Observer's callback has run; the subscription is terminal, the cleanup is
    still in its slot, and it is not invoked again: every later [unsubscribe]
    returns normally and changes nothing. *)
Theorem cleanup_fault_propagates fuel id f h t tag x w :
  isStopped (the_cell w id) = false ->
  unsubscribeFn (the_cell w id) = Some (UserFn tag (Throw x)) ->
  own_subscription w f id ->
  let r := terminate (S fuel) id (consumer (S fuel) f h) t w in
  fst r = Raised x /\
  log (snd r) = log w ++ terminal_events h t ++ [Teardown tag] /\
  the_cell (snd r) id = Cell true (Some (UserFn tag (Throw x))) /\
  cleanup_count id (calls (snd r)) = S (cleanup_count id (calls w)) /\
  (forall k, again k (unsubscribe (S fuel) id) (snd r) = (Returned tt, snd r)).
Proof.
  intros Hlive Hslot Hown.
  destruct (terminate_user_cleanup fuel id f h t tag (Throw x) w Hlive Hslot Hown)
    as (H1 & H2 & H3 & H4).
  cbn zeta in *. split; [done|]. split; [done|]. split; [done|]. split.
  - rewrite H4, cleanup_count_app. simpl. rewrite Nat.eqb_refl. lia.
  - intros k. apply again_unsubscribe_stopped. by rewrite H3.
Qed.

Lemma cleanup_fault_propagates_witness :
  let w := World [Cell false (Some (UserFn "probe" (Throw boom)))] [Frame 0 (Some 0%nat)] [] [] in
  let r := terminate 1 0 (consumer 1 0 recorder) ByUnsubscribe w in
  fst r = Raised boom /\
  log (snd r) = [Teardown "probe"] /\
  the_cell (snd r) 0 = Cell true (Some (UserFn "probe" (Throw boom))) /\
  cleanup_count 0 (calls (snd r)) = 1%nat /\
  (forall k, again k (unsubscribe 1 0) (snd r) = (Returned tt, snd r)).
Proof.
  apply (cleanup_fault_propagates 0 0 0 recorder ByUnsubscribe "probe" boom
           (World [Cell false (Some (UserFn "probe" (Throw boom)))] [Frame 0 (Some 0%nat)] [] [])).
  - reflexivity.
  - reflexivity.
  - intros s [= <-]. reflexivity.
Defined.

(** X10: when the subscribe-procedure returns [rv] and the subscription is
    still live, [subscribe] returns the Subscription, still live, with the
    cleanup [rv] stands for in its slot: [rv] itself if it is a function, a
    call of its [unsubscribe] method if it is an object with one, and nothing
    otherwise; it adds nothing to the log.  The first [unsubscribe] then
    leaves the subscription terminal.  If there is no cleanup it returns and
    does nothing else.  If there is the cleanup [g] it calls [g] once, after
    the flag has been set, and then clears the slot; when [g] was written by
    the user the log grows by the one record of that call, the call returns
    if [g] does, the slot is empty afterwards, and further calls of
    [unsubscribe] add nothing. *)
Theorem returned_cleanup_registered fuel p h w rv w2 :
  let id := length (cells w) in
  let f := length (frames w) in
  run_producer fuel p (mk_subscriber fuel id (consumer fuel f h)) (started w) = (Returned rv, w2) ->
  isStopped (the_cell w2 id) = false ->
  let r := run_subscribe fuel (Create p) h w in
  fst r = Returned id /\
  the_cell (snd r) id = Cell false (registered rv) /\
  log (snd r) = log w2 /\
  let ru := unsubscribe fuel id (snd r) in
  let w3 := snd ru in
  isStopped (the_cell w3 id) = true /\
  cleanup_count id (calls w3)
  = (cleanup_count id (calls w) + match registered rv with Some _ => 1 | None => 0 end)%nat /\
  (registered rv = None -> ru = (Returned tt, snd (set_isStopped id true (snd r)))) /\
  (forall g,
     registered rv = Some g ->
     ru = (call fuel g ;; set_unsubscribeFn id None)
            (with_calls (snd (set_isStopped id true (snd r)))
               (calls (snd r) ++ [CallCleanup id]))) /\
  (forall tag c,
     registered rv = Some (UserFn tag c) ->
     (1 <= fuel)%nat ->
     fst ru = match c with Normal _ => Returned tt | Throw x => Raised x end /\
     log w3 = log w2 ++ [Teardown tag] /\
     the_cell w3 id
     = Cell true (match c with Normal _ => None | Throw _ => Some (UserFn tag c) end) /\
     forall k, log (snd (again k (unsubscribe fuel id) w3)) = log w2 ++ [Teardown tag]).
Proof.
  intros id f Hrun Hlive. cbn zeta.
  destruct (started_facts _ _ _ _ _ _ Hrun) as (Hlen & Hfr & Hslot & Hcount).
  fold id f in Hlen, Hfr, Hslot, Hcount.
  rewrite (run_subscribe_create_returned _ _ _ _ _ _ Hrun). fold id f. cbn [fst snd].
  set (w' := snd (init_subscription f id _)).
  assert (Hin : (id < length (cells w2))%nat) by (by apply live_in_range).
  assert (Hcell : the_cell w' id = Cell false (registered rv)).
  { subst w'. change (the_cell (snd (init_subscription f id ?w)) id) with (the_cell w id).
    assert (Hnone : the_cell w2 id = Cell false None).
    { transitivity (Cell (isStopped (the_cell w2 id)) (unsubscribeFn (the_cell w2 id)));
        [by destruct (the_cell w2 id)|]. by rewrite Hlive, Hslot. }
    destruct rv as [|g|[g|]|v]; cbn [register_cleanup registered ret snd]; try done;
      rewrite the_cell_set_unsubscribeFn by done; by rewrite Hlive. }
  assert (Hcalls : calls w' = calls w2).
  { subst w'. by destruct rv as [|g|[g|]|v]. }
  assert (Hlog : log w' = log w2).
  { subst w'. by destruct rv as [|g|[g|]|v]. }
  assert (Hl' : isStopped (the_cell w' id) = false) by (by rewrite Hcell).
  assert (Hstop : isStopped (the_cell (snd (unsubscribe fuel id w')) id) = true)
    by apply (terminate_stops fuel id 0 (Handlers None None None) ByUnsubscribe).
  split; [done|]. split; [done|]. split; [done|]. split; [done|].
  split; [rewrite unsubscribe_count, Hcell, Hcalls, Hcount; by destruct (registered rv)|].
  split; [intros Hn; apply unsubscribe_live_none; [done|by rewrite Hcell]|].
  split; [intros g Hg; apply unsubscribe_live_some; [done|by rewrite Hcell]|].
  intros tag c Hg Hfuel. destruct fuel as [|n]; [lia|].
  destruct (unsubscribe_user_cleanup n id tag c w' Hl') as (E1 & E2 & E3 & _);
    [by rewrite Hcell|].
  rewrite Hlog in E2.
  split; [exact E1|]. split; [exact E2|]. split; [exact E3|].
  intros k. rewrite again_unsubscribe_stopped by exact Hstop. exact E2.
Qed.

Lemma returned_cleanup_registered_witness :
  let p := PCall (SigNext (VNum 1))
             (fun _ => PReturn (RObject (Some (UserFn "inner" (Normal tt))))) in
  let r := run_subscribe 1 (Create p) recorder empty_world in
  let ru := unsubscribe 1 0 (snd r) in
  fst r = Returned 0%nat /\
  the_cell (snd r) 0 = Cell false (Some (UserFn "inner" (Normal tt))) /\
  log (snd r) = [OnNext (VNum 1)] /\
  fst ru = Returned tt /\
  log (snd ru) = [OnNext (VNum 1); Teardown "inner"] /\
  the_cell (snd ru) 0 = Cell true None /\
  log (snd (again 2 (unsubscribe 1 0) (snd ru))) = [OnNext (VNum 1); Teardown "inner"].
Proof.
  destruct (returned_cleanup_registered 1
              (PCall (SigNext (VNum 1))
                 (fun _ => PReturn (RObject (Some (UserFn "inner" (Normal tt))))))
              recorder empty_world (RObject (Some (UserFn "inner" (Normal tt))))
              (World [Cell false None] [Frame 0 None] [OnNext (VNum 1)] [CallNext 0 (VNum 1)])
              eq_refl eq_refl)
    as (H1 & H2 & H3 & _ & _ & _ & _ & H8).
  destruct (H8 "inner" (Normal tt) eq_refl (le_n 1)) as (E1 & E2 & E3 & E4).
  split; [exact H1|]. split; [exact H2|]. split; [exact H3|].
  split; [exact E1|]. split; [exact E2|]. split; [exact E3|]. exact (E4 2%nat).
Defined.

(** X11: cancellation reaches the source.  Over a source whose
    subscribe-procedure returns a cleanup without emitting, under any chain
    of [map], [filter], [skip] and [take(count)] with [count > 0]:
    [subscribe] invokes no callback, and one [unsubscribe] on the Subscription
    it returns runs the source's cleanup, exactly once, and leaves the
    subscription of every operator and of the source terminal with its cleanup
    slot cleared. *)
Theorem unsubscribe_reaches_source fuel ops tag h w :
  forallb subscribes_upstream ops = true ->
  (length ops < fuel)%nat ->
  let source := pipe ops (Create (PReturn (RFunction (UserFn tag (Normal tt))))) in
  let id := length (cells w) in
  let r := run_subscribe fuel source h w in
  let r' := unsubscribe fuel id (snd r) in
  fst r = Returned id /\
  log (snd r) = log w /\
  fst r' = Returned tt /\
  log (snd r') = log w ++ [Teardown tag] /\
  (forall j, (id <= j <= id + length ops)%nat -> the_cell (snd r') j = Cell true None).
Proof.
  intros Hops Hfuel. cbn zeta.
  set (f0 := length (frames w)). set (w1 := with_frames w (frames w ++ [Frame 0 None])).
  destruct (subscribe_chain fuel (UserFn tag (Normal tt)) ops Hops (consumer fuel f0 h) w1)
    as (w2 & Hrun & Hch & Hlog & Hcalls & Hbelow & _).
  change (length (cells w1)) with (length (cells w)) in *.
  set (w3 := snd (init_subscription f0 (length (cells w)) w2)).
  assert (E : run_subscribe fuel
                (pipe ops (Create (PReturn (RFunction (UserFn tag (Normal tt)))))) h w
              = (Returned (length (cells w)), w3)).
  { unfold run_subscribe. rewrite bind_alloc_frame.
    eapply bind_runs; [exact Hrun|reflexivity]. }
  rewrite E. cbn [fst snd].
  destruct (unsubscribe_chain tag (length ops) (length (cells w)) w3 fuel)
    as (w4 & Hun & Hlog4 & Hall & Hfirst & _); [|done|].
  { by apply (chained_agree _ _ _ w2). }
  rewrite Hun. cbn [fst snd]. split; [done|]. split; [done|]. split; [done|].
  split; [rewrite Hlog4; change (log w3) with (log w2); by rewrite Hlog|].
  intros j Hj. destruct (decide (j = length (cells w))) as [->|Hne]; [done|by apply Hall].
Qed.

Lemma unsubscribe_reaches_source_witness :
  let source := Map twice (Take 3 (Create (PReturn (RFunction (UserFn "source" (Normal tt)))))) in
  let r := run_subscribe 3 source recorder empty_world in
  let r' := unsubscribe 3 0 (snd r) in
  fst r = Returned 0%nat /\
  log (snd r) = [] /\
  fst r' = Returned tt /\
  log (snd r') = [Teardown "source"] /\
  (forall j, (0 <= j <= 2)%nat -> the_cell (snd r') j = Cell true None).
Proof.
  apply (unsubscribe_reaches_source 3 [OpMap twice; OpTake 3] "source" recorder empty_world).
  - reflexivity.
  - simpl. lia.
Defined.

(** * Operators over a source that emits later *)





Lemma stopped_in_range w c : (c < length (cells w))%nat \/ isStopped (the_cell w c) = true.
Proof.
  unfold the_cell. destruct (cells w !! c) eqn:E; [left; by apply lookup_lt_Some in E|by right].
Qed.

Section Later.
Context (fuel f0 : nat) (h : handlers) (tag : string) (base n : nat).
Local Abbreviation obs := (observer_of fuel f0 h).
Local Abbreviation g := (UserFn tag (Normal tt)).
Local Abbreviation ending_out := (fun t => if has_handler h t then [ending_event t] else []).








Lemma frames_hold_below k : forall nf st w,
  frames_hold f0 base nf k st w -> (f0 < nf)%nat.
Proof.
  induction k as [|nd k IH]; intros nf [|s st] w H; try done.
  - by destruct H.
  - destruct H as (_ & H2 & H). apply IH in H.
    unfold sub_bound in H. destruct (node_frame nd); [destruct H2; lia|done].
Qed.









End Later.

(** *** What the nodes leave terminal, as a function on lists *)












(** *** The nodes of a chain of operators *)






(** *** Signals sent after [subscribe] has returned *)






(** * What a chain of operators delivers later *)





(** * Worked executions *)

(** The consumer's [next] throws [boom] under a producer that lets exceptions
    through: the Observer's [error] callback is reached only through the catch
    of [subscribe], and with the TypeError of line 49, not with [boom]. *)
Example next_throw_through_subscribe :
  let p := PCall (SigNext (VNum 1))
             (fun r => match r with None => PReturn RUndefined | Some x => PThrow x end) in
  let h := Handlers (Some (fun _ => Throws boom)) (Some (fun _ => Returns)) (Some Returns) in
  log (snd (run_subscribe 1 (Create p) h empty_world))
  = [OnNext (VNum 1); OnError (TypeError "this.error is not a function")].
Proof. reflexivity. Qed.

(** An Observer whose [next] calls [unsubscribe] on its own subscription while
    [from] is still iterating: [subscription] is not initialised yet, the
    ReferenceError becomes the TypeError of line 49, and that TypeError, not
    the test of line 271, ends the loop. *)
Example unsubscribe_inside_next_of_from :
  let h := Handlers (Some (fun _ => Unsubscribes)) (Some (fun _ => Returns)) (Some Returns) in
  let r := run_subscribe 1 (From [VNum 1; VNum 2; VNum 3]) h empty_world in
  log (snd r) = [OnNext (VNum 1); OnError (TypeError "this.error is not a function")] /\
  calls (snd r) = [CallNext 0 (VNum 1)].
Proof. split; reflexivity. Qed.

(** take(2) over from([1, 2, 3]). *)
Example take_two_of_three :
  log (snd (run_subscribe 1 (Take 2 (From [VNum 1; VNum 2; VNum 3])) recorder empty_world))
  = [OnNext (VNum 1); OnNext (VNum 2); OnComplete].
Proof. reflexivity. Qed.

(** An asynchronous producer under [take(1)]: it returns its cleanup first and
    emits later; the first value completes the downstream, whose cleanup
    unsubscribes upstream, and the producer's cleanup runs once. *)
Example take_one_of_deferred :
  let p := PReturn (RFunction (UserFn "upstream" (Normal tt))) in
  let w := snd (run_subscribe 3 (Take 1 (Create p)) recorder empty_world) in
  let downstream := mk_subscriber 3 0 (consumer 3 0 recorder) in
  let upstream := mk_subscriber 3 1 (take_observer 3 1 1 downstream) in
  log (send_all upstream [SigNext (VNum 7); SigNext (VNum 8)] w)
  = [OnNext (VNum 7); OnComplete; Teardown "upstream"].
Proof. reflexivity. Qed.
